(** * cordova-android [lib/prepare.js]: icon resolution, adaptive/legacy
    icon materialisation, splash-screen theme and version code.

    A shallow embedding of the functions of [lib/prepare.js] that decide
    where launcher icons go and how the splash-screen theme is rewritten,
    followed by the properties proved about them.

    Conventions of the embedding.
    - A JavaScript string is a [string] of bytes; [toLowerCase] is modelled
      on the ASCII letters.
    - A property that may be [undefined] or [null] is an [option]; the
      truthiness JavaScript gives it is [truthy] (a string is falsy when
      empty, a number when zero).
    - Icon sizes are integers ([Z]), as the project descriptor declares them.
    - An ordinary object used as a dictionary whose enumeration order matters
      ([android_icons], [found], element attributes) is a [JsObj.t]: the
      properties in creation order, with [JsObj.for_in] giving the order
      [for ... in] visits them.  The resource map handed to
      [FileUpdater.updatePaths] is a [gmap] from target path to source
      ([None] is the [null] that asks for deletion).
    - Effects (files written, events emitted, calls of
      [FileUpdater.updatePaths], exceptions) are threaded through the monad
      [M] over a [world].
    - [node:path] is modelled for POSIX paths. *)

From Stdlib Require Import String Ascii ZArith List Bool Lia DecimalString.
From stdpp Require Import gmap strings.

Set Warnings "-register-all".
Local Open Scope Z_scope.

(** ** Strings *)

(** The double quote and the line feed, which a string literal cannot hold. *)
Definition dquote : string := String (ascii_of_nat 34) EmptyString.
Definition newline : string := String (ascii_of_nat 10) EmptyString.

(** [s.startsWith(p)] *)
Definition startsWith (s p : string) : bool := String.prefix p s.

(** [s.endsWith(p)]: some suffix of [s] is [p]. *)
Fixpoint endsWith (s p : string) : bool :=
  String.eqb s p
  || match s with
     | EmptyString => false
     | String _ s' => endsWith s' p
     end.

(** [s.toLowerCase()] on the ASCII letters. *)
Definition lower_ascii (c : ascii) : ascii :=
  let n := nat_of_ascii c in
  if ((65 <=? n) && (n <=? 90))%nat then ascii_of_nat (n + 32) else c.

Definition upper_ascii (c : ascii) : ascii :=
  let n := nat_of_ascii c in
  if ((97 <=? n) && (n <=? 122))%nat then ascii_of_nat (n - 32) else c.

Fixpoint toLowerCase (s : string) : string :=
  match s with
  | EmptyString => EmptyString
  | String c s' => String (lower_ascii c) (toLowerCase s')
  end.

(** [s.split(c)] for a one-character separator: never empty, and
    splitting the empty string gives the list holding the empty string. *)
Fixpoint split_on (c : ascii) (s : string) : list string :=
  match s with
  | EmptyString => [EmptyString]
  | String x s' =>
      if Ascii.eqb x c then EmptyString :: split_on c s'
      else match split_on c s' with
           | h :: t => String x h :: t
           | [] => [String x EmptyString]
           end
  end.

(** Position of the last occurrence of [c] in [s]. *)
Fixpoint last_index_of (c : ascii) (s : string) : option nat :=
  match s with
  | EmptyString => None
  | String x s' =>
      match last_index_of c s' with
      | Some i => Some (S i)
      | None => if Ascii.eqb x c then Some 0%nat else None
      end
  end.

(** [s.replace(/'/g, "\\'")]: a backslash before every apostrophe. *)
Fixpoint escape_apostrophes (s : string) : string :=
  match s with
  | EmptyString => EmptyString
  | String c s' =>
      if Ascii.eqb c (ascii_of_nat 39)
      then String (ascii_of_nat 92) (String c (escape_apostrophes s'))
      else String c (escape_apostrophes s')
  end.

(** ** JavaScript values *)

(** Truthiness of a value that is a string, [undefined] or [null]. *)
Definition truthy (v : option string) : bool :=
  match v with
  | Some s => negb (String.eqb s EmptyString)
  | None => false
  end.

(** Truthiness of a value that is a number or [undefined]. *)
Definition truthyZ (v : option Z) : bool :=
  match v with
  | Some z => negb (z =? 0)
  | None => false
  end.

(** [a || b] *)
Definition js_or (a b : option string) : option string :=
  if truthy a then a else b.

Definition js_orZ (a b : option Z) : option Z :=
  if truthyZ a then a else b.

(** String concatenation applied to a number or [undefined]: integers
    print in decimal (as JavaScript prints them below 10^21). *)
Definition string_of_Z (z : Z) : string := NilZero.string_of_int (Z.to_int z).

Definition string_of_num (v : option Z) : string :=
  match v with
  | Some z => string_of_Z z
  | None => "undefined"
  end.

(** ** Objects used as dictionaries *)

Module JsObj.

(** The own properties of an ordinary object, in creation order.  The
    objects modelled are created as [{}] and only ever receive the keys the
    program writes; the key [__proto__], which JavaScript routes to the
    prototype instead of an own property, is outside the model. *)
Definition t (V : Type) : Type := list (string * V).

Definition empty {V} : t V := [].

(** [o[k]] ([None] is [undefined]). *)
Fixpoint get {V} (o : t V) (k : string) : option V :=
  match o with
  | [] => None
  | (k', v) :: o' => if String.eqb k' k then Some v else get o' k
  end.

(** [o[k] = v]: an existing property keeps its place. *)
Fixpoint set {V} (o : t V) (k : string) (v : V) : t V :=
  match o with
  | [] => [(k, v)]
  | (k', v') :: o' =>
      if String.eqb k' k then (k', v) :: o' else (k', v') :: set o' k v
  end.

(** [delete o[k]] *)
Fixpoint delete {V} (o : t V) (k : string) : t V :=
  match o with
  | [] => []
  | (k', v') :: o' =>
      if String.eqb k' k then o' else (k', v') :: delete o' k
  end.

Definition is_digit (c : ascii) : bool :=
  let n := nat_of_ascii c in ((48 <=? n) && (n <=? 57))%nat.

Fixpoint digits_value (acc : N) (s : string) : option N :=
  match s with
  | EmptyString => Some acc
  | String c s' =>
      if is_digit c
      then digits_value (acc * 10 + N.of_nat (nat_of_ascii c - 48))%N s'
      else None
  end.

(** A key is an array index when it is the canonical decimal form of an
    integer in [0, 2^32 - 2]. *)
Definition array_index (k : string) : option N :=
  match k with
  | EmptyString => None
  | String c rest =>
      if (Ascii.eqb c "0"%char && negb (String.eqb rest EmptyString))
         || (10 <? String.length k)%nat
      then None
      else match digits_value 0%N k with
           | Some n => if (n <=? 4294967294)%N then Some n else None
           | None => None
           end
  end.

Fixpoint insert_index {V} (n : N) (e : string * V) (l : list (N * (string * V)))
  : list (N * (string * V)) :=
  match l with
  | [] => [(n, e)]
  | (m, e') :: l' =>
      if (n <? m)%N then (n, e) :: l else (m, e') :: insert_index n e l'
  end.

Fixpoint index_entries {V} (o : t V) : list (N * (string * V)) :=
  match o with
  | [] => []
  | (k, v) :: o' =>
      match array_index k with
      | Some n => insert_index n (k, v) (index_entries o')
      | None => index_entries o'
      end
  end.

Fixpoint named_entries {V} (o : t V) : list (string * V) :=
  match o with
  | [] => []
  | (k, v) :: o' =>
      match array_index k with
      | Some _ => named_entries o'
      | None => (k, v) :: named_entries o'
      end
  end.

(** The order in which [for (const k in o)] visits the properties: array
    indices in ascending order, then the other keys in creation order. *)
Definition for_in {V} (o : t V) : list (string * V) :=
  map snd (index_entries o) ++ named_entries o.

End JsObj.

(** ** [node:path], POSIX flavour *)

Module Path.

Definition slash : ascii := ascii_of_nat 47.
Definition dot : ascii := ascii_of_nat 46.

Fixpoint drop_trailing_empty (l : list string) : list string :=
  match l with
  | [] => []
  | s :: l' =>
      match drop_trailing_empty l' with
      | [] => if String.eqb s EmptyString then [] else [s]
      | r => s :: r
      end
  end.

(** [path.basename(p)]: the last portion of the path, trailing separators
    ignored. *)
Definition basename (p : string) : string :=
  List.last (drop_trailing_empty (split_on slash p)) EmptyString.

(** The extension of a file name without separators: from its last dot,
    unless there is none, it is the first character, or the name is [..]. *)
Definition ext_of (b : string) : string :=
  match last_index_of dot b with
  | None => EmptyString
  | Some O => EmptyString
  | Some i =>
      if String.eqb b ".." then EmptyString
      else substring i (String.length b - i) b
  end.

(** [path.extname(p)] *)
Definition extname (p : string) : string := ext_of (basename p).

(** One step of [normalizeString]: a segment is skipped when empty or [.],
    [..] removes the segment before it (or is kept, above a relative root),
    anything else is kept.  [stack] holds the kept segments, last first. *)
Definition normalize_step (allowAboveRoot : bool) (stack : list string)
    (seg : string) : list string :=
  if String.eqb seg EmptyString || String.eqb seg "." then stack
  else if String.eqb seg ".." then
    match stack with
    | top :: below =>
        if String.eqb top ".." then
          (if allowAboveRoot then seg :: stack else stack)
        else below
    | [] => if allowAboveRoot then [seg] else []
    end
  else seg :: stack.

Definition normalize_segments (allowAboveRoot : bool) (segs : list string)
  : list string :=
  rev (fold_left (normalize_step allowAboveRoot) segs []).

(** [path.normalize(p)] *)
Definition normalize (p : string) : string :=
  if String.eqb p EmptyString then "."
  else
    let isAbsolute := startsWith p "/" in
    let trailingSeparator := endsWith p "/" in
    let res :=
      String.concat "/" (normalize_segments (negb isAbsolute) (split_on slash p)) in
    if String.eqb res EmptyString then
      (if isAbsolute then "/" else if trailingSeparator then "./" else ".")
    else
      let res := if trailingSeparator then res +:+ "/" else res in
      if isAbsolute then "/" +:+ res else res.

(** [path.join(...args)]: the non-empty arguments joined by a separator,
    then normalised. *)
Definition join (args : list string) : string :=
  match List.filter (fun a => negb (String.eqb a EmptyString)) args with
  | [] => "."
  | parts => normalize (String.concat "/" parts)
  end.

End Path.

(** ** The world the program acts on *)

(** An element of an [elementtree] document: tag, attributes, text and
    children (the tail text between elements is not modelled). *)
Inductive element : Type :=
  Element (tag : string) (attrib : JsObj.t string) (text : option string)
          (children : list element).

(** What a file holds: a parsed XML document (parsing what was serialised
    gives the document back), or plain text or bytes. *)
Inductive content : Type :=
| Xml (doc : element)
| Text (data : string).

Inductive level : Type := verbose | warn | log.

(** The messages [events.emit] is called with, with the values
    interpolated into them. *)
Inductive message : Type :=
| NoLauncherIcons
| MonochromeWithoutAdaptive
| ExtraDefaultIcon (found favor : JsObj.t string)
| UpdatingIconsAt (platformResourcesDir : string)
| EdgeToEdgeNotSet
| EdgeToEdgeInvalid
| UpdatingThemeItem (key value : string)
| SplashBackgroundSetTo (value : string)
| BrandingImageNotSupported (themeKey : string)
| ImagePreferenceUndefined (prefKey : string)
| ImagePreferenceMissingFile (prefKey : string)
| ImagePreferenceBadExtension (prefKey : string)
| ThemePropertyUnknown (themeKey : string)
| WroteColors (path : string)
| WroteThemes (path : string).

Inductive event : Type := Emit (l : level) (m : message).

(** The resource map of [FileUpdater.updatePaths]: target path to source
    path, [None] for the [null] that deletes the target. *)
Abbreviation resource_map := (gmap string (option string)).

Record world : Type := mkWorld {
  files : gmap string content;
  events : list event;
  updatePaths_calls : list (resource_map * string)
}.

Inductive error : Type :=
| CordovaError (msg : string)
| TypeError
| Error (what : string).

Inductive result (A : Type) : Type :=
| Ok (a : A)
| Throw (e : error).
Arguments Ok {A} a.
Arguments Throw {A} e.

(** Computations that read and change the world and may throw. *)
Definition M (A : Type) : Type := world -> world * result A.

Definition ret {A} (a : A) : M A := fun w => (w, Ok a).

Definition bind {A B} (m : M A) (k : A -> M B) : M B :=
  fun w =>
    match m w with
    | (w', Ok a) => k a w'
    | (w', Throw e) => (w', Throw e)
    end.

Definition throw {A} (e : error) : M A := fun w => (w, Throw e).

Notation "'let*' x ':=' c 'in' k" := (bind c (fun x => k))
  (at level 10, x pattern, c at level 100, k at level 200).

(** [events.emit(level, message)] *)
Definition emit (l : level) (m : message) : M unit :=
  fun w => (mkWorld (files w) (events w ++ [Emit l m]) (updatePaths_calls w), Ok tt).

(** [fs.writeFileSync(path, data)]; a relative path names a file under the
    working directory, which is also how [path.resolve] reads it.  The
    world holds files, not directories: the directory of [path] is taken
    to exist, as it does when the file is already there, and the [ENOENT]
    of a missing directory is outside the model. *)
Definition writeFileSync (path : string) (data : content) : M unit :=
  fun w => (mkWorld (<[path := data]> (files w)) (events w) (updatePaths_calls w), Ok tt).

(** [fs.existsSync(path)] *)
Definition existsSync (path : string) : M bool :=
  fun w => (w, Ok (bool_decide (is_Some (files w !! path)))).

(** [fs.rmSync(path)] *)
Definition rmSync (path : string) : M unit :=
  fun w =>
    match files w !! path with
    | Some _ => (mkWorld (delete path (files w)) (events w) (updatePaths_calls w), Ok tt)
    | None => (w, Throw (Error "ENOENT"))
    end.

(** [fs.cpSync(src, dest)] *)
Definition cpSync (src dest : string) : M unit :=
  fun w =>
    match files w !! src with
    | Some c => (mkWorld (<[dest := c]> (files w)) (events w) (updatePaths_calls w), Ok tt)
    | None => (w, Throw (Error "ENOENT"))
    end.

(** [FileUpdater.updatePaths(resourceMap, { rootDir }, logFileOp)]: the
    synchronisation engine is an external collaborator; the call is
    recorded with the map it was handed. *)
Definition FileUpdater_updatePaths (resourceMap : resource_map) (rootDir : string)
  : M unit :=
  fun w => (mkWorld (files w) (events w) (updatePaths_calls w ++ [(resourceMap, rootDir)]), Ok tt).

(** A loop over a list whose body may act on the world. *)
Fixpoint for_each {A S} (body : S -> A -> M S) (l : list A) (s : S) : M S :=
  match l with
  | [] => ret s
  | x :: l' => let* s' := body s x in for_each body l' s'
  end.

(** ** Icons *)

(** An icon declaration as [ConfigParser.getIcons] returns it. *)
Record Icon : Type := mkIcon {
  src : option string;
  density : option string;
  platform : option string;
  width : option Z;
  height : option Z;
  background : option string;
  foreground : option string;
  monochrome : option string
}.

Definition set_src (icon : Icon) (v : option string) : Icon :=
  mkIcon v (density icon) (platform icon) (width icon) (height icon)
         (background icon) (foreground icon) (monochrome icon).

(** The string of a value known to be one. *)
Definition str (v : option string) : string := default EmptyString v.

(** [getImageResourcePath] *)
Definition getImageResourcePath (resourcesDir type density name sourceName : string)
  : string :=
  let ext := if endsWith sourceName ".9.png" then ".9.png"%string
             else toLowerCase (Path.extname sourceName) in
  let subDir := if String.eqb density EmptyString then type
                else type +:+ "-" +:+ density in
  Path.join [resourcesDir; subDir; name +:+ ext].

(** [name.replace(/\.png$/, '.9.png')] *)
Definition replace_png_suffix (name : string) : string :=
  if endsWith name ".png"
  then substring 0 (String.length name - 4) name +:+ ".9.png"
  else name.

(** [getAdaptiveImageResourcePath] *)
Definition getAdaptiveImageResourcePath
    (resourcesDir type density name sourceName : string) : string :=
  let name := if endsWith sourceName ".9.png" then replace_png_suffix name else name in
  Path.join [resourcesDir;
             (if String.eqb density EmptyString then type
              else type +:+ "-" +:+ density +:+ "-v26");
             name].

(** [mapImageResources]: [folders] is what
    [glob.sync(type + '-*', { cwd: path.join(rootDir, subDir), onlyDirectories: true })]
    finds. *)
Definition mapImageResources (folders : list string) (subDir resourceName : string)
  : resource_map :=
  fold_left (fun pathMap drawableFolder =>
               <[Path.join [subDir; drawableFolder; resourceName] := None]> pathMap)
            folders ∅.

(** [Object.assign(target, ...sources)]: later sources overwrite. *)
Definition Object_assign (target : resource_map) (sources : list resource_map)
  : resource_map :=
  fold_left (fun t s => s ∪ t) sources target.

(** The identifier an icon is reported under:
    [icon.density ? icon.density : 'size=' + (icon.height || icon.width)]. *)
Definition icon_identifier (icon : Icon) : string :=
  if truthy (density icon) then str (density icon)
  else "size=" +:+ string_of_num (js_orZ (height icon) (width icon)).

(** The first test of the validation loop of [updateIcons]. *)
Definition missing_attributes (icon : Icon) : bool :=
  (truthy (background icon) && negb (truthy (foreground icon)))
  || (negb (truthy (background icon)) && truthy (foreground icon))
  || (negb (truthy (background icon)) && negb (truthy (foreground icon))
      && negb (truthy (src icon))).

(** [fg.startsWith('@color') || path.extname(path.basename(fg)) === '.xml'] *)
Definition color_or_vector (fg : string) : bool :=
  startsWith fg "@color" || String.eqb (Path.extname (Path.basename fg)) ".xml".

(** The state of the validation loop: the icons seen so far (with the
    [src] the loop assigns), the two error lists and the flag. *)
Record validation : Type := mkValidation {
  icons_seen : list Icon;
  errorMissingAttributes : list string;
  errorLegacyIconNeeded : list string;
  hasAdaptive : bool
}.

(** One round of [icons.forEach((icon, key) => ...)]. *)
Definition validate_icon (st : validation) (icon : Icon) : validation :=
  let missing :=
    if missing_attributes icon
    then errorMissingAttributes st ++ [icon_identifier icon]
    else errorMissingAttributes st in
  if truthy (foreground icon) then
    if negb (truthy (src icon)) && color_or_vector (str (foreground icon)) then
      mkValidation (icons_seen st ++ [icon]) missing
                   (errorLegacyIconNeeded st ++ [icon_identifier icon]) true
    else if negb (truthy (src icon)) then
      mkValidation (icons_seen st ++ [set_src icon (foreground icon)]) missing
                   (errorLegacyIconNeeded st) true
    else
      mkValidation (icons_seen st ++ [icon]) missing (errorLegacyIconNeeded st) true
  else
    mkValidation (icons_seen st ++ [icon]) missing (errorLegacyIconNeeded st)
                 (hasAdaptive st).

Definition validate_icons (icons : list Icon) : validation :=
  fold_left validate_icon icons (mkValidation [] [] [] false).

(** The messages pushed on [errorMessage]. *)
Definition missing_attributes_message (ids : list string) : string :=
  "One of the following attributes are set but missing the other for the density type: "
  +:+ String.concat ", " ids
  +:+ ". Please ensure that all require attributes are defined.".

Definition legacy_icon_needed_message (ids : list string) : string :=
  "For the following icons with the density of: "
  +:+ String.concat ", " ids
  +:+ ", adaptive foreground with a defined color or vector can not be used as a standard fallback icon for older Android devices. To support older Android environments, please provide a value for the src attribute.".

Definition validation_errorMessage (v : validation) : list string :=
  (match errorMissingAttributes v with
   | [] => []
   | ids => [missing_attributes_message ids]
   end)
  ++ (match errorLegacyIconNeeded v with
      | [] => []
      | ids => [legacy_icon_needed_message ids]
      end).

(** *** [prepareIcons] *)

Definition SIZE_TO_DENSITY_MAP (size : option Z) : option string :=
  match size with
  | Some 36 => Some "ldpi"%string
  | Some 48 => Some "mdpi"%string
  | Some 72 => Some "hdpi"%string
  | Some 96 => Some "xhdpi"%string
  | Some 144 => Some "xxhdpi"%string
  | Some 192 => Some "xxxhdpi"%string
  | _ => None
  end.

(** [parseIcon]: [icon] takes the slot of its density unless a
    platform-specific icon already holds it. *)
Definition parseIcon (android_icons : JsObj.t Icon) (icon : Icon) (icon_size : option Z)
  : JsObj.t Icon :=
  let density := js_or (density icon) (SIZE_TO_DENSITY_MAP icon_size) in
  if negb (truthy density) then android_icons
  else
    match JsObj.get android_icons (str density) with
    | Some previous =>
        if truthy (platform previous) then android_icons
        else JsObj.set android_icons (str density) icon
    | None => JsObj.set android_icons (str density) icon
    end.

(** The objects [found] and [favor] that the duplicate-default diagnostic
    prints with [JSON.stringify]. *)
Definition icon_summary (icon : Icon) : JsObj.t string :=
  let o := JsObj.empty in
  let o :=
    if truthy (background icon) && truthy (foreground icon) && truthy (monochrome icon)
    then JsObj.set (JsObj.set (JsObj.set o "background" (str (background icon)))
                              "foreground" (str (foreground icon)))
                   "monochrome" (str (monochrome icon))
    else o in
  let o :=
    if truthy (background icon) && truthy (foreground icon)
    then JsObj.set (JsObj.set o "background" (str (background icon)))
                   "foreground" (str (foreground icon))
    else o in
  if truthy (src icon) then JsObj.set o "src" (str (src icon)) else o.

Record preparedIcons : Type := mkPrepared {
  android_icons : JsObj.t Icon;
  default_icon : option Icon
}.

(** One round of the loop of [prepareIcons]. *)
Definition prepareIcons_step (st : preparedIcons) (icon : Icon) : M preparedIcons :=
  let size := js_orZ (width icon) (height icon) in
  if negb (truthyZ size) && negb (truthy (density icon)) then
    match default_icon st with
    | Some dflt =>
        let* _ := emit verbose (ExtraDefaultIcon (icon_summary icon) (icon_summary dflt)) in
        ret st
    | None => ret (mkPrepared (android_icons st) (Some icon))
    end
  else ret (mkPrepared (parseIcon (android_icons st) icon size) (default_icon st)).

Definition prepareIcons (icons : list Icon) : M preparedIcons :=
  for_each prepareIcons_step icons (mkPrepared JsObj.empty None).

(** *** [updateIconResourceForAdaptive] *)

(** The variables [background], [foreground] and [monochrome], declared
    before the loop over the densities and assigned in every round. *)
Record adaptive_vars : Type := mkVars {
  background_var : option string;
  foreground_var : option string;
  monochrome_var : option string
}.

(** The text of the generated [ic_launcher.xml] (the template literals,
    dedented). *)
Definition drawable_line (layer value : string) : string :=
  "    <" +:+ layer +:+ " android:drawable=" +:+ dquote +:+ value +:+ dquote +:+ " />".

Definition icLauncherTemplate (backgroundVal foregroundVal : string)
    (monochromeVal : option string) : string :=
  "<?xml version=" +:+ dquote +:+ "1.0" +:+ dquote +:+ " encoding=" +:+ dquote
    +:+ "utf-8" +:+ dquote +:+ "?>" +:+ newline
  +:+ "<adaptive-icon xmlns:android=" +:+ dquote
    +:+ "http://schemas.android.com/apk/res/android" +:+ dquote +:+ ">" +:+ newline
  +:+ drawable_line "background" backgroundVal +:+ newline
  +:+ drawable_line "foreground" foregroundVal +:+ newline
  +:+ (match monochromeVal with
       | Some m => drawable_line "monochrome" m +:+ newline
       | None => EmptyString
       end)
  +:+ "</adaptive-icon>".

(** [path.join(platformResourcesDir, 'mipmap-' + density + '-v26', 'ic_launcher.xml')] *)
Definition launcherXmlPath (platformResourcesDir density : string) : string :=
  Path.join [platformResourcesDir; "mipmap-" +:+ density +:+ "-v26"; "ic_launcher.xml"].

(** The treatment of the background and of the foreground of one density:
    a colour is used as it is; a vector or an image is mapped to its
    [-v26] path and referred to by the default value [val]. *)
Definition adaptive_layer (platformResourcesDir density layerName : string)
    (layer val : string) (resourceMap : resource_map) : string * resource_map :=
  if startsWith layer "@color" then (layer, resourceMap)
  else if String.eqb (Path.extname (Path.basename layer)) ".xml" then
    (val, <[getAdaptiveImageResourcePath platformResourcesDir "mipmap" density
              (layerName +:+ ".xml") (Path.basename layer) := Some layer]> resourceMap)
  else if String.eqb (Path.extname (Path.basename layer)) ".png" then
    (val, <[getAdaptiveImageResourcePath platformResourcesDir "mipmap" density
              (layerName +:+ ".png") (Path.basename layer) := Some layer]> resourceMap)
  else (val, resourceMap).

(** The treatment of the monochrome layer, which has no colour case. *)
Definition adaptive_monochrome (platformResourcesDir density : string)
    (layer : string) (resourceMap : resource_map) : resource_map :=
  if String.eqb (Path.extname (Path.basename layer)) ".xml" then
    <[getAdaptiveImageResourcePath platformResourcesDir "mipmap" density
        "ic_launcher_monochrome.xml" (Path.basename layer) := Some layer]> resourceMap
  else if String.eqb (Path.extname (Path.basename layer)) ".png" then
    <[getAdaptiveImageResourcePath platformResourcesDir "mipmap" density
        "ic_launcher_monochrome.png" (Path.basename layer) := Some layer]> resourceMap
  else resourceMap.

(** One round of [for (const density in android_icons)]. *)
Definition adaptive_round (platformResourcesDir : string)
    (st : adaptive_vars * resource_map) (entry : string * Icon)
  : M (adaptive_vars * resource_map) :=
  let '(_, resourceMap) := st in
  let '(density, icon) := entry in
  let background := background icon in
  let foreground := foreground icon in
  let monochrome := monochrome icon in
  let hasAdaptiveIcons := truthy background && truthy foreground in
  let hasMonochromeIcon := truthy monochrome in
  let monochromeIgnored := hasMonochromeIcon && negb hasAdaptiveIcons in
  let* _ := (if monochromeIgnored then emit warn MonochromeWithoutAdaptive else ret tt) in
  let hasMonochromeIcon := if monochromeIgnored then false else hasMonochromeIcon in
  let monochrome := if monochromeIgnored then None else monochrome in
  let vars := mkVars background foreground monochrome in
  if negb hasAdaptiveIcons then ret (vars, resourceMap)
  else
    let '(backgroundVal, resourceMap) :=
      adaptive_layer platformResourcesDir density "ic_launcher_background"
                     (str background) "@mipmap/ic_launcher_background" resourceMap in
    let '(foregroundVal, resourceMap) :=
      adaptive_layer platformResourcesDir density "ic_launcher_foreground"
                     (str foreground) "@mipmap/ic_launcher_foreground" resourceMap in
    let resourceMap :=
      if hasMonochromeIcon
      then adaptive_monochrome platformResourcesDir density (str monochrome) resourceMap
      else resourceMap in
    let template :=
      icLauncherTemplate backgroundVal foregroundVal
        (if hasMonochromeIcon then Some "@mipmap/ic_launcher_monochrome"%string else None) in
    let resourceMap := delete (launcherXmlPath platformResourcesDir density) resourceMap in
    let* _ := writeFileSync (launcherXmlPath platformResourcesDir density) (Text template) in
    ret (vars, resourceMap).

(** The background and the foreground of the default icon, in the block
    after the loop: [layer] is the loop's variable, [default_layer] the
    default icon's own property.  Reading [startsWith] of [undefined], or
    taking [path.basename] of [undefined], throws a [TypeError]. *)
Definition default_adaptive_layer (platformResourcesDir layerName : string)
    (layer default_layer : option string) (resourceMap : resource_map)
  : M resource_map :=
  match layer with
  | None => throw TypeError
  | Some l =>
      if startsWith l "@color" then ret resourceMap
      else if String.eqb (Path.extname (Path.basename l)) ".xml" then
        match default_layer with
        | None => throw TypeError
        | Some dl =>
            ret (<[getAdaptiveImageResourcePath platformResourcesDir "mipmap" "mdpi"
                     (layerName +:+ ".xml") (Path.basename dl) := default_layer]> resourceMap)
        end
      else if String.eqb (Path.extname (Path.basename l)) ".png" then
        match default_layer with
        | None => throw TypeError
        | Some dl =>
            ret (<[getAdaptiveImageResourcePath platformResourcesDir "mipmap" "mdpi"
                     (layerName +:+ ".png") (Path.basename dl) := default_layer]> resourceMap)
        end
      else ret resourceMap
  end.

(** The monochrome layer of the default icon: only looked at when the
    loop's variable is truthy, and without a colour case. *)
Definition default_adaptive_monochrome (platformResourcesDir : string)
    (layer default_layer : option string) (resourceMap : resource_map)
  : M resource_map :=
  if truthy layer then
    if String.eqb (Path.extname (Path.basename (str layer))) ".xml" then
      match default_layer with
      | None => throw TypeError
      | Some dl =>
          ret (<[getAdaptiveImageResourcePath platformResourcesDir "mipmap" "mdpi"
                   "ic_launcher_monochrome.xml" (Path.basename dl) := default_layer]>
                 resourceMap)
      end
    else if String.eqb (Path.extname (Path.basename (str layer))) ".png" then
      match default_layer with
      | None => throw TypeError
      | Some dl =>
          ret (<[getAdaptiveImageResourcePath platformResourcesDir "mipmap" "mdpi"
                   "ic_launcher_monochrome.png" (Path.basename dl) := default_layer]>
                 resourceMap)
      end
    else ret resourceMap
  else ret resourceMap.

(** The block after the loop: with a default icon and no [mdpi] entry, the
    default icon's layers are mapped into the [mdpi] directory, the branch
    taken from the variables the loop left behind. *)
Definition adaptive_default_block (platformResourcesDir : string)
    (prepared : preparedIcons) (vars : adaptive_vars) (resourceMap : resource_map)
  : M resource_map :=
  match default_icon prepared, JsObj.get (android_icons prepared) "mdpi" with
  | Some dflt, None =>
      let* resourceMap :=
        default_adaptive_layer platformResourcesDir "ic_launcher_background"
                               (background_var vars) (background dflt) resourceMap in
      let* resourceMap :=
        default_adaptive_layer platformResourcesDir "ic_launcher_foreground"
                               (foreground_var vars) (foreground dflt) resourceMap in
      default_adaptive_monochrome platformResourcesDir
                                  (monochrome_var vars) (monochrome dflt) resourceMap
  | _, _ => ret resourceMap
  end.

Definition updateIconResourceForAdaptive (prepared : preparedIcons)
    (resourceMap : resource_map) (platformResourcesDir : string) : M resource_map :=
  let* st :=
    for_each (adaptive_round platformResourcesDir)
             (JsObj.for_in (android_icons prepared))
             (mkVars None None None, resourceMap) in
  adaptive_default_block platformResourcesDir prepared (fst st) (snd st).

(** *** [updateIconResourceForLegacy] *)

(** [resourceMap[getImageResourcePath(dir, 'mipmap', density, 'ic_launcher',
    path.basename(icon.src))] = icon.src] *)
Definition legacy_entry (platformResourcesDir density : string) (icon : Icon)
    (resourceMap : resource_map) : M resource_map :=
  match src icon with
  | None => throw TypeError
  | Some s =>
      ret (<[getImageResourcePath platformResourcesDir "mipmap" density "ic_launcher"
               (Path.basename s) := src icon]> resourceMap)
  end.

Definition updateIconResourceForLegacy (prepared : preparedIcons)
    (resourceMap : resource_map) (platformResourcesDir : string) : M resource_map :=
  let* resourceMap :=
    for_each (fun rm (entry : string * Icon) =>
                legacy_entry platformResourcesDir (fst entry) (snd entry) rm)
             (JsObj.for_in (android_icons prepared)) resourceMap in
  match default_icon prepared, JsObj.get (android_icons prepared) "mdpi" with
  | Some dflt, None => legacy_entry platformResourcesDir "mdpi" dflt resourceMap
  | _, _ => ret resourceMap
  end.

(** *** [updateIcons] *)

(** The names [updateIcons] and [cleanIcons] look for in every [mipmap-*]
    directory. *)
Definition icon_resource_names : list string :=
  ["ic_launcher.png"; "ic_launcher_foreground.png"; "ic_launcher_background.png";
   "ic_launcher_monochrome.png"; "ic_launcher_foreground.xml";
   "ic_launcher_background.xml"; "ic_launcher_monochrome.xml"; "ic_launcher.xml"]%string.

(** [updateIcons(cordovaProject, platformResourcesDir)], with
    [icons = cordovaProject.projectConfig.getIcons('android')],
    [root = cordovaProject.root] and [folders] the [mipmap-*] directories
    found under the resources directory. *)
Definition updateIcons (icons : list Icon) (root platformResourcesDir : string)
    (folders : list string) : M unit :=
  match icons with
  | [] => emit verbose NoLauncherIcons
  | _ =>
      let v := validate_icons icons in
      match validation_errorMessage v with
      | (_ :: _) as errorMessage => throw (CordovaError (String.concat " " errorMessage))
      | [] =>
          let resourceMap :=
            Object_assign ∅ (map (mapImageResources folders platformResourcesDir)
                                 icon_resource_names) in
          let* prepared := prepareIcons (icons_seen v) in
          let* resourceMap :=
            (if hasAdaptive v
             then updateIconResourceForAdaptive prepared resourceMap platformResourcesDir
             else ret resourceMap) in
          let* resourceMap :=
            updateIconResourceForLegacy prepared resourceMap platformResourcesDir in
          let* _ := emit verbose (UpdatingIconsAt platformResourcesDir) in
          FileUpdater_updatePaths resourceMap root
      end
  end.

(** ** XML documents ([elementtree]) *)

Definition tag_of (e : element) : string :=
  match e with Element t _ _ _ => t end.
Definition attrib_of (e : element) : JsObj.t string :=
  match e with Element _ a _ _ => a end.
Definition text_of (e : element) : option string :=
  match e with Element _ _ x _ => x end.
Definition children_of (e : element) : list element :=
  match e with Element _ _ _ c => c end.

Definition set_text (x : option string) (e : element) : element :=
  match e with Element t a _ c => Element t a x c end.
Definition set_attrib (a : JsObj.t string) (e : element) : element :=
  match e with Element t _ x c => Element t a x c end.
Definition set_children (c : list element) (e : element) : element :=
  match e with Element t a x _ => Element t a x c end.

(** [root.makeelement(tag, attrib)] *)
Definition makeelement (tag : string) (attrib : JsObj.t string) : element :=
  Element tag attrib None [].

(** The step [tag[@name="value"]] of a path. *)
Definition named (tagName nameValue : string) (e : element) : bool :=
  String.eqb (tag_of e) tagName
  && match JsObj.get (attrib_of e) "name" with
     | Some v => String.eqb v nameValue
     | None => false
     end.

Fixpoint find_index {A} (p : A -> bool) (l : list A) : option nat :=
  match l with
  | [] => None
  | x :: l' => if p x then Some 0%nat else option_map S (find_index p l')
  end.

(** [parent.find('tag[@name="value"]')]: the first matching child, given
    by its position among the children ([None] is [null]). *)
Definition find_child (tagName nameValue : string) (parent : element) : option nat :=
  find_index (named tagName nameValue) (children_of parent).

Fixpoint update_nth {A} (i : nat) (f : A -> A) (l : list A) : list A :=
  match l, i with
  | [], _ => []
  | x :: l', O => f x :: l'
  | x :: l', S i' => x :: update_nth i' f l'
  end.

Fixpoint remove_nth {A} (i : nat) (l : list A) : list A :=
  match l, i with
  | [], _ => []
  | _ :: l', O => l'
  | x :: l', S i' => x :: remove_nth i' l'
  end.

(** [node.text = value] for the child found at position [i]. *)
Definition set_child_text (i : nat) (value : string) (parent : element) : element :=
  set_children (update_nth i (set_text (Some value)) (children_of parent)) parent.

(** [parent.remove(node)] for the child found at position [i]. *)
Definition remove_child (i : nat) (parent : element) : element :=
  set_children (remove_nth i (children_of parent)) parent.

(** [parent.append(node)] *)
Definition append_child (node : element) (parent : element) : element :=
  set_children (children_of parent ++ [node]) parent.

(** [xmlHelpers.parseElementtreeSync(path)]: XML files are held as
    documents; a missing file, or one that holds something else, is an
    error. *)
Definition parseElementtreeSync (path : string) : M element :=
  fun w =>
    match files w !! path with
    | Some (Xml doc) => (w, Ok doc)
    | Some (Text _) => (w, Throw (Error "not an XML document"))
    | None => (w, Throw (Error "ENOENT"))
    end.

(** ** Splash screen and theme *)

Record locations : Type := mkLocations {
  res : string;
  themes : string;
  colors : string
}.

(** The change [updateProjectSplashScreenIconBackgroundColor] makes to the
    colours document: without a value the node found is removed; with one
    the node is created if there is none and its text is set. *)
Definition set_icon_background_color (splashIconBackgroundColor : option string)
    (colors_doc : element) : element :=
  let name := "cdv_splashscreen_icon_background"%string in
  match find_child "color" name colors_doc with
  | Some currentColor =>
      if negb (truthy splashIconBackgroundColor)
      then remove_child currentColor colors_doc
      else set_child_text currentColor
                          (escape_apostrophes (str splashIconBackgroundColor)) colors_doc
  | None =>
      if truthy splashIconBackgroundColor then
        set_child_text (length (children_of colors_doc))
                       (escape_apostrophes (str splashIconBackgroundColor))
                       (append_child (makeelement "color" [("name"%string, name)]) colors_doc)
      else colors_doc
  end.

(** [updateProjectSplashScreenIconBackgroundColor] *)
Definition updateProjectSplashScreenIconBackgroundColor
    (splashIconBackgroundColor : option string) (loc : locations) : M unit :=
  let* colors_doc := parseElementtreeSync (colors loc) in
  let colors_doc := set_icon_background_color splashIconBackgroundColor colors_doc in
  let* _ := writeFileSync (colors loc) (Xml colors_doc) in
  emit verbose (WroteColors (colors loc)).

(** [cleanupAndSetProjectSplashScreenImage] *)
Definition cleanupAndSetProjectSplashScreenImage (srcFile : option string)
    (destFilePath possiblePreviousDestFilePath : string) (cleanupOnly : bool) : M unit :=
  let* previous := existsSync possiblePreviousDestFilePath in
  let* _ := (if previous then rmSync possiblePreviousDestFilePath else ret tt) in
  let* dest := existsSync destFilePath in
  let* _ := (if cleanupOnly && dest then rmSync destFilePath else ret tt) in
  if negb cleanupOnly && truthy srcFile then
    let* source := existsSync (str srcFile) in
    if source then cpSync (str srcFile) destFilePath else ret tt
  else ret tt.

(** [SPLASH_SCREEN_IMAGE_BY_THEME_KEY[themeKey] || null] *)
Definition SPLASH_SCREEN_IMAGE_BY_THEME_KEY (themeKey : string) : option string :=
  if String.eqb themeKey "windowSplashScreenAnimatedIcon"
  then Some "ic_cdv_splashscreen"%string
  else if String.eqb themeKey "android:windowSplashScreenBrandingImage"
  then Some "ic_cdv_splashscreen_branding"%string
  else None.

(** [updateProjectSplashScreenImage]; [require_resolve] stands for
    [require.resolve] ([None] when it throws). *)
Definition updateProjectSplashScreenImage (require_resolve : string -> option string)
    (loc : locations) (themeKey cdvConfigPrefKey : string)
    (cdvConfigPrefValue : option string) : M unit :=
  let cdvConfigPrefValue := str cdvConfigPrefValue in
  match SPLASH_SCREEN_IMAGE_BY_THEME_KEY themeKey with
  | None => throw (CordovaError (themeKey +:+ " is not valid for image detection."))
  | Some destFileName =>
      let destPngDir := Path.join [res loc; "drawable-nodpi"%string] in
      let destXmlDir := Path.join [res loc; "drawable"%string] in
      let destFileNameExt := destFileName +:+ ".xml" in
      let destFilePath := Path.join [destXmlDir; destFileNameExt] in
      let possiblePreviousDestFilePath := Path.join [destPngDir; destFileName +:+ ".png"] in
      let* defaultSrcFilePath :=
        (if negb (String.eqb themeKey "android:windowSplashScreenBrandingImage") then
           match require_resolve ("cordova-android/templates/project/res/drawable/"
                                  +:+ destFileNameExt) with
           | Some p => ret (Some p)
           | None =>
               match require_resolve ("../templates/project/res/drawable/"
                                      +:+ destFileNameExt) with
               | Some p => ret (Some p)
               | None => throw (Error "MODULE_NOT_FOUND")
               end
           end
         else ret None) in
      let* prefExists := existsSync cdvConfigPrefValue in
      if String.eqb cdvConfigPrefValue EmptyString || negb prefExists then
        let* _ :=
          (if negb (String.eqb cdvConfigPrefValue EmptyString) && negb prefExists
           then emit warn (ImagePreferenceMissingFile cdvConfigPrefKey)
           else emit verbose (ImagePreferenceUndefined cdvConfigPrefKey)) in
        let cleanupOnly := String.eqb themeKey "android:windowSplashScreenBrandingImage" in
        cleanupAndSetProjectSplashScreenImage defaultSrcFilePath destFilePath
                                              possiblePreviousDestFilePath cleanupOnly
      else
        let iconExtension := toLowerCase (Path.extname cdvConfigPrefValue) in
        if String.eqb iconExtension ".png" then
          cleanupAndSetProjectSplashScreenImage
            (Some cdvConfigPrefValue)
            (Path.join [destPngDir; destFileName +:+ ".png"])
            (Path.join [destXmlDir; destFileName +:+ ".xml"]) false
        else if String.eqb iconExtension ".xml" then
          cleanupAndSetProjectSplashScreenImage
            (Some cdvConfigPrefValue) destFilePath possiblePreviousDestFilePath false
        else
          let* _ := emit warn (ImagePreferenceBadExtension cdvConfigPrefKey) in
          cleanupAndSetProjectSplashScreenImage
            defaultSrcFilePath destFilePath possiblePreviousDestFilePath false
  end.

(** [themeKey.indexOf(':') + 1] *)
Definition prefix_end (themeKey : string) : nat :=
  match String.index 0 ":" themeKey with
  | Some i => S i
  | None => 0%nat
  end.

(** ['Android' + themeKey.charAt(index).toUpperCase() + themeKey.slice(index + 1)] *)
Definition cdvConfigPrefKey (themeKey : string) : string :=
  let index := prefix_end themeKey in
  "Android"
  +:+ match String.get index themeKey with
      | Some c => String (upper_ascii c) EmptyString
      | None => EmptyString
      end
  +:+ substring (S index) (String.length themeKey - S index) themeKey.

(** The document [updateProjectTheme] works on: the root's attributes and
    the [Theme.App.SplashScreen] style, both changed in place. *)
Record theme_state : Type := mkTheme {
  root_attrib : JsObj.t string;
  splashScreenTheme : element
}.

(** [themeTargetNode.text = value]: [None] when there is no such item
    (the assignment is then made on [null]). *)
Definition set_item_text (themeKey value : string) (st : theme_state)
  : option theme_state :=
  match find_child "item" themeKey (splashScreenTheme st) with
  | None => None
  | Some i => Some (mkTheme (root_attrib st) (set_child_text i value (splashScreenTheme st)))
  end.

Definition set_theme_item (themeKey value : string) (st : theme_state) : M theme_state :=
  match set_item_text themeKey value st with
  | None => throw TypeError
  | Some st' => ret st'
  end.

(** The cases [android:windowSplashScreenBrandingImage] and
    [windowSplashScreenIconBackgroundColor] share their shape: without a
    value the item is removed, with one it is created if need be (with
    [attrib]) and given [value]. *)
Definition set_or_remove_theme_item (themeKey : string) (attrib : JsObj.t string)
    (value : string) (prefValue : option string) (tools : bool) (st : theme_state)
  : theme_state :=
  match find_child "item" themeKey (splashScreenTheme st) with
  | Some i =>
      if negb (truthy prefValue) then
        mkTheme (if tools then JsObj.delete (root_attrib st) "xmlns:tools" else root_attrib st)
                (remove_child i (splashScreenTheme st))
      else mkTheme (root_attrib st) (set_child_text i value (splashScreenTheme st))
  | None =>
      if truthy prefValue then
        mkTheme (if tools
                 then JsObj.set (root_attrib st) "xmlns:tools" "http://schemas.android.com/tools"
                 else root_attrib st)
                (set_child_text (length (children_of (splashScreenTheme st))) value
                   (append_child (makeelement "item" attrib) (splashScreenTheme st)))
      else st
  end.

(** One round of the [forEach] over the theme keys. *)
Definition theme_key_round (getPreference : string -> option string)
    (require_resolve : string -> option string) (loc : locations)
    (st : theme_state) (themeKey : string) : M theme_state :=
  let prefKey := cdvConfigPrefKey themeKey in
  let cdvConfigPrefValue := getPreference prefKey in
  if String.eqb themeKey "windowSplashScreenAnimatedIcon" then
    let* _ := updateProjectSplashScreenImage require_resolve loc themeKey prefKey
                                             cdvConfigPrefValue in
    ret st
  else if String.eqb themeKey "android:windowSplashScreenBrandingImage" then
    let* _ := (if truthy cdvConfigPrefValue
               then emit warn (BrandingImageNotSupported themeKey) else ret tt) in
    let* _ := updateProjectSplashScreenImage require_resolve loc themeKey prefKey
                                             cdvConfigPrefValue in
    ret (set_or_remove_theme_item themeKey
           [("name", themeKey); ("tools:targetApi", "31")]%string
           "@drawable/ic_cdv_splashscreen_branding" cdvConfigPrefValue true st)
  else if String.eqb themeKey "windowSplashScreenIconBackgroundColor" then
    let* _ := updateProjectSplashScreenIconBackgroundColor cdvConfigPrefValue loc in
    ret (set_or_remove_theme_item themeKey [("name", themeKey)]%string
           "@color/cdv_splashscreen_icon_background" cdvConfigPrefValue false st)
  else if String.eqb themeKey "windowSplashScreenAnimationDuration" then
    set_theme_item themeKey (str (js_or cdvConfigPrefValue (Some "200"%string))) st
  else if String.eqb themeKey "postSplashScreenTheme" then
    set_theme_item themeKey
      (str (js_or cdvConfigPrefValue (Some "@style/Theme.Cordova.App.DayNight"%string))) st
  else
    let* _ := emit warn (ThemePropertyUnknown themeKey) in ret st.

Definition theme_keys : list string :=
  ["windowSplashScreenAnimatedIcon"; "windowSplashScreenAnimationDuration";
   "android:windowSplashScreenBrandingImage"; "windowSplashScreenIconBackgroundColor";
   "postSplashScreenTheme"]%string.

(** The edge-to-edge flag [hasE2E] of [updateProjectTheme]. *)
Definition resolve_hasE2E (preferenceE2E : option string) : M bool :=
  if negb (truthy preferenceE2E) then
    let* _ := emit verbose EdgeToEdgeNotSet in ret false
  else
    let hasInvalidPreferenceE2E :=
      negb (String.eqb (str preferenceE2E) "true")
      && negb (String.eqb (str preferenceE2E) "false") in
    let* _ := (if hasInvalidPreferenceE2E then emit verbose EdgeToEdgeInvalid else ret tt) in
    ret (if hasInvalidPreferenceE2E then false else String.eqb (str preferenceE2E) "true").

(** The splash-screen background: the new preference, the two older ones,
    then the default colour resource. *)
Definition resolve_splashBg (getPreference : string -> option string) : string :=
  str (js_or (js_or (js_or (getPreference "AndroidWindowSplashScreenBackground"%string)
                           (getPreference "SplashScreenBackgroundColor"%string))
                    (getPreference "BackgroundColor"%string))
             (Some "@color/cdv_splashscreen_background"%string)).

Definition optOutE2EKey : string := "android:windowOptOutEdgeToEdgeEnforcement".

(** The themes document as it is written out: the root with its
    attributes and the style as the function left them (both were changed
    in place). *)
Definition themes_document (themes_doc : element) (style_index : nat) (st : theme_state)
  : element :=
  set_attrib (root_attrib st)
    (set_children (update_nth style_index (fun _ => splashScreenTheme st)
                              (children_of themes_doc))
                  themes_doc).

(** [updateProjectTheme(platformConfig, locations)], with
    [getPreference name = platformConfig.getPreference(name, this.platform)]. *)
Definition updateProjectTheme (getPreference : string -> option string)
    (require_resolve : string -> option string) (loc : locations) : M unit :=
  let* themes_doc := parseElementtreeSync (themes loc) in
  let style_index := find_child "style" "Theme.App.SplashScreen" themes_doc in
  let* hasE2E := resolve_hasE2E (getPreference "AndroidEdgeToEdge"%string) in
  match style_index with
  | None => throw TypeError
  | Some si =>
      let st := mkTheme (attrib_of themes_doc)
                        (nth si (children_of themes_doc) (makeelement EmptyString [])) in
      let optOutE2EValue := if negb hasE2E then "true"%string else "false"%string in
      let* st := set_theme_item optOutE2EKey optOutE2EValue st in
      let* _ := emit verbose (UpdatingThemeItem optOutE2EKey optOutE2EValue) in
      let splashBg := resolve_splashBg getPreference in
      let* _ :=
        emit verbose (SplashBackgroundSetTo
                        (if String.eqb splashBg "@color/cdv_splashscreen_background"
                         then "Default"%string else splashBg)) in
      let* st := set_theme_item "windowSplashScreenBackground" splashBg st in
      let* st := for_each (theme_key_round getPreference require_resolve loc) theme_keys st in
      let* _ := writeFileSync (themes loc) (Xml (themes_document themes_doc si st)) in
      emit verbose (WroteThemes (themes loc))
  end.

(** ** Version code *)

(** What unary [+] makes of a component of the version: the empty string
    is 0, a string of decimal digits is its value, [undefined] is [NaN],
    and so is a string whose first character cannot begin a numeric
    literal, or whose leading decimal digits are followed by a character
    that cannot go on one.  Anything else (spaces, signs, fractions,
    exponents, hexadecimal, octal and binary literals, [Infinity], values
    that a double does not hold exactly) is left outside the model. *)
Inductive number : Type :=
| Num (z : Z)
| NaN
| Unmodelled.

Definition MAX_SAFE_INTEGER : Z := 9007199254740991.

(** A visible ASCII character that is no digit, sign or dot and not the
    [I] of [Infinity]. *)
Definition begins_no_number (s : string) : bool :=
  match s with
  | EmptyString => false
  | String c _ =>
      let n := nat_of_ascii c in
      ((33 <=? n) && (n <=? 126))%nat
      && negb (JsObj.is_digit c)
      && negb (Ascii.eqb c "+" || Ascii.eqb c "-" || Ascii.eqb c "." || Ascii.eqb c "I")
  end.

(** A visible ASCII character that cannot follow the digits of a numeric
    literal: no digit, no dot, no exponent mark, and none of the letters of
    the prefixes [0x], [0o] and [0b]. *)
Definition stops_number (c : ascii) : bool :=
  let n := nat_of_ascii c in
  ((33 <=? n) && (n <=? 126))%nat
  && negb (JsObj.is_digit c)
  && negb (Ascii.eqb c "." || Ascii.eqb c "e" || Ascii.eqb c "E"
           || Ascii.eqb c "x" || Ascii.eqb c "X" || Ascii.eqb c "o" || Ascii.eqb c "O"
           || Ascii.eqb c "b" || Ascii.eqb c "B").

(** One decimal digit or more, and then such a character. *)
Fixpoint digits_then_no_number (s : string) : bool :=
  match s with
  | EmptyString => false
  | String c s' =>
      JsObj.is_digit c
      && match s' with
         | EmptyString => false
         | String c' _ => if JsObj.is_digit c' then digits_then_no_number s' else stops_number c'
         end
  end.

Definition to_number (v : option string) : number :=
  match v with
  | None => NaN
  | Some s =>
      match JsObj.digits_value 0%N s with
      | Some n => if Z.of_N n <=? MAX_SAFE_INTEGER then Num (Z.of_N n) else Unmodelled
      | None => if begins_no_number s || digits_then_no_number s then NaN else Unmodelled
      end
  end.

(** [if (+num) { versionCode += +num * weight }], exact as long as the
    numbers stay safe integers. *)
Definition add_component (versionCode : option Z) (num : option string) (weight : Z)
  : option Z :=
  match versionCode, to_number num with
  | Some code, Num z =>
      if z =? 0 then Some code
      else if code + z * weight <=? MAX_SAFE_INTEGER then Some (code + z * weight)
      else None
  | Some code, NaN => Some code
  | _, _ => None
  end.

(** [default_versionCode(version)] ([None]: outside the model); the
    verbose event it emits is left out. *)
Definition default_versionCode (version : string) : option Z :=
  let nums := split_on "." (hd EmptyString (split_on "-" version)) in
  let versionCode := Some 0 in
  let versionCode := add_component versionCode (nth_error nums 0) 10000 in
  let versionCode := add_component versionCode (nth_error nums 1) 100 in
  add_component versionCode (nth_error nums 2) 1.

(** ** The functions of [prepare.js] around the icons and the theme *)

(** These functions emit events of their own, and call
    [FileUpdater.updatePaths] with the option [all].  Their effects are
    kept in a [project]: the [world] of the functions above, the events
    they emit with the text as emitted, the calls of [FileUpdater] with
    their options, and the properties handed to [GradlePropertiesParser]. *)
Record sync_call : Type := mkSync {
  sync_map : resource_map;
  sync_rootDir : string;
  sync_all : bool
}.

Record project : Type := mkProject {
  base : world;
  notices : list (level * string);
  syncs : list sync_call;
  gradle_properties : list (string * JsObj.t string)
}.

Definition P (A : Type) : Type := project -> project * result A.

Definition retP {A} (a : A) : P A := fun p => (p, Ok a).

Definition bindP {A B} (m : P A) (k : A -> P B) : P B :=
  fun p =>
    match m p with
    | (p', Ok a) => k a p'
    | (p', Throw e) => (p', Throw e)
    end.

Definition throwP {A} (e : error) : P A := fun p => (p, Throw e).

Notation "'let+' x ':=' c 'in' k" := (bindP c (fun x => k))
  (at level 10, x pattern, c at level 100, k at level 200).

(** A computation on the world, run on the world of the project. *)
Definition lift {A} (m : M A) : P A :=
  fun p =>
    match m (base p) with
    | (w', r) => (mkProject w' (notices p) (syncs p) (gradle_properties p), r)
    end.

(** [events.emit(level, text)] *)
Definition notify (l : level) (text : string) : P unit :=
  fun p => (mkProject (base p) (notices p ++ [(l, text)]) (syncs p) (gradle_properties p),
            Ok tt).

(** [FileUpdater.updatePaths(resourceMap, { rootDir, all }, logFileOp)] *)
Definition updatePaths (resourceMap : resource_map) (rootDir : string) (all : bool)
  : P unit :=
  fun p => (mkProject (base p) (notices p)
                      (syncs p ++ [mkSync resourceMap rootDir all]) (gradle_properties p),
            Ok tt).

(** [new GradlePropertiesParser(root).configure(config)] *)
Definition GradlePropertiesParser_configure (root : string) (config : JsObj.t string)
  : P unit :=
  fun p => (mkProject (base p) (notices p) (syncs p)
                      (gradle_properties p ++ [(root, config)]),
            Ok tt).

(** *** [cleanIcons] *)

(** [cleanIcons(projectRoot, projectConfig, platformResourcesDir)], with
    [icons = projectConfig.getIcons('android')] and [folders] the
    [mipmap-*] directories found under the resources directory. *)
Definition cleanIcons (projectRoot : string) (icons : list Icon)
    (platformResourcesDir : string) (folders : list string) : P unit :=
  match icons with
  | [] => notify verbose "This app does not have launcher icons defined"
  | _ =>
      let resourceMap :=
        Object_assign ∅ (map (mapImageResources folders platformResourcesDir)
                             icon_resource_names) in
      let+ _ := notify verbose ("Cleaning icons at " +:+ platformResourcesDir) in
      updatePaths resourceMap projectRoot true
  end.

(** *** [updateFileResources] and [cleanFileResources] *)

(** A [resource-file] element of the project descriptor, as
    [getFileResources] returns it: its [src] and [target] attributes
    ([None] when the attribute is not there). *)
Record FileResource : Type := mkFileResource {
  res_src : option string;
  res_target : option string
}.

(** [path.join(platformDir, res.target)]: a target that is no string
    makes [path.join] throw a [TypeError]. *)
Definition resource_target (platformDir : string) (r : FileResource) : result string :=
  match res_target r with
  | Some target => Ok (Path.join [platformDir; target])
  | None => Throw TypeError
  end.

(** The loop [files.forEach(res => { resourceMap[path.join(platformDir,
    res.target)] = value(res) })]. *)
Fixpoint map_file_resources (platformDir : string) (value : FileResource -> option string)
    (files : list FileResource) (resourceMap : resource_map) : result resource_map :=
  match files with
  | [] => Ok resourceMap
  | r :: files' =>
      match resource_target platformDir r with
      | Ok targetPath =>
          map_file_resources platformDir value files' (<[targetPath := value r]> resourceMap)
      | Throw e => Throw e
      end
  end.

(** [updateFileResources(cordovaProject, platformDir)], with
    [files = cordovaProject.projectConfig.getFileResources('android')] and
    [root = cordovaProject.root].  In the map a source that is not there
    ([undefined]) is [None], as [null] is. *)
Definition updateFileResources (files : list FileResource) (root platformDir : string)
  : P unit :=
  match files with
  | [] => notify verbose "This app does not have additional resource files defined"
  | _ =>
      match map_file_resources platformDir res_src files ∅ with
      | Throw e => throwP e
      | Ok resourceMap =>
          let+ _ := notify verbose ("Updating resource files at " +:+ platformDir) in
          updatePaths resourceMap root false
      end
  end.

(** [cleanFileResources(projectRoot, projectConfig, platformDir)], with
    [files = projectConfig.getFileResources('android', true)]. *)
Definition cleanFileResources (projectRoot : string) (files : list FileResource)
    (platformDir : string) : P unit :=
  match files with
  | [] => retP tt
  | _ =>
      let+ _ := notify verbose ("Cleaning resource files at " +:+ platformDir) in
      match map_file_resources platformDir (fun _ => None) files ∅ with
      | Throw e => throwP e
      | Ok resourceMap => updatePaths resourceMap projectRoot true
      end
  end.

(** *** [findAndroidLaunchModePreference] *)

Definition expectedValues : list string :=
  ["standard"; "singleTop"; "singleTask"; "singleInstance"]%string.

(** [findAndroidLaunchModePreference(platformConfig)], with
    [launchMode = platformConfig.getPreference('AndroidLaunchMode')]. *)
Definition findAndroidLaunchModePreference (launchMode : option string) : P string :=
  if negb (truthy launchMode) then retP "singleTop"%string
  else
    let valid := existsb (String.eqb (str launchMode)) expectedValues in
    let+ _ :=
      (if negb valid
       then notify warn ("Unrecognized value for AndroidLaunchMode preference: "
                         +:+ str launchMode +:+ ". Expected values are: "
                         +:+ String.concat ", " expectedValues)
       else retP tt) in
    retP (str launchMode).

(** *** [updateProjectStrings] *)

(** [strings.find('string[@name="..."]').text = value]: a [TypeError]
    when there is no such node. *)
Definition set_string_text (name value : string) (strings_doc : element)
  : result element :=
  match find_child "string" name strings_doc with
  | Some i => Ok (set_child_text i value strings_doc)
  | None => Throw TypeError
  end.

(** [updateProjectStrings(platformConfig, locations)], with
    [strings_path = locations.strings], [name = platformConfig.name()] and
    [shortName = platformConfig.shortName && platformConfig.shortName()]. *)
Definition updateProjectStrings (name : string) (shortName : option string)
    (strings_path : string) : P unit :=
  let+ strings_doc := lift (parseElementtreeSync strings_path) in
  match set_string_text "app_name" (escape_apostrophes name) strings_doc with
  | Throw e => throwP e
  | Ok strings_doc =>
      let+ strings_doc :=
        (if truthy shortName && negb (String.eqb (str shortName) name) then
           match set_string_text "launcher_name" (escape_apostrophes (str shortName))
                                 strings_doc with
           | Throw e => throwP e
           | Ok strings_doc => retP strings_doc
           end
         else retP strings_doc) in
      let+ _ := lift (writeFileSync strings_path (Xml strings_doc)) in
      notify verbose ("Wrote out android application name " +:+ dquote +:+ name
                      +:+ dquote +:+ " to " +:+ strings_path)
  end.

(** *** [warnForDeprecatedSplashScreen] *)

(** [doc.findall('./platform[@name="android"]/splash')]: the [splash]
    children of the [platform] children of the root named [android]. *)
Definition findall_android_splash (config_doc : element) : list element :=
  flat_map (fun platform =>
              List.filter (fun e => String.eqb (tag_of e) "splash") (children_of platform))
           (List.filter (named "platform" "android") (children_of config_doc)).

(** [warnForDeprecatedSplashScreen(cordovaProject)], with
    [config_doc = cordovaProject.projectConfig.doc]. *)
Definition warnForDeprecatedSplashScreen (config_doc : element) : P unit :=
  let hasOldSplashTags := (0 <? length (findall_android_splash config_doc))%nat in
  if hasOldSplashTags then
    notify warn ("The " +:+ dquote +:+ "<splash>" +:+ dquote
                 +:+ " tags were detected and are no longer supported. Please migrate to the "
                 +:+ dquote +:+ "preference" +:+ dquote +:+ " tag " +:+ dquote
                 +:+ "AndroidWindowSplashScreenAnimatedIcon" +:+ dquote +:+ ".")
  else retP tt.

(** *** The Gradle configuration *)

Inductive gradle_type : Type :=
| TString
| TNumber
| TBoolean
| TOther (printed : string).

Inductive gradle_value : Type :=
| GString (s : string)
| GNumber (n : number)
| GBoolean (b : bool).

(** [parseFloat(value)] on the strings the model covers: a string of
    decimal digits is its value, the empty string and a string whose first
    character cannot begin a number are [NaN]. *)
Definition parseFloat (value : string) : number :=
  match value with
  | EmptyString => NaN
  | _ =>
      match JsObj.digits_value 0%N value with
      | Some n => if Z.of_N n <=? MAX_SAFE_INTEGER then Num (Z.of_N n) else Unmodelled
      | None => if begins_no_number value then NaN else Unmodelled
      end
  end.

(** [parseStringAsType(value, type)]; [TOther] stands for any other
    type, with the text [String(type)] gives. *)
Definition parseStringAsType (value : string) (type : gradle_type) : result gradle_value :=
  match type with
  | TString => Ok (GString value)
  | TNumber => Ok (GNumber (parseFloat value))
  | TBoolean => Ok (GBoolean (String.eqb (toLowerCase value) "true"))
  | TOther printed => Throw (CordovaError ("Invalid type: " +:+ printed))
  end.

Record gradle_mapping : Type := mkMapping {
  xmlKey : string;
  gradleKey : string;
  type : gradle_type
}.

Definition configXmlToGradleMapping : list gradle_mapping :=
  [mkMapping "android-minSdkVersion" "MIN_SDK_VERSION" TNumber;
   mkMapping "android-maxSdkVersion" "MAX_SDK_VERSION" TNumber;
   mkMapping "android-targetSdkVersion" "SDK_VERSION" TNumber;
   mkMapping "android-compileSdkVersion" "COMPILE_SDK_VERSION" TNumber;
   mkMapping "android-buildToolsVersion" "BUILD_TOOLS_VERSION" TString;
   mkMapping "GradleVersion" "GRADLE_VERSION" TString;
   mkMapping "AndroidGradlePluginVersion" "AGP_VERSION" TString;
   mkMapping "GradlePluginKotlinVersion" "KOTLIN_VERSION" TString;
   mkMapping "AndroidXAppCompatVersion" "ANDROIDX_APP_COMPAT_VERSION" TString;
   mkMapping "AndroidXWebKitVersion" "ANDROIDX_WEBKIT_VERSION" TString;
   mkMapping "GradlePluginGoogleServicesVersion" "GRADLE_PLUGIN_GOOGLE_SERVICES_VERSION"
             TString;
   mkMapping "GradlePluginGoogleServicesEnabled" "IS_GRADLE_PLUGIN_GOOGLE_SERVICES_ENABLED"
             TBoolean;
   mkMapping "GradlePluginKotlinEnabled" "IS_GRADLE_PLUGIN_KOTLIN_ENABLED" TBoolean;
   mkMapping "AndroidJavaSourceCompatibility" "JAVA_SOURCE_COMPATIBILITY" TNumber;
   mkMapping "AndroidJavaTargetCompatibility" "JAVA_TARGET_COMPATIBILITY" TNumber;
   mkMapping "AndroidKotlinJVMTarget" "KOTLIN_JVM_TARGET" TString].

(** One step of the [reduce] of [getUserGradleConfig]. *)
Definition gradle_config_step (getPreference : string -> option string)
    (config : result (JsObj.t gradle_value)) (mapping : gradle_mapping)
  : result (JsObj.t gradle_value) :=
  match config with
  | Throw e => Throw e
  | Ok config =>
      let rawValue := getPreference (xmlKey mapping) in
      if truthy rawValue then
        match parseStringAsType (str rawValue) (type mapping) with
        | Ok v => Ok (JsObj.set config (gradleKey mapping) v)
        | Throw e => Throw e
        end
      else Ok config
  end.

(** [getUserGradleConfig(configXml)], with
    [getPreference key = configXml.getPreference(key, 'android')]. *)
Definition getUserGradleConfig (getPreference : string -> option string)
  : result (JsObj.t gradle_value) :=
  fold_left (gradle_config_step getPreference) configXmlToGradleMapping (Ok JsObj.empty).

(** [updateUserProjectGradlePropertiesConfig(project, args)], with
    [jvmargs = args.jvmargs], [root = project.root] and
    [getPreference key = project._config.getPreference(key, 'android')]. *)
Definition updateUserProjectGradlePropertiesConfig (root : string)
    (getPreference : string -> option string) (jvmargs : option string) : P unit :=
  let gradlePropertiesUserConfig := JsObj.empty in
  let gradlePropertiesUserConfig :=
    if truthy jvmargs
    then JsObj.set gradlePropertiesUserConfig "org.gradle.jvmargs" (str jvmargs)
    else gradlePropertiesUserConfig in
  let isGradlePluginKotlinEnabled := getPreference "GradlePluginKotlinEnabled"%string in
  let gradlePropertiesUserConfig :=
    if truthy isGradlePluginKotlinEnabled then
      let gradlePluginKotlinCodeStyle := getPreference "GradlePluginKotlinCodeStyle"%string in
      JsObj.set gradlePropertiesUserConfig "kotlin.code.style"
                (str (js_or gradlePluginKotlinCodeStyle (Some "official"%string)))
    else gradlePropertiesUserConfig in
  GradlePropertiesParser_configure root gradlePropertiesUserConfig.

(** ** Notions the properties are stated with *)

(** Decidable equality of icons and of events' data, to compare outcomes. *)
#[global] Instance Icon_eq_dec : EqDecision Icon.
Proof. solve_decision. Defined.

(** The world after [evs] were emitted. *)
Definition emitted (w : world) (evs : list event) : world :=
  mkWorld (files w) (events w ++ evs) (updatePaths_calls w).

(** A declaration with neither width/height nor density. *)
Definition sizeless_densityless (icon : Icon) : bool :=
  negb (truthyZ (js_orZ (width icon) (height icon))) && negb (truthy (density icon)).

(** The density a declaration resolves to, by its explicit density or by
    the lookup of its size. *)
Definition resolved_density (icon : Icon) : option string :=
  if sizeless_densityless icon then None
  else
    let d := js_or (density icon) (SIZE_TO_DENSITY_MAP (js_orZ (width icon) (height icon))) in
    if truthy d then d else None.

Definition resolves_to (d : string) (icon : Icon) : bool :=
  bool_decide (resolved_density icon = Some d).

(** The declaration that ends up in the slot of density [d]: the first
    platform-specific declaration resolving to [d] if there is one, the
    last declaration resolving to [d] otherwise. *)
Definition slot_holder (d : string) (icons : list Icon) : option Icon :=
  let candidates := List.filter (resolves_to d) icons in
  match List.find (fun icon => truthy (platform icon)) candidates with
  | Some icon => Some icon
  | None => last candidates
  end.

(** The per-density set and the default icon [prepareIcons] returns for
    [icons], whatever the world. *)
Definition prepared_of (icons : list Icon) : preparedIcons :=
  match snd (prepareIcons icons (mkWorld ∅ [] [])) with
  | Ok p => p
  | Throw _ => mkPrepared JsObj.empty None
  end.

(** The diagnostic for a further default icon [icon] when [kept] is the
    default already. *)
Definition extra_default_event (kept icon : Icon) : event :=
  Emit verbose (ExtraDefaultIcon (icon_summary icon) (icon_summary kept)).

(** The loop of [prepareIcons], read off one part at a time: the default
    icon it ends with, the events it emits and the slots it fills. *)
Definition default_after (d0 : option Icon) (icons : list Icon) : option Icon :=
  match d0 with
  | Some d => Some d
  | None => head (List.filter sizeless_densityless icons)
  end.

Definition loop_events (d0 : option Icon) (icons : list Icon) : list event :=
  match d0 with
  | Some d => map (extra_default_event d) (List.filter sizeless_densityless icons)
  | None =>
      match List.filter sizeless_densityless icons with
      | [] => []
      | first :: later => map (extra_default_event first) later
      end
  end.

Definition loop_slots (o : JsObj.t Icon) (icons : list Icon) : JsObj.t Icon :=
  fold_left (fun o icon =>
               if sizeless_densityless icon then o
               else parseIcon o icon (js_orZ (width icon) (height icon)))
            icons o.

(** What one declaration does to the slot of [d] that holds [prev]. *)
Definition slot_after (d : string) (prev : option Icon) (icon : Icon) : option Icon :=
  if resolves_to d icon then
    match prev with
    | Some p => if truthy (platform p) then Some p else Some icon
    | None => Some icon
    end
  else prev.

(** Sample declarations used to exercise the statements. *)
Definition legacy_icon (d s : string) : Icon :=
  mkIcon (Some s) (Some d) None None None None None None.

Definition default_legacy_icon (s : string) : Icon :=
  mkIcon (Some s) None None None None None None None.

Definition empty_world : world := mkWorld ∅ [] [].

(** The two classes of invalid declarations, in the words of the
    specification. *)
Definition exactly_one_of_pair (icon : Icon) : bool :=
  xorb (truthy (background icon)) (truthy (foreground icon)).

Definition nothing_to_show (icon : Icon) : bool :=
  negb (truthy (background icon)) && negb (truthy (foreground icon))
  && negb (truthy (src icon)).

Definition missing_pair (icon : Icon) : bool :=
  exactly_one_of_pair icon || nothing_to_show icon.

Definition legacy_needed (icon : Icon) : bool :=
  truthy (foreground icon) && negb (truthy (src icon))
  && (startsWith (str (foreground icon)) "@color"
      || String.eqb (Path.extname (Path.basename (str (foreground icon)))) ".xml").

(** The outcome of a call is no [CordovaError]: it returned, or what it
    threw did not come from the validation. *)
Definition no_CordovaError {A} (r : world * result A) : Prop :=
  match snd r with
  | Throw (CordovaError _) => False
  | _ => True
  end.

(** The call returned or threw a [TypeError]. *)
Definition Ok_or_TypeError {A} (r : world * result A) : Prop :=
  match snd r with
  | Ok _ => True
  | Throw e => e = TypeError
  end.

(** A foreground that is an image: set, no colour reference, no vector. *)
Definition raster_foreground (icon : Icon) : bool :=
  truthy (foreground icon) && negb (color_or_vector (str (foreground icon))).

(** The declaration as the validation loop leaves it. *)
Definition derive_src (icon : Icon) : Icon :=
  if raster_foreground icon && negb (truthy (src icon))
  then set_src icon (foreground icon) else icon.

(** The single message of the error [updateIcons] throws: one sentence per
    non-empty class, listing the identifiers of all its declarations. *)
Definition aggregated_message (icons : list Icon) : string :=
  String.concat " "
    ((match map icon_identifier (List.filter missing_pair icons) with
      | [] => []
      | ids => [missing_attributes_message ids]
      end)
     ++ (match map icon_identifier (List.filter legacy_needed icons) with
         | [] => []
         | ids => [legacy_icon_needed_message ids]
         end)).

Definition adaptive_icon (d bg fg : option string) : Icon :=
  mkIcon None d None None None bg fg None.

(** A file or directory name that [path.join] leaves alone: not empty,
    without separator, and neither [.] nor [..]. *)
Fixpoint no_slash (s : string) : bool :=
  match s with
  | EmptyString => true
  | String c s' => negb (Ascii.eqb c Path.slash) && no_slash s'
  end.

Definition plain_name (s : string) : bool :=
  negb (String.eqb s EmptyString) && negb (String.eqb s ".")
  && negb (String.eqb s "..") && no_slash s.

(** What a round of the adaptive loop leaves in the variables
    [background], [foreground] and [monochrome]. *)
Definition round_vars (icon : Icon) : adaptive_vars :=
  mkVars (background icon) (foreground icon)
         (if truthy (monochrome icon)
             && negb (truthy (background icon) && truthy (foreground icon))
          then None else monochrome icon).

(** The entries a round adds to the resource map for an adaptive icon,
    before it removes the descriptor's path. *)
Definition round_inserts (platformResourcesDir density : string) (icon : Icon)
    (resourceMap : resource_map) : resource_map :=
  let rm1 :=
    snd (adaptive_layer platformResourcesDir density "ic_launcher_background"
                        (str (background icon)) "@mipmap/ic_launcher_background"
                        resourceMap) in
  let rm2 :=
    snd (adaptive_layer platformResourcesDir density "ic_launcher_foreground"
                        (str (foreground icon)) "@mipmap/ic_launcher_foreground" rm1) in
  if truthy (monochrome icon)
  then adaptive_monochrome platformResourcesDir density (str (monochrome icon)) rm2
  else rm2.

(** An icon of the resolved set that gets a generated descriptor. *)
Definition is_adaptive (icon : Icon) : bool :=
  truthy (background icon) && truthy (foreground icon).

(** A resolved set holding one adaptive [hdpi] icon made of images, and a
    default icon whose background is a colour and whose foreground is a
    vector. *)
Definition hdpi_images_default_vector : preparedIcons :=
  mkPrepared
    [("hdpi"%string,
      mkIcon (Some "fg.png"%string) (Some "hdpi"%string) None None None
             (Some "bg.png"%string) (Some "fg.png"%string) None)]
    (Some (mkIcon (Some "legacy.png"%string) None None None None
                  (Some "@color/white"%string) (Some "vector.xml"%string) None)).

(** The case the block for the default icon takes for a layer: decided
    by the text of a layer, a colour reference first, then a vector or an
    image by the extension of the file name. *)
Inductive layer_kind : Type :=
| ColourLayer
| VectorLayer
| ImageLayer
| OtherLayer.

Definition extension_kind (layer : string) : layer_kind :=
  if String.eqb (Path.extname (Path.basename layer)) ".xml" then VectorLayer
  else if String.eqb (Path.extname (Path.basename layer)) ".png" then ImageLayer
  else OtherLayer.


(** The file under [mipmap-mdpi-v26] a layer of the default icon is mapped
    to in the case [kind]: the name of the layer with [.xml] for a vector,
    and for an image with [.png], or [.9.png] when the default icon's own
    file is a 9-patch. *)
Definition default_layer_target (dir layerName : string) (kind : layer_kind)
    (source : string) : string :=
  Path.join [dir; "mipmap-mdpi-v26"%string;
             match kind with
             | VectorLayer => layerName +:+ ".xml"
             | _ => if endsWith (Path.basename source) ".9.png"
                    then layerName +:+ ".9.png" else layerName +:+ ".png"
             end].

(** What is mapped for one layer of the default icon once the case is
    decided: nothing for a colour or an unknown extension; for a vector
    or an image, the default icon's own layer, under the file name of
    that case.  [None]: the default icon has no such layer, which is a
    [TypeError]. *)
Definition default_layer_entries (dir layerName : string) (kind : layer_kind)
    (default_layer : option string) : option (list (string * option string)) :=
  match kind with
  | VectorLayer | ImageLayer =>
      match default_layer with
      | Some source => Some [(default_layer_target dir layerName kind source, Some source)]
      | None => None
      end
  | _ => Some []
  end.


(** A resource map with further entries, a later one replacing an earlier
    one for the same path. *)
Definition with_entries (entries : list (string * option string)) (resourceMap : resource_map)
  : resource_map :=
  fold_left (fun m (e : string * option string) => <[fst e := snd e]> m) entries resourceMap.

(** The map a call of [m] returns, if it returns. *)
Definition returned_map (r : world * result resource_map) : resource_map :=
  match snd r with
  | Ok m => m
  | Throw _ => ∅
  end.

(** The file names the adaptive pass maps layers to. *)
Definition adaptive_layer_names : list string :=
  ["ic_launcher_background.xml"; "ic_launcher_background.png";
   "ic_launcher_foreground.xml"; "ic_launcher_foreground.png";
   "ic_launcher_monochrome.xml"; "ic_launcher_monochrome.png"]%string.

(** The declarations the legacy pass maps, with the density of the
    directory each goes to: the resolved ones, and the default icon as
    [mdpi] when no [mdpi] icon was resolved. *)
Definition legacy_source (prepared : preparedIcons) (d : string) (icon : Icon) : Prop :=
  In (d, icon) (JsObj.for_in (android_icons prepared))
  \/ (d = "mdpi"%string /\ default_icon prepared = Some icon
      /\ JsObj.get (android_icons prepared) "mdpi" = None).

(** What the last map handed to [FileUpdater.updatePaths] holds at [path]:
    [None] when no map was handed over, [Some None] when the path is not
    in the map, [Some (Some None)] when it is mapped to the [null] that
    deletes, [Some (Some (Some s))] when it is mapped to the source [s]. *)
Definition handed_over (w : world) (path : string) : option (option (option string)) :=
  match last (updatePaths_calls w) with
  | Some call => Some (fst call !! path)
  | None => None
  end.

(** An adaptive [mdpi] icon made of images, next to a declaration whose
    density reads [mdpi-v26] and whose src is a vector. *)
Definition mdpi_and_mdpi_v26 : list Icon :=
  [adaptive_icon (Some "mdpi"%string) (Some "bg.png"%string) (Some "fg.png"%string);
   legacy_icon "mdpi-v26" "x.xml"].

Definition res_dir : string := "platforms/android/app/src/main/res".

(** How many children of [parent] answer to [tag[@name="value"]]. *)
Definition count_named (tagName nameValue : string) (parent : element) : nat :=
  length (List.filter (named tagName nameValue) (children_of parent)).

(** The text of the first item of [parent] called [key]: [None] when there
    is no such item, [Some None] when it has no text. *)
Definition item_text (key : string) (parent : element) : option (option string) :=
  option_map text_of (List.find (named "item" key) (children_of parent)).

(** The document in the file at [path], when it holds one. *)
Definition xml_at (w : world) (path : string) : option element :=
  match files w !! path with
  | Some (Xml doc) => Some doc
  | _ => None
  end.

(** The [Theme.App.SplashScreen] style of a themes document. *)
Definition splash_style (themes_doc : element) : option element :=
  List.find (named "style" "Theme.App.SplashScreen") (children_of themes_doc).

Definition icon_background_name : string := "cdv_splashscreen_icon_background".
Definition icon_background_key : string := "windowSplashScreenIconBackgroundColor".

(** The diagnostic [resolve_hasE2E] emits for a value of the preference. *)
Definition edge_to_edge_diagnostic (preferenceE2E : option string) : list event :=
  if negb (truthy preferenceE2E) then [Emit verbose EdgeToEdgeNotSet]
  else if String.eqb (str preferenceE2E) "true" || String.eqb (str preferenceE2E) "false"
       then []
       else [Emit verbose EdgeToEdgeInvalid].

(** What the five rounds over the theme keys make of the style, when none
    of them throws. *)
Definition theme_rounds_state (getPreference : string -> option string)
    (st : theme_state) : option theme_state :=
  match set_item_text "windowSplashScreenAnimationDuration"
          (str (js_or (getPreference "AndroidWindowSplashScreenAnimationDuration"%string)
                      (Some "200"%string))) st with
  | None => None
  | Some st =>
      let st :=
        set_or_remove_theme_item "android:windowSplashScreenBrandingImage"
          [("name", "android:windowSplashScreenBrandingImage"); ("tools:targetApi", "31")]%string
          "@drawable/ic_cdv_splashscreen_branding"
          (getPreference "AndroidWindowSplashScreenBrandingImage"%string) true st in
      let st :=
        set_or_remove_theme_item icon_background_key
          [("name", icon_background_key)]%string
          "@color/cdv_splashscreen_icon_background"
          (getPreference "AndroidWindowSplashScreenIconBackgroundColor"%string) false st in
      set_item_text "postSplashScreenTheme"
        (str (js_or (getPreference "AndroidPostSplashScreenTheme"%string)
                    (Some "@style/Theme.Cordova.App.DayNight"%string))) st
  end.

(** The state [updateProjectTheme] ends with, when it does not throw. *)
Definition theme_final_state (getPreference : string -> option string)
    (themes_doc : element) (style : element) : option theme_state :=
  let hasE2E := String.eqb (str (getPreference "AndroidEdgeToEdge"%string)) "true" in
  match set_item_text optOutE2EKey (if negb hasE2E then "true" else "false")
                      (mkTheme (attrib_of themes_doc) style) with
  | None => None
  | Some st =>
      match set_item_text "windowSplashScreenBackground" (resolve_splashBg getPreference) st with
      | None => None
      | Some st => theme_rounds_state getPreference st
      end
  end.

(** A project as the template lays it out, to exercise the statements: the
    themes and colours documents, and the default splash-screen drawable. *)
Definition theme_item (name value : string) : element :=
  Element "item" [("name"%string, name)] (Some value) [].

Definition sample_splash_style : element :=
  Element "style"
    [("name", "Theme.App.SplashScreen"); ("parent", "Theme.SplashScreen.IconBackground")]%string
    None
    [theme_item "windowSplashScreenBackground" "@color/cdv_splashscreen_background";
     theme_item "windowSplashScreenAnimatedIcon" "@drawable/ic_cdv_splashscreen";
     theme_item "windowSplashScreenAnimationDuration" "200";
     theme_item "windowSplashScreenIconBackgroundColor"
                "@color/cdv_splashscreen_icon_background";
     theme_item "postSplashScreenTheme" "@style/Theme.Cordova.App.DayNight";
     theme_item "android:windowOptOutEdgeToEdgeEnforcement" "true"].

Definition sample_themes : element :=
  Element "resources" [("xmlns:tools", "http://schemas.android.com/tools")]%string None
    [Element "style" [("name", "Theme.Cordova.App.DayNight")]%string None
       [theme_item "android:colorBackground" "@color/cdv_background_color"];
     sample_splash_style].

Definition color_node (name value : string) : element :=
  Element "color" [("name"%string, name)] (Some value) [].

Definition sample_colors : element :=
  Element "resources" [] None
    [color_node "cdv_splashscreen_background" "#FFFFFF";
     color_node "cdv_splashscreen_icon_background" "#112233"].

(** A colours document that names the icon background twice. *)
Definition doubled_colors : element :=
  Element "resources" [] None
    [color_node "cdv_splashscreen_icon_background" "#112233";
     color_node "cdv_splashscreen_icon_background" "#445566"].

Definition sample_locations : locations :=
  mkLocations "res" "res/values/cdv_themes.xml" "res/values/cdv_colors.xml".

Definition sample_world (colors_doc : element) : world :=
  mkWorld (<["res/values/cdv_themes.xml"%string := Xml sample_themes]>
             (<["res/values/cdv_colors.xml"%string := Xml colors_doc]>
                (<["templates/ic_cdv_splashscreen.xml"%string := Text "vector"]> ∅)))
          [] [].

Definition sample_resolve (request : string) : option string :=
  Some "templates/ic_cdv_splashscreen.xml"%string.

(** Preferences holding one value for [AndroidEdgeToEdge] and nothing else. *)
Definition only_edge_to_edge (value : string) (name : string) : option string :=
  if String.eqb name "AndroidEdgeToEdge" then Some value else None.

(** The components of a version: what stands before the first [-], cut at
    the dots. *)
Definition version_numbers (version : string) : list string :=
  split_on "." (hd EmptyString (split_on "-" version)).

(** The number a component stands for when it is written in decimal
    digits; a component that is not there counts for 0. *)
Definition component (nums : list string) (i : nat) : option Z :=
  match nth_error nums i with
  | Some s => option_map Z.of_N (JsObj.digits_value 0%N s)
  | None => Some 0
  end.

(** The six density qualifiers of the specification. *)
Definition standard_density (d : string) : bool :=
  existsb (String.eqb d) ["ldpi"; "mdpi"; "hdpi"; "xhdpi"; "xxhdpi"; "xxxhdpi"]%string.

(** The items [updateProjectTheme] assigns a text to without looking
    whether they were found. *)
Definition required_theme_items : list string :=
  [optOutE2EKey; "windowSplashScreenBackground"; "windowSplashScreenAnimationDuration";
   "postSplashScreenTheme"]%string.

(** The two files [updateProjectSplashScreenImage] may remove or write for
    the image called [destFileName]. *)
Definition splash_image_files (loc : locations) (destFileName : string) : list string :=
  [Path.join [Path.join [res loc; "drawable"%string]; destFileName +:+ ".xml"];
   Path.join [Path.join [res loc; "drawable-nodpi"%string]; destFileName +:+ ".png"]].

(** One of the two requests for the default drawable resolves. *)
Definition template_found (require_resolve : string -> option string)
    (destFileName : string) : bool :=
  match require_resolve ("cordova-android/templates/project/res/drawable/"
                         +:+ (destFileName +:+ ".xml")),
        require_resolve ("../templates/project/res/drawable/" +:+ (destFileName +:+ ".xml"))
  with
  | None, None => false
  | _, _ => true
  end.

(** A project [updateProjectTheme] runs to its end on: the themes file
    holds a document with the splash-screen style and the items assigned
    to, the colours file holds a document and is none of the splash-screen
    images, and the default drawable of the animated icon is found. *)
Definition theme_ready (require_resolve : string -> option string) (loc : locations)
    (w : world) (themes_doc style : element) : Prop :=
  xml_at w (themes loc) = Some themes_doc
  /\ splash_style themes_doc = Some style
  /\ forallb (fun k => bool_decide (is_Some (item_text k style))) required_theme_items = true
  /\ bool_decide (is_Some (xml_at w (colors loc))) = true
  /\ forallb (fun p => negb (String.eqb (colors loc) p))
             (splash_image_files loc "ic_cdv_splashscreen"
              ++ splash_image_files loc "ic_cdv_splashscreen_branding") = true
  /\ template_found require_resolve "ic_cdv_splashscreen" = true.

(** ** Notions the further properties are stated with *)

(** What a descriptor refers to for a layer: a colour by its own
    reference, a vector or an image by the name of the resource the layer
    is mapped to. *)
Definition layer_reference (layer resource : string) : string :=
  if startsWith layer "@color" then layer else resource.

(** The descriptor [ic_launcher.xml] of an adaptive icon. *)
Definition descriptor_text (icon : Icon) : string :=
  icLauncherTemplate
    (layer_reference (str (background icon)) "@mipmap/ic_launcher_background")
    (layer_reference (str (foreground icon)) "@mipmap/ic_launcher_foreground")
    (if truthy (monochrome icon) then Some "@mipmap/ic_launcher_monochrome"%string else None).

(** The path the legacy icon of a declaration goes to under density [d]. *)
Definition legacy_path (dir d : string) (icon : Icon) : string :=
  getImageResourcePath dir "mipmap" d "ic_launcher" (Path.basename (str (src icon))).

(** A density that names one directory: not empty and without separator. *)
Definition directory_density (d : string) : bool :=
  negb (String.eqb d EmptyString) && no_slash d.

(** An [mdpi] declaration with a colour for background, an image for
    foreground and a monochrome image. *)
Definition colour_background_icon : Icon :=
  mkIcon None (Some "mdpi"%string) None None None
         (Some "@color/bg"%string) (Some "fg.png"%string) (Some "mono.png"%string).

(** [s] holds no [c]. *)
Fixpoint lacks (c : ascii) (s : string) : bool :=
  match s with
  | EmptyString => true
  | String x s' => negb (Ascii.eqb x c) && lacks c s'
  end.

(** The number a component of a version counts for: its value when it is
    written in decimal digits, 0 when it is not there, when it starts with
    a visible character that cannot begin a number (a letter other than
    [I], a sign other than [+], [-] and [.]), or when its leading digits
    are followed by a visible character that cannot go on one (anything
    but a digit, [.], [e], [E] and the letters [x], [o], [b] of the
    prefixed literals), as in [3+build5] and [0rc1]. *)
Definition counted_component (nums : list string) (i : nat) : option Z :=
  match nth_error nums i with
  | None => Some 0
  | Some s =>
      match JsObj.digits_value 0%N s with
      | Some n => Some (Z.of_N n)
      | None => if begins_no_number s || digits_then_no_number s then Some 0 else None
      end
  end.

(** The first of [values] that is set (truthy), [fallback] when none is. *)
Fixpoint first_set (values : list (option string)) (fallback : string) : string :=
  match values with
  | [] => fallback
  | v :: values' => if truthy v then str v else first_set values' fallback
  end.

(** The text of the first [color] node of a colours document called
    [name]. *)
Definition color_text (name : string) (colors_doc : element) : option (option string) :=
  option_map text_of (List.find (named "color" name) (children_of colors_doc)).

(** The two files a splash-screen image may be held in. *)
Definition splash_png (loc : locations) (destFileName : string) : string :=
  Path.join [Path.join [res loc; "drawable-nodpi"%string]; destFileName +:+ ".png"].

Definition splash_xml (loc : locations) (destFileName : string) : string :=
  Path.join [Path.join [res loc; "drawable"%string]; destFileName +:+ ".xml"].

Definition branding_key : string := "android:windowSplashScreenBrandingImage".

(** Preferences holding [value] under [name] and nothing else. *)
Definition only_preference (name value : string) (asked : string) : option string :=
  if String.eqb asked name then Some value else None.

(** The files after [cleanupAndSetProjectSplashScreenImage]: the previous
    file is gone, so is the destination when only cleaning, and the source
    is copied when it is given and exists once the previous file is gone. *)
Definition cleaned_and_set (srcFile : option string) (dest prev : string)
    (cleanupOnly : bool) (fs : gmap string content) : gmap string content :=
  let fs := delete prev fs in
  let fs := if cleanupOnly then delete dest fs else fs in
  if negb cleanupOnly && truthy srcFile then
    match fs !! str srcFile with
    | Some c => <[dest := c]> fs
    | None => fs
    end
  else fs.

(** The default drawable [updateProjectSplashScreenImage] falls back on:
    none for the branding image, else what the first request that
    resolves gives. *)
Definition default_drawable (require_resolve : string -> option string)
    (themeKey destFileName : string) : option string :=
  if String.eqb themeKey "android:windowSplashScreenBrandingImage" then None
  else
    match require_resolve ("cordova-android/templates/project/res/drawable/"
                           +:+ (destFileName +:+ ".xml")) with
    | Some p => Some p
    | None => require_resolve ("../templates/project/res/drawable/"
                               +:+ (destFileName +:+ ".xml"))
    end.

(** A project holding the vector variant of the animated icon and a
    picture the preference may name; and one holding the picture variant
    and the default drawable. *)
Definition world_with_picture : world :=
  mkWorld (<["art/Splash.PNG"%string := Text "pixels"]>
             (<["res/drawable/ic_cdv_splashscreen.xml"%string := Text "vector"]> ∅)) [] [].

Definition world_with_old_picture : world :=
  mkWorld (<["res/drawable-nodpi/ic_cdv_splashscreen.png"%string := Text "old"]>
             (<["templates/ic_cdv_splashscreen.xml"%string := Text "vector"]> ∅)) [] [].

(** The extension [getImageResourcePath] gives the target of a source. *)
Definition target_extension (sourceName : string) : string :=
  if endsWith sourceName ".9.png" then ".9.png"%string
  else toLowerCase (Path.extname sourceName).

Definition empty_project : project := mkProject empty_world [] [] [].

(** The resource [r] goes to the path [k]. *)
Definition targets (platformDir k : string) (r : FileResource) : bool :=
  match res_target r with
  | Some target => String.eqb (Path.join [platformDir; target]) k
  | None => false
  end.

(** The last of [files] that goes to [k]. *)
Definition last_resource_at (platformDir k : string) (files : list FileResource)
  : option FileResource :=
  List.find (targets platformDir k) (rev files).

(** The warning for a launch mode that is none of the expected values. *)
Definition launch_mode_warning (launchMode : string) : level * string :=
  (warn, "Unrecognized value for AndroidLaunchMode preference: " +:+ launchMode
         +:+ ". Expected values are: standard, singleTop, singleTask, singleInstance").

Definition recognised_launch_mode (launchMode : string) : bool :=
  existsb (String.eqb launchMode) ["standard"; "singleTop"; "singleTask"; "singleInstance"]%string.

(** The text of the first [string] node of a strings document called
    [name]. *)
Definition string_text (name : string) (strings_doc : element) : option (option string) :=
  option_map text_of (List.find (named "string" name) (children_of strings_doc)).

(** The short name is given and differs from the name. *)
Definition short_name_used (name : string) (shortName : option string) : bool :=
  truthy shortName && negb (String.eqb (str shortName) name).

Definition strings_note (name strings_path : string) : level * string :=
  (verbose, "Wrote out android application name " +:+ dquote +:+ name +:+ dquote
            +:+ " to " +:+ strings_path).

Definition sample_strings : element :=
  Element "resources" [] None
    [Element "string" [("name", "app_name")]%string (Some "Old"%string) [];
     Element "string" [("name", "launcher_name")]%string (Some "@string/app_name"%string) [];
     Element "string" [("name", "activity_name")]%string (Some "@string/launcher_name"%string) []].

Definition strings_project (strings_doc : element) : project :=
  mkProject (mkWorld (<["res/values/cdv_strings.xml"%string := Xml strings_doc]> ∅) [] [])
            [] [] [].

(** The value a preference text stands for in a mapping of each of the
    three types of the table. *)
Definition typed_value (type : gradle_type) (text : string) : gradle_value :=
  match type with
  | TNumber => GNumber (parseFloat text)
  | TBoolean => GBoolean (String.eqb (toLowerCase text) "true")
  | _ => GString text
  end.

Definition is_table_type (type : gradle_type) : bool :=
  match type with
  | TOther _ => false
  | _ => true
  end.

Definition splash_warning : level * string :=
  (warn, "The " +:+ dquote +:+ "<splash>" +:+ dquote
         +:+ " tags were detected and are no longer supported. Please migrate to the "
         +:+ dquote +:+ "preference" +:+ dquote +:+ " tag " +:+ dquote
         +:+ "AndroidWindowSplashScreenAnimatedIcon" +:+ dquote +:+ ".").

(** Some [platform] child of the root named [android] has a [splash]
    child. *)
Definition android_splash_tag (config_doc : element) : Prop :=
  exists platform splash,
    In platform (children_of config_doc)
    /\ named "platform" "android" platform = true
    /\ In splash (children_of platform)
    /\ tag_of splash = "splash"%string.

Definition sample_preferences (key : string) : option string :=
  if String.eqb key "GradlePluginKotlinEnabled" then Some "false"%string
  else if String.eqb key "android-minSdkVersion" then Some "24"%string
  else Some EmptyString.

(** No declaration names the density [__proto__]: an assignment to that
    key replaces the prototype of the set of resolved icons, which the
    objects modelled leave out. *)
Definition ordinary_densities (icons : list Icon) : Prop :=
  forall icon, In icon icons -> density icon <> Some "__proto__"%string.

(** The descriptor of every resolved density whose icon is adaptive is on
    disk already, so that the directory it is written into exists. *)
Definition descriptors_in_place (dir : string) (prepared : preparedIcons) (w : world) : Prop :=
  forall d icon,
    In (d, icon) (JsObj.for_in (android_icons prepared)) ->
    is_adaptive icon = true ->
    is_Some (files w !! launcherXmlPath dir d).

(** A world with the descriptor of [hdpi] in place. *)
Definition world_with_hdpi_descriptor : world :=
  mkWorld (<[launcherXmlPath res_dir "hdpi" := Text "<adaptive-icon />"]> ∅) [] [].

(** * Properties *)

(** ** The monad *)

Lemma bind_ok {A B} (m : M A) (k : A -> M B) w w' a :
  m w = (w', Ok a) -> bind m k w = k a w'.
Proof. intros H. unfold bind. now rewrite H. Qed.

Lemma bind_throw {A B} (m : M A) (k : A -> M B) w w' e :
  m w = (w', Throw e) -> bind m k w = (w', Throw e).
Proof. intros H. unfold bind. now rewrite H. Qed.

Lemma for_each_app {A S} (body : S -> A -> M S) l1 l2 s w :
  for_each body (l1 ++ l2) s w
  = bind (for_each body l1 s) (for_each body l2) w.
Proof.
  revert s w. induction l1 as [|x l1 IH]; intros s w; simpl.
  - reflexivity.
  - unfold bind. destruct (body s x w) as [w1 [s1|e]]; [|reflexivity].
    rewrite IH. reflexivity.
Qed.

Lemma emitted_nil w : emitted w [] = w.
Proof. destruct w. unfold emitted. simpl. now rewrite app_nil_r. Qed.

Lemma emitted_app w e1 e2 : emitted (emitted w e1) e2 = emitted w (e1 ++ e2).
Proof. unfold emitted. simpl. now rewrite app_assoc. Qed.

Lemma emit_run l m w : emit l m w = (emitted w [Emit l m], Ok tt).
Proof. reflexivity. Qed.

(** ** Objects *)

Lemma JsObj_get_set {V} (o : JsObj.t V) k v k' :
  JsObj.get (JsObj.set o k v) k' = if String.eqb k k' then Some v else JsObj.get o k'.
Proof.
  induction o as [|[k0 v0] o IH]; simpl.
  - reflexivity.
  - destruct (String.eqb k0 k) eqn:E0; simpl.
    + apply String.eqb_eq in E0. subst k0.
      destruct (String.eqb k k'); reflexivity.
    + rewrite IH. destruct (String.eqb k0 k') eqn:E1; [|reflexivity].
      apply String.eqb_eq in E1. subst k0. now rewrite String.eqb_sym, E0.
Qed.

(** ** [prepareIcons] *)

Lemma prepareIcons_loop icons : forall o d0 w,
  for_each prepareIcons_step icons (mkPrepared o d0) w
  = (emitted w (loop_events d0 icons),
     Ok (mkPrepared (loop_slots o icons) (default_after d0 icons))).
Proof.
  induction icons as [|icon icons IH]; intros o d0 w.
  - simpl. unfold ret. destruct d0; simpl; now rewrite emitted_nil.
  - simpl. unfold prepareIcons_step at 1. simpl.
    fold (sizeless_densityless icon).
    destruct (sizeless_densityless icon) eqn:E.
    + destruct d0 as [d|]; simpl.
      * unfold bind, ret. rewrite emit_run. cbv beta iota. rewrite IH, emitted_app.
        unfold loop_events. simpl. now rewrite E.
      * unfold bind, ret. rewrite IH. unfold loop_events, default_after. simpl.
        now rewrite E.
    + unfold bind, ret. rewrite IH. unfold loop_events, default_after. simpl.
      now rewrite E.
Qed.

Lemma prepareIcons_run icons w :
  prepareIcons icons w
  = (emitted w (loop_events None icons),
     Ok (mkPrepared (loop_slots JsObj.empty icons) (default_after None icons))).
Proof. apply prepareIcons_loop. Qed.

Lemma prepared_of_eq icons :
  prepared_of icons = mkPrepared (loop_slots JsObj.empty icons) (default_after None icons).
Proof. unfold prepared_of. now rewrite prepareIcons_run. Qed.

(** C5.  When the declarations with neither width/height nor density are
    [first :: later], [prepareIcons] returns [first] as the default icon
    whatever comes later, and emits for each of [later], in order, the
    verbose diagnostic showing its discarded content ([found]) and the
    kept one ([favor]); nothing else is emitted. *)
Theorem prepareIcons_first_default_wins icons first later w :
  List.filter sizeless_densityless icons = first :: later ->
  exists p,
    prepareIcons icons w
    = (emitted w (map (fun icon =>
                         Emit verbose (ExtraDefaultIcon (icon_summary icon)
                                                        (icon_summary first)))
                      later),
       Ok p)
    /\ default_icon p = Some first.
Proof.
  intros H. eexists. split.
  - rewrite prepareIcons_run. unfold loop_events. rewrite H. reflexivity.
  - simpl. unfold default_after. now rewrite H.
Qed.

Lemma prepareIcons_first_default_wins_witness :
  List.filter sizeless_densityless
    [default_legacy_icon "a.png"; legacy_icon "hdpi" "h.png"; default_legacy_icon "b.png"]
  = [default_legacy_icon "a.png"; default_legacy_icon "b.png"]
  /\ exists p,
      prepareIcons
        [default_legacy_icon "a.png"; legacy_icon "hdpi" "h.png"; default_legacy_icon "b.png"]
        empty_world
      = (emitted empty_world
           [Emit verbose (ExtraDefaultIcon [("src", "b.png")] [("src", "a.png")])],
         Ok p)
      /\ default_icon p = Some (default_legacy_icon "a.png").
Proof.
  split; [reflexivity|].
  apply (prepareIcons_first_default_wins
           [default_legacy_icon "a.png"; legacy_icon "hdpi" "h.png"; default_legacy_icon "b.png"]
           (default_legacy_icon "a.png") [default_legacy_icon "b.png"] empty_world).
  reflexivity.
Defined.

(** *** Which declaration holds a density slot *)

Lemma resolves_to_true d icon :
  resolves_to d icon = true <-> resolved_density icon = Some d.
Proof. unfold resolves_to. apply bool_decide_eq_true. Qed.

Lemma parseIcon_get o icon d :
  sizeless_densityless icon = false ->
  JsObj.get (parseIcon o icon (js_orZ (width icon) (height icon))) d
  = slot_after d (JsObj.get o d) icon.
Proof.
  intros Hs. unfold parseIcon, slot_after, resolves_to, resolved_density.
  rewrite Hs.
  set (dd := js_or (density icon) (SIZE_TO_DENSITY_MAP (js_orZ (width icon) (height icon)))).
  destruct (truthy dd) eqn:Ht; simpl.
  - destruct dd as [s|]; [|discriminate]. simpl.
    destruct (decide (s = d)) as [->|Hne].
    + rewrite bool_decide_eq_true_2 by reflexivity.
      destruct (JsObj.get o d) as [p|] eqn:Hg.
      * destruct (truthy (platform p)); [exact Hg|].
        rewrite JsObj_get_set, String.eqb_refl. reflexivity.
      * rewrite JsObj_get_set, String.eqb_refl. reflexivity.
    + rewrite bool_decide_eq_false_2 by congruence.
      assert (Hsd : String.eqb s d = false) by now apply String.eqb_neq.
      destruct (JsObj.get o s) as [p|].
      * destruct (truthy (platform p)); [reflexivity|].
        now rewrite JsObj_get_set, Hsd.
      * now rewrite JsObj_get_set, Hsd.
  - reflexivity.
Qed.

Lemma slot_after_sizeless d prev icon :
  sizeless_densityless icon = true -> slot_after d prev icon = prev.
Proof.
  intros Hs. unfold slot_after, resolves_to, resolved_density. rewrite Hs.
  now rewrite bool_decide_eq_false_2 by discriminate.
Qed.

Lemma loop_slots_get icons : forall o d,
  JsObj.get (loop_slots o icons) d = fold_left (slot_after d) icons (JsObj.get o d).
Proof.
  induction icons as [|icon icons IH]; intros o d; simpl; [reflexivity|].
  unfold loop_slots in *. simpl. rewrite IH. f_equal.
  destruct (sizeless_densityless icon) eqn:Hs.
  - now rewrite slot_after_sizeless.
  - now apply parseIcon_get.
Qed.

Lemma last_some_default {A} (x : A) l (dflt : option A) :
  match last (x :: l) with Some y => Some y | None => dflt end = last (x :: l).
Proof.
  revert x. induction l as [|y l IH]; intros x; [reflexivity|].
  rewrite last_cons_cons. apply IH.
Qed.

(** Folding [slot_after]: a platform-specific holder stays; otherwise the
    first platform-specific candidate takes the slot, or else the last
    candidate. *)
Lemma slot_after_fold d icons : forall prev,
  fold_left (slot_after d) icons prev
  = match prev with
    | Some p =>
        if truthy (platform p) then Some p
        else match List.find (fun icon => truthy (platform icon))
                             (List.filter (resolves_to d) icons) with
             | Some icon => Some icon
             | None => match last (List.filter (resolves_to d) icons) with
                       | Some l => Some l
                       | None => prev
                       end
             end
    | None =>
        match List.find (fun icon => truthy (platform icon))
                        (List.filter (resolves_to d) icons) with
        | Some icon => Some icon
        | None => last (List.filter (resolves_to d) icons)
        end
    end.
Proof.
  induction icons as [|icon icons IH]; intros prev; simpl.
  - destruct prev as [p|]; [destruct (truthy (platform p))|]; reflexivity.
  - rewrite IH. unfold slot_after at 1 2.
    destruct (resolves_to d icon) eqn:Hr; simpl; [|reflexivity].
    assert (Hlast : forall dflt : option Icon,
               match last (List.filter (resolves_to d) icons) with
               | Some l => Some l
               | None => Some icon
               end
               = match last (icon :: List.filter (resolves_to d) icons) with
                 | Some l => Some l
                 | None => dflt
                 end).
    { intros dflt. rewrite last_some_default.
      destruct (List.filter (resolves_to d) icons) as [|i l]; [reflexivity|].
      rewrite last_cons_cons. now rewrite last_some_default. }
    destruct prev as [p|].
    + destruct (truthy (platform p)) eqn:Hp; [now rewrite Hp|].
      destruct (truthy (platform icon)) eqn:Hi; [reflexivity|].
      destruct (List.find _ _); [reflexivity|]. apply Hlast.
    + destruct (truthy (platform icon)) eqn:Hi; [reflexivity|].
      destruct (List.find _ _); [reflexivity|].
      rewrite (Hlast None). now rewrite last_some_default.
Qed.

(** C1 (as amended).  For every list of declarations and every density
    [d], the slot of [d] in the set [prepareIcons] returns holds the first
    platform-specific declaration that resolves to [d] (by its explicit
    density or by the lookup of its size) when there is one, and the last
    declaration that resolves to [d] otherwise: a platform-specific holder
    is never overwritten, any other holder is overwritten by every later
    declaration for the same density. *)
Theorem prepareIcons_slot_holder icons d w :
  exists p,
    prepareIcons icons w = (emitted w (loop_events None icons), Ok p)
    /\ JsObj.get (android_icons p) d = slot_holder d icons.
Proof.
  eexists. split; [apply prepareIcons_run|].
  simpl. rewrite loop_slots_get, slot_after_fold. reflexivity.
Qed.

(** C1, counterexample.  Two declarations for [mdpi], neither
    platform-specific: the first one to fill the slot is [a.png], yet the
    slot ends up holding the later [b.png]. *)
Lemma prepareIcons_later_declaration_overwrites :
  head (List.filter (resolves_to "mdpi") [legacy_icon "mdpi" "a.png"; legacy_icon "mdpi" "b.png"])
  = Some (legacy_icon "mdpi" "a.png")
  /\ prepareIcons [legacy_icon "mdpi" "a.png"; legacy_icon "mdpi" "b.png"] empty_world
     = (empty_world, Ok (mkPrepared [("mdpi"%string, legacy_icon "mdpi" "b.png")] None))
  /\ JsObj.get (android_icons
                  (prepared_of [legacy_icon "mdpi" "a.png"; legacy_icon "mdpi" "b.png"]))
               "mdpi"
     = Some (legacy_icon "mdpi" "b.png").
Proof. repeat split. Qed.

(** ** Validation in [updateIcons] *)

Lemma missing_attributes_eq icon : missing_attributes icon = missing_pair icon.
Proof.
  unfold missing_attributes, missing_pair, exactly_one_of_pair, nothing_to_show.
  destruct (truthy (background icon)), (truthy (foreground icon)),
    (truthy (src icon)); reflexivity.
Qed.

Lemma validate_icon_eq st icon :
  validate_icon st icon
  = mkValidation (icons_seen st ++ [derive_src icon])
      (errorMissingAttributes st
       ++ (if missing_pair icon then [icon_identifier icon] else []))
      (errorLegacyIconNeeded st
       ++ (if legacy_needed icon then [icon_identifier icon] else []))
      (hasAdaptive st || truthy (foreground icon)).
Proof.
  unfold validate_icon, derive_src, raster_foreground, legacy_needed.
  rewrite missing_attributes_eq. fold (color_or_vector (str (foreground icon))).
  destruct (missing_pair icon), (truthy (foreground icon)), (truthy (src icon)),
    (color_or_vector (str (foreground icon))), st as [a b c h];
    simpl; rewrite ?app_nil_r, ?orb_true_r, ?orb_false_r; reflexivity.
Qed.

Lemma validate_icons_loop icons : forall st,
  fold_left validate_icon icons st
  = mkValidation (icons_seen st ++ map derive_src icons)
      (errorMissingAttributes st ++ map icon_identifier (List.filter missing_pair icons))
      (errorLegacyIconNeeded st ++ map icon_identifier (List.filter legacy_needed icons))
      (hasAdaptive st || existsb (fun icon => truthy (foreground icon)) icons).
Proof.
  induction icons as [|icon icons IH]; intros st; simpl.
  - destruct st. simpl. now rewrite !app_nil_r, orb_false_r.
  - rewrite IH, validate_icon_eq. simpl. rewrite <- !app_assoc, <- orb_assoc.
    destruct (missing_pair icon), (legacy_needed icon); reflexivity.
Qed.

Lemma validate_icons_eq icons :
  validate_icons icons
  = mkValidation (map derive_src icons)
      (map icon_identifier (List.filter missing_pair icons))
      (map icon_identifier (List.filter legacy_needed icons))
      (existsb (fun icon => truthy (foreground icon)) icons).
Proof. unfold validate_icons. now rewrite validate_icons_loop. Qed.

Lemma validation_message_eq icons :
  String.concat " " (validation_errorMessage (validate_icons icons))
  = aggregated_message icons.
Proof. now rewrite validate_icons_eq. Qed.

(** C4.  When some declaration has exactly one of background/foreground,
    or none of background, foreground and src, or a foreground that is a
    colour reference or a vector without src, [updateIcons] throws one
    [CordovaError] whose message has, for each non-empty class, one sentence
    listing the identifiers of all the declarations of that class, and the
    world is left as it was: no file written, no event emitted, no map
    handed to [FileUpdater.updatePaths]. *)
Theorem updateIcons_rejects_invalid_declarations icons root platformResourcesDir folders w :
  (exists icon, In icon icons /\ (missing_pair icon = true \/ legacy_needed icon = true)) ->
  updateIcons icons root platformResourcesDir folders w
  = (w, Throw (CordovaError (aggregated_message icons))).
Proof.
  intros (icon & Hin & Hbad).
  unfold updateIcons. destruct icons as [|i0 icons0] eqn:Hicons; [destruct Hin|].
  rewrite <- Hicons in *. clear Hicons.
  destruct (validation_errorMessage (validate_icons icons)) as [|m ms] eqn:Hm.
  - exfalso. rewrite validate_icons_eq in Hm. unfold validation_errorMessage in Hm. simpl in Hm.
    apply app_eq_nil in Hm. destruct Hm as [H1 H2].
    destruct Hbad as [Hb|Hb].
    + assert (Hf : In icon (List.filter missing_pair icons)) by (apply filter_In; auto).
      destruct (List.filter missing_pair icons); [destruct Hf|discriminate].
    + assert (Hf : In icon (List.filter legacy_needed icons)) by (apply filter_In; auto).
      destruct (List.filter legacy_needed icons); [destruct Hf|discriminate].
  - rewrite <- Hm, validation_message_eq. reflexivity.
Qed.

Lemma updateIcons_rejects_invalid_declarations_witness :
  (exists icon,
      In icon [adaptive_icon (Some "mdpi"%string) None (Some "fg.png"%string);
               mkIcon None None None (Some 48) None
                      (Some "@color/bg"%string) (Some "@color/fg"%string) None;
               legacy_icon "hdpi" "h.png"]
      /\ (missing_pair icon = true \/ legacy_needed icon = true))
  /\ updateIcons [adaptive_icon (Some "mdpi"%string) None (Some "fg.png"%string);
                  mkIcon None None None (Some 48) None
                         (Some "@color/bg"%string) (Some "@color/fg"%string) None;
                  legacy_icon "hdpi" "h.png"]
                 "/project" "platforms/android/app/src/main/res" ["mipmap-mdpi"%string]
                 empty_world
     = (empty_world,
        Throw (CordovaError
                 ("One of the following attributes are set but missing the other for the density type: mdpi. Please ensure that all require attributes are defined."
                  +:+ " "
                  +:+ "For the following icons with the density of: size=48, adaptive foreground with a defined color or vector can not be used as a standard fallback icon for older Android devices. To support older Android environments, please provide a value for the src attribute."))).
Proof.
  assert (H : exists icon,
      In icon [adaptive_icon (Some "mdpi"%string) None (Some "fg.png"%string);
               mkIcon None None None (Some 48) None
                      (Some "@color/bg"%string) (Some "@color/fg"%string) None;
               legacy_icon "hdpi" "h.png"]
      /\ (missing_pair icon = true \/ legacy_needed icon = true)).
  { eexists. split; [left; reflexivity|]. left. reflexivity. }
  split; [exact H|].
  exact (updateIcons_rejects_invalid_declarations _ "/project"
           "platforms/android/app/src/main/res" ["mipmap-mdpi"%string] empty_world H).
Defined.

(** C7, counterexample.  A declaration whose foreground is an image and
    whose src is unset, but which has no background: validation does not
    succeed for it, [updateIcons] throws the missing-pair error. *)
Lemma raster_foreground_without_background_rejected :
  raster_foreground (adaptive_icon (Some "mdpi"%string) None (Some "fg.png"%string)) = true
  /\ truthy (src (adaptive_icon (Some "mdpi"%string) None (Some "fg.png"%string))) = false
  /\ updateIcons [adaptive_icon (Some "mdpi"%string) None (Some "fg.png"%string)]
                 "/project" "platforms/android/app/src/main/res" ["mipmap-mdpi"%string]
                 empty_world
     = (empty_world,
        Throw (CordovaError
                 "One of the following attributes are set but missing the other for the density type: mdpi. Please ensure that all require attributes are defined.")).
Proof. repeat split. Qed.

(** ** Paths *)

Lemma append_assoc (a b c : string) : (a +:+ b) +:+ c = a +:+ (b +:+ c).
Proof.
  induction a as [|x a IH]; [reflexivity|].
  change (String x ((a +:+ b) +:+ c) = String x (a +:+ (b +:+ c))). now rewrite IH.
Qed.

Lemma split_on_cons c s : exists h t, split_on c s = h :: t.
Proof.
  induction s as [|x s IH]; simpl; [eauto|].
  destruct (Ascii.eqb x c); [eauto|].
  destruct IH as (h & t & ->). eauto.
Qed.

Lemma split_on_app c a b :
  split_on c (a +:+ String c b) = split_on c a ++ split_on c b.
Proof.
  induction a as [|x a IH]; simpl.
  - now rewrite Ascii.eqb_refl.
  - destruct (Ascii.eqb x c); [now rewrite IH|].
    rewrite IH. destruct (split_on_cons c a) as (h & t & ->). reflexivity.
Qed.

Lemma split_on_no_slash s : no_slash s = true -> split_on Path.slash s = [s].
Proof.
  induction s as [|x s IH]; simpl; [reflexivity|].
  intros H. apply andb_true_iff in H. destruct H as [Hx Hs].
  apply negb_true_iff in Hx. rewrite Hx, (IH Hs). reflexivity.
Qed.

Lemma split_on_pieces s : Forall (fun x => no_slash x = true) (split_on Path.slash s).
Proof.
  induction s as [|x s IH]; simpl; [repeat constructor|].
  destruct (Ascii.eqb x Path.slash) eqn:E; [now constructor|].
  destruct (split_on_cons Path.slash s) as (h & t & Hs). rewrite Hs in *.
  inversion IH; subst. constructor; [|assumption]. simpl. now rewrite E.
Qed.

Lemma split_on_concat l :
  l <> [] ->
  split_on Path.slash (String.concat "/" l) = flat_map (split_on Path.slash) l.
Proof.
  induction l as [|x l IH]; [congruence|]. intros _.
  destruct l as [|y l].
  - simpl. now rewrite app_nil_r.
  - change (String.concat "/" (x :: y :: l))
      with (x +:+ String Path.slash (String.concat "/" (y :: l))).
    rewrite split_on_app, IH by congruence. reflexivity.
Qed.

Lemma flat_map_split_pieces l :
  Forall (fun x => no_slash x = true) l -> flat_map (split_on Path.slash) l = l.
Proof.
  induction 1 as [|x l Hx _ IH]; simpl; [reflexivity|].
  now rewrite split_on_no_slash, IH.
Qed.

Lemma plain_name_no_slash s : plain_name s = true -> no_slash s = true.
Proof. unfold plain_name. intros H. now apply andb_true_iff in H. Qed.

Lemma plain_name_nonempty s : plain_name s = true -> String.eqb s EmptyString = false.
Proof.
  unfold plain_name. intros H. repeat (apply andb_true_iff in H; destruct H as [H ?]).
  now apply negb_true_iff.
Qed.

Lemma normalize_step_plain b stack s :
  plain_name s = true -> Path.normalize_step b stack s = s :: stack.
Proof.
  unfold plain_name, Path.normalize_step. intros H.
  repeat (apply andb_true_iff in H; destruct H as [H ?]).
  apply negb_true_iff in H. rewrite H.
  repeat match goal with H : negb _ = true |- _ => apply negb_true_iff in H; rewrite H end.
  reflexivity.
Qed.

Lemma normalize_segments_plain_tail b segs tl :
  Forall (fun s => plain_name s = true) tl ->
  Path.normalize_segments b (segs ++ tl) = Path.normalize_segments b segs ++ tl.
Proof.
  unfold Path.normalize_segments. rewrite fold_left_app.
  generalize (fold_left (Path.normalize_step b) segs []). intros stack H.
  revert stack. induction H as [|s tl Hs _ IH]; intros stack; simpl.
  - now rewrite app_nil_r.
  - rewrite normalize_step_plain, IH by assumption. simpl.
    now rewrite <- app_assoc.
Qed.

Lemma normalize_step_pieces b stack s :
  Forall (fun x => no_slash x = true) stack -> no_slash s = true ->
  Forall (fun x => no_slash x = true) (Path.normalize_step b stack s).
Proof.
  intros Hst Hs. unfold Path.normalize_step.
  destruct (_ || _); [assumption|].
  destruct (String.eqb s ".."); [|now constructor].
  destruct stack as [|top below].
  - destruct b; [now constructor | constructor].
  - inversion Hst; subst. destruct (String.eqb top "..");
      [destruct b; [now constructor|assumption] | assumption].
Qed.

Lemma normalize_segments_pieces b segs :
  Forall (fun x => no_slash x = true) segs ->
  Forall (fun x => no_slash x = true) (Path.normalize_segments b segs).
Proof.
  unfold Path.normalize_segments. intros H. apply Forall_rev.
  assert (G : forall stack, Forall (fun x => no_slash x = true) stack ->
            Forall (fun x => no_slash x = true)
                   (fold_left (Path.normalize_step b) segs stack)).
  { induction H as [|s segs Hs _ IH]; intros stack Hst; simpl; [assumption|].
    apply IH. now apply normalize_step_pieces. }
  apply G. constructor.
Qed.

Lemma endsWith_slash_plain x t :
  String.eqb t EmptyString = false -> no_slash t = true -> endsWith (x +:+ t) "/" = false.
Proof.
  intros Hne Hns. induction x as [|c x IH].
  - change (EmptyString +:+ t) with t. clear Hne. induction t as [|c t IHt]; [reflexivity|].
    simpl in Hns. apply andb_true_iff in Hns. destruct Hns as [Hc Ht].
    apply negb_true_iff in Hc.
    change (endsWith (String c t) "/")
      with (String.eqb (String c t) "/" || endsWith t "/").
    rewrite (IHt Ht), orb_false_r. simpl. unfold Path.slash in Hc.
    change (ascii_of_nat 47) with "/"%char in Hc. now rewrite Hc.
  - change (endsWith (String c x +:+ t) "/")
      with (String.eqb (String c (x +:+ t)) "/" || endsWith (x +:+ t) "/").
    rewrite IH, orb_false_r. simpl.
    destruct (Ascii.eqb c "/"); [|reflexivity].
    destruct x; simpl; [|reflexivity]. destruct t; [discriminate|reflexivity].
Qed.

Lemma concat_snoc l t :
  l <> [] -> String.concat "/" (l ++ [t]) = String.concat "/" l +:+ "/" +:+ t.
Proof.
  induction l as [|x l IH]; [congruence|]. intros _.
  destruct l as [|y l]; [reflexivity|].
  change (String.concat "/" ((x :: y :: l) ++ [t]))
    with (x +:+ "/" +:+ String.concat "/" ((y :: l) ++ [t])).
  rewrite IH by congruence.
  change (String.concat "/" (x :: y :: l)) with (x +:+ "/" +:+ String.concat "/" (y :: l)).
  now rewrite !append_assoc.
Qed.

Lemma concat_last l t : exists x, String.concat "/" (l ++ [t]) = x +:+ t.
Proof.
  destruct l as [|y l].
  - exists EmptyString. reflexivity.
  - exists (String.concat "/" (y :: l) +:+ "/").
    rewrite concat_snoc by congruence. now rewrite append_assoc.
Qed.

Lemma append_nonempty x t :
  String.eqb t EmptyString = false -> String.eqb (x +:+ t) EmptyString = false.
Proof. destruct x; [trivial|reflexivity]. Qed.

Lemma filter_nonempty_plain tl :
  Forall (fun s => plain_name s = true) tl ->
  List.filter (fun a => negb (String.eqb a EmptyString)) tl = tl.
Proof.
  induction 1 as [|s tl Hs _ IH]; simpl; [reflexivity|].
  now rewrite (plain_name_nonempty s Hs), IH.
Qed.

(** The last segments of a joined path are the trailing arguments, when
    these are plain names. *)
Lemma join_plain_tail xs tl :
  tl <> [] -> Forall (fun s => plain_name s = true) tl ->
  exists pre, split_on Path.slash (Path.join (xs ++ tl)) = pre ++ tl.
Proof.
  intros Hne Hpl. unfold Path.join.
  rewrite List.filter_app, (filter_nonempty_plain tl Hpl).
  set (F := List.filter (fun a => negb (String.eqb a EmptyString)) xs).
  assert (Hns : Forall (fun s => no_slash s = true) tl).
  { eapply Forall_impl; [exact Hpl|]. apply plain_name_no_slash. }
  destruct (exists_last Hne) as (tl' & t & Htl).
  assert (Ht : plain_name t = true).
  { rewrite Htl in Hpl. apply Forall_app in Hpl. destruct Hpl as [_ Hpl]. now inversion Hpl. }
  destruct (F ++ tl) as [|p ps] eqn:Hparts.
  { apply app_eq_nil in Hparts. destruct Hparts. congruence. }
  rewrite <- Hparts. clear p ps Hparts.
  assert (Hsplit : forall A, A ++ tl <> [] ->
             Forall (fun s => no_slash s = true) A ->
             split_on Path.slash (String.concat "/" (A ++ tl)) = A ++ tl).
  { intros A HA HAp. rewrite split_on_concat by assumption.
    apply flat_map_split_pieces. apply Forall_app. now split. }
  assert (Hlast : forall A, exists x, String.concat "/" (A ++ tl) = x +:+ t).
  { intros A. rewrite Htl, app_assoc. apply concat_last. }
  assert (Happ : forall A, A ++ tl <> []).
  { intros A HA. apply app_eq_nil in HA. destruct HA. congruence. }
  unfold Path.normalize.
  destruct (Hlast F) as (x & Hx).
  rewrite split_on_concat by apply Happ.
  rewrite Hx.
  rewrite (append_nonempty x t (plain_name_nonempty t Ht)).
  rewrite (endsWith_slash_plain x t (plain_name_nonempty t Ht) (plain_name_no_slash t Ht)).
  rewrite flat_map_app, (flat_map_split_pieces tl Hns).
  rewrite normalize_segments_plain_tail by assumption.
  set (N := Path.normalize_segments _ _).
  assert (HN : Forall (fun s => no_slash s = true) N).
  { apply normalize_segments_pieces.
    clear. induction F as [|f F IH]; simpl; [constructor|].
    apply Forall_app. split; [apply split_on_pieces | exact IH]. }
  destruct (Hlast N) as (y & Hy).
  assert (Hres : String.eqb (String.concat "/" (N ++ tl)) EmptyString = false).
  { rewrite Hy. apply append_nonempty, plain_name_nonempty, Ht. }
  rewrite Hres.
  destruct (startsWith (x +:+ t) "/").
  - exists (EmptyString :: N).
    change ("/" +:+ String.concat "/" (N ++ tl))
      with (EmptyString +:+ String Path.slash (String.concat "/" (N ++ tl))).
    rewrite split_on_app, Hsplit by (auto using Happ). reflexivity.
  - exists N. apply Hsplit; auto using Happ.
Qed.

Lemma drop_trailing_empty_snoc pre t :
  String.eqb t EmptyString = false ->
  Path.drop_trailing_empty (pre ++ [t]) = pre ++ [t].
Proof.
  intros Ht. induction pre as [|p pre IH]; simpl.
  - now rewrite Ht.
  - rewrite IH. destruct (pre ++ [t]) eqn:E; [|reflexivity].
    now apply app_eq_nil in E.
Qed.

Lemma basename_join xs name :
  plain_name name = true -> Path.basename (Path.join (xs ++ [name])) = name.
Proof.
  intros Hp.
  destruct (join_plain_tail xs [name]) as (pre & Hpre); [congruence|now constructor|].
  unfold Path.basename. rewrite Hpre, drop_trailing_empty_snoc
    by now apply plain_name_nonempty.
  apply last_last.
Qed.

(** Two joined paths that agree have the same trailing plain names. *)
Lemma join_plain_tail_inj xs ys tl1 tl2 :
  Forall (fun s => plain_name s = true) tl1 ->
  Forall (fun s => plain_name s = true) tl2 ->
  tl1 <> [] -> length tl1 = length tl2 ->
  Path.join (xs ++ tl1) = Path.join (ys ++ tl2) -> tl1 = tl2.
Proof.
  intros H1 H2 Hne Hlen Heq.
  destruct (join_plain_tail xs tl1 Hne H1) as (p1 & E1).
  assert (Hne2 : tl2 <> []) by (destruct tl1, tl2; simpl in *; congruence).
  destruct (join_plain_tail ys tl2 Hne2 H2) as (p2 & E2).
  rewrite Heq, E2 in E1. symmetry in E1.
  now apply app_inj_2 in E1.
Qed.

(** *** Legacy paths and descriptor paths *)

Lemma append_cons c a b : String c a +:+ b = String c (a +:+ b).
Proof. reflexivity. Qed.

Lemma append_nil_l b : EmptyString +:+ b = b.
Proof. reflexivity. Qed.

Lemma no_slash_app a b : no_slash (a +:+ b) = no_slash a && no_slash b.
Proof.
  induction a as [|c a IH]; [reflexivity|].
  rewrite append_cons. simpl. rewrite IH. now rewrite andb_assoc.
Qed.

Lemma no_slash_substring b : forall i n, no_slash b = true -> no_slash (substring i n b) = true.
Proof.
  induction b as [|c b IH]; intros i n H.
  - destruct i, n; reflexivity.
  - simpl in H. apply andb_true_iff in H. destruct H as [Hc Hb].
    destruct i as [|i]; [destruct n as [|n]; [reflexivity|]|]; simpl.
    + now rewrite Hc, IH.
    + now apply IH.
Qed.

Lemma lower_ascii_slash c :
  Ascii.eqb (lower_ascii c) Path.slash = Ascii.eqb c Path.slash.
Proof. destruct c as [[] [] [] [] [] [] [] []]; reflexivity. Qed.

Lemma no_slash_toLowerCase s : no_slash (toLowerCase s) = no_slash s.
Proof.
  induction s as [|c s IH]; [reflexivity|]. simpl. now rewrite lower_ascii_slash, IH.
Qed.

Lemma drop_trailing_empty_pieces (P : string -> Prop) l :
  Forall P l -> Forall P (Path.drop_trailing_empty l).
Proof.
  induction 1 as [|x l Hx _ IH]; simpl; [constructor|].
  destruct (Path.drop_trailing_empty l).
  - destruct (String.eqb x EmptyString); now repeat constructor.
  - now constructor.
Qed.

Lemma basename_no_slash p : no_slash (Path.basename p) = true.
Proof.
  unfold Path.basename.
  pose proof (drop_trailing_empty_pieces _ _ (split_on_pieces p)) as H.
  induction H as [|x l Hx Hl IH]; [reflexivity|].
  destruct l; [exact Hx|exact IH].
Qed.

Lemma extname_no_slash p : no_slash (Path.extname p) = true.
Proof.
  unfold Path.extname, Path.ext_of.
  destruct (last_index_of Path.dot (Path.basename p)) as [[|i]|]; try reflexivity.
  destruct (String.eqb (Path.basename p) ".."); [reflexivity|].
  apply no_slash_substring, basename_no_slash.
Qed.

Lemma plain_name_prefixed c a :
  Ascii.eqb c Path.slash = false -> Ascii.eqb c Path.dot = false ->
  no_slash a = true -> plain_name (String c a) = true.
Proof.
  intros Hs Hd Ha. unfold plain_name. simpl. rewrite Hs, Ha.
  unfold Path.dot in Hd. change (ascii_of_nat 46) with "."%char in Hd.
  now rewrite Hd.
Qed.

Lemma plain_name_app c a b :
  Ascii.eqb c Path.slash = false -> Ascii.eqb c Path.dot = false ->
  no_slash a = true -> no_slash b = true -> plain_name (String c a +:+ b) = true.
Proof.
  intros Hs Hd Ha Hb. rewrite append_cons. apply plain_name_prefixed; try assumption.
  now rewrite no_slash_app, Ha, Hb.
Qed.

Lemma legacy_path_is_not_descriptor dir d d' sourceName :
  no_slash d = true -> no_slash d' = true -> d' <> d +:+ "-v26" ->
  getImageResourcePath dir "mipmap" d' "ic_launcher" sourceName <> launcherXmlPath dir d.
Proof.
  intros Hd Hd' Hne Heq. unfold getImageResourcePath, launcherXmlPath in Heq.
  set (ext := if endsWith sourceName ".9.png" then ".9.png"%string
              else toLowerCase (Path.extname sourceName)) in Heq.
  set (sub := if String.eqb d' EmptyString then "mipmap"%string
              else "mipmap" +:+ "-" +:+ d') in Heq.
  assert (Hext : no_slash ext = true).
  { subst ext. destruct (endsWith sourceName ".9.png"); [reflexivity|].
    rewrite no_slash_toLowerCase. apply extname_no_slash. }
  assert (Hsub : plain_name sub = true).
  { subst sub. destruct (String.eqb d' EmptyString); [reflexivity|].
    apply (plain_name_app "m" "ipmap" ("-" +:+ d')); try reflexivity.
    now rewrite no_slash_app, Hd'. }
  assert (Hname : plain_name ("ic_launcher" +:+ ext) = true).
  { apply (plain_name_app "i" "c_launcher" ext); try reflexivity. exact Hext. }
  assert (Hsubr : plain_name ("mipmap-" +:+ d +:+ "-v26") = true).
  { apply (plain_name_app "m" "ipmap-" (d +:+ "-v26")); try reflexivity.
    now rewrite no_slash_app, Hd. }
  apply (join_plain_tail_inj [dir] [dir] [sub; "ic_launcher" +:+ ext]
           ["mipmap-" +:+ d +:+ "-v26"; "ic_launcher.xml"]%string) in Heq;
    [|repeat constructor; assumption|repeat constructor; assumption|congruence|reflexivity].
  injection Heq as Hs _. subst sub.
  destruct (String.eqb d' EmptyString); [discriminate Hs|].
  apply Hne. apply (String.app_inj "mipmap-"). exact Hs.
Qed.

Lemma standard_density_no_slash d : standard_density d = true -> no_slash d = true.
Proof.
  unfold standard_density. simpl. intros H.
  repeat (apply orb_true_iff in H; destruct H as [H|H];
          [apply String.eqb_eq in H; subst d; reflexivity|]).
  discriminate.
Qed.

Lemma standard_density_not_v26 d d' :
  standard_density d = true -> standard_density d' = true -> d' <> d +:+ "-v26".
Proof.
  unfold standard_density. simpl. intros H H'.
  repeat (apply orb_true_iff in H; destruct H as [H|H];
          [apply String.eqb_eq in H; subst d|]); try discriminate;
    repeat (apply orb_true_iff in H'; destruct H' as [H'|H'];
            [apply String.eqb_eq in H'; subst d'; discriminate|]); discriminate.
Qed.

(** ** The adaptive pass *)

Lemma adaptive_round_adaptive dir vars rm d icon w :
  is_adaptive icon = true ->
  exists text,
    adaptive_round dir (vars, rm) (d, icon) w
    = (mkWorld (<[launcherXmlPath dir d := Text text]> (files w)) (events w)
               (updatePaths_calls w),
       Ok (round_vars icon, delete (launcherXmlPath dir d) (round_inserts dir d icon rm))).
Proof.
  intros Ha. unfold is_adaptive in Ha.
  unfold adaptive_round, round_vars, round_inserts. rewrite Ha. simpl.
  rewrite andb_false_r. unfold bind, ret. simpl.
  destruct (adaptive_layer dir d "ic_launcher_background" _ _ rm) as [bv rm1]. simpl.
  destruct (adaptive_layer dir d "ic_launcher_foreground" _ _ rm1) as [fv rm2]. simpl.
  unfold writeFileSync. destruct w. simpl. eexists. reflexivity.
Qed.

Lemma adaptive_round_skipped dir vars rm d icon w :
  is_adaptive icon = false ->
  adaptive_round dir (vars, rm) (d, icon) w
  = (emitted w (if truthy (monochrome icon) then [Emit warn MonochromeWithoutAdaptive] else []),
     Ok (round_vars icon, rm)).
Proof.
  intros Ha. unfold is_adaptive in Ha.
  unfold adaptive_round, round_vars. rewrite Ha. simpl. rewrite andb_true_r.
  unfold bind, ret. destruct (truthy (monochrome icon)); simpl.
  - reflexivity.
  - now rewrite emitted_nil.
Qed.

Lemma adaptive_round_ok dir st entry w :
  exists w' rm',
    adaptive_round dir st entry w = (w', Ok (round_vars (snd entry), rm')).
Proof.
  destruct st as [vars rm], entry as [d icon]. change (snd (d, icon)) with icon.
  destruct (is_adaptive icon) eqn:Ha.
  - destruct (adaptive_round_adaptive dir vars rm d icon w Ha) as (text & ->). eauto.
  - rewrite adaptive_round_skipped by assumption. eauto.
Qed.

Lemma adaptive_loop_ok dir l : forall st w,
  exists w' st', for_each (adaptive_round dir) l st w = (w', Ok st').
Proof.
  induction l as [|entry l IH]; intros st w; simpl.
  - unfold ret. eauto.
  - destruct (adaptive_round_ok dir st entry w) as (w1 & rm1 & H1).
    rewrite (bind_ok _ _ _ _ _ H1). apply IH.
Qed.



Lemma default_adaptive_monochrome_materialized dir layer default_layer rm w :
  default_adaptive_monochrome dir layer default_layer rm w
  = (w, match (if truthy layer
               then default_layer_entries dir "ic_launcher_monochrome"
                                          (extension_kind (str layer)) default_layer
               else Some []) with
        | Some entries => Ok (with_entries entries rm)
        | None => Throw TypeError
        end).
Proof.
  unfold default_adaptive_monochrome, extension_kind.
  destruct (truthy layer); [|reflexivity].
  destruct (String.eqb (Path.extname (Path.basename (str layer))) ".xml");
    [|destruct (String.eqb (Path.extname (Path.basename (str layer))) ".png");
      [|reflexivity]];
    (destruct default_layer as [source|]; [|reflexivity]);
    cbn [default_layer_entries with_entries fold_left fst snd]; unfold ret;
    do 3 f_equal;
    unfold getAdaptiveImageResourcePath, default_layer_target;
    destruct (endsWith (Path.basename source) ".9.png"); reflexivity.
Qed.



(** The block for the default icon, with no round before it. *)
Lemma adaptive_default_block_unassigned dir prepared dflt rm w :
  default_icon prepared = Some dflt ->
  JsObj.get (android_icons prepared) "mdpi" = None ->
  adaptive_default_block dir prepared (mkVars None None None) rm w = (w, Throw TypeError).
Proof. intros Hd Hm. unfold adaptive_default_block. now rewrite Hd, Hm. Qed.

(** C3 (the code does not do what the claim says).  When the declarations
    pass validation, one of them has a foreground, and they resolve to no
    density at all but to a default icon, the loop of
    [updateIconResourceForAdaptive] has no round, its variable
    [background] is still [undefined] when the block for the default icon
    calls [startsWith] on it, and [updateIcons] ends in a [TypeError]:
    nothing is written and no map reaches [FileUpdater.updatePaths]. *)
Theorem updateIcons_default_only_adaptive_throws icons root dir folders w dflt :
  validation_errorMessage (validate_icons icons) = [] ->
  (exists icon, In icon icons /\ truthy (foreground icon) = true) ->
  android_icons (prepared_of (icons_seen (validate_icons icons))) = [] ->
  default_icon (prepared_of (icons_seen (validate_icons icons))) = Some dflt ->
  exists evs,
    updateIcons icons root dir folders w = (emitted w evs, Throw TypeError).
Proof.
  intros Hv Hfg Hs Hd.
  assert (Ha : hasAdaptive (validate_icons icons) = true).
  { rewrite validate_icons_eq. cbn [hasAdaptive]. now apply existsb_exists. }
  unfold updateIcons. destruct icons as [|i0 icons0] eqn:Hicons; [discriminate Ha|].
  rewrite <- Hicons in *. clear Hicons. rewrite Hv, Ha.
  rewrite prepared_of_eq in Hs, Hd. cbn [android_icons default_icon] in Hs, Hd.
  eexists. erewrite bind_ok by apply prepareIcons_run.
  erewrite bind_throw; [reflexivity|].
  unfold updateIconResourceForAdaptive. cbn [android_icons]. rewrite Hs.
  cbn [JsObj.for_in JsObj.index_entries JsObj.named_entries map app for_each].
  unfold bind, ret. cbn [fst snd].
  apply (adaptive_default_block_unassigned dir _ dflt); cbn [android_icons default_icon];
    [exact Hd|reflexivity].
Qed.

Lemma updateIcons_default_only_adaptive_throws_witness :
  validation_errorMessage
    (validate_icons [adaptive_icon None (Some "bg.png"%string) (Some "fg.png"%string)]) = []
  /\ truthy (foreground (adaptive_icon None (Some "bg.png"%string) (Some "fg.png"%string)))
     = true
  /\ prepared_of (icons_seen
       (validate_icons [adaptive_icon None (Some "bg.png"%string) (Some "fg.png"%string)]))
     = mkPrepared []
         (Some (mkIcon (Some "fg.png"%string) None None None None
                       (Some "bg.png"%string) (Some "fg.png"%string) None))
  /\ exists evs,
      updateIcons [adaptive_icon None (Some "bg.png"%string) (Some "fg.png"%string)]
                  "/project" "platforms/android/app/src/main/res"
                  ["mipmap-mdpi"%string; "mipmap-mdpi-v26"%string] empty_world
      = (emitted empty_world evs, Throw TypeError).
Proof.
  repeat (split; [reflexivity|]).
  apply (updateIcons_default_only_adaptive_throws
           [adaptive_icon None (Some "bg.png"%string) (Some "fg.png"%string)]
           "/project" "platforms/android/app/src/main/res"
           ["mipmap-mdpi"%string; "mipmap-mdpi-v26"%string] empty_world
           (mkIcon (Some "fg.png"%string) None None None None
                   (Some "bg.png"%string) (Some "fg.png"%string) None));
    try reflexivity.
  eexists. split; [left; reflexivity|reflexivity].
Defined.


(** The same call, evaluated: the default icon's colour and vector are
    mapped as if they were images, because the [hdpi] layers are. *)
Example default_icon_mapped_as_images :
  returned_map (updateIconResourceForAdaptive hdpi_images_default_vector ∅ "res" empty_world)
    !! "res/mipmap-mdpi-v26/ic_launcher_background.png"%string
  = Some (Some "@color/white"%string)
  /\ returned_map (updateIconResourceForAdaptive hdpi_images_default_vector ∅ "res" empty_world)
       !! "res/mipmap-mdpi-v26/ic_launcher_foreground.png"%string
     = Some (Some "vector.xml"%string)
  /\ returned_map (updateIconResourceForAdaptive hdpi_images_default_vector ∅ "res" empty_world)
       !! "res/mipmap-mdpi-v26/ic_launcher_foreground.xml"%string
     = None.
Proof. repeat split; vm_compute; reflexivity. Qed.

(** *** What [updateIcons] can throw once the validation has passed *)

Lemma Ok_or_TypeError_bind {A B} (m : M A) (k : A -> M B) w :
  Ok_or_TypeError (m w) ->
  (forall a w', Ok_or_TypeError (k a w')) ->
  Ok_or_TypeError (bind m k w).
Proof.
  unfold Ok_or_TypeError, bind. intros Hm Hk.
  destruct (m w) as [w' [a|e]]; [apply Hk|exact Hm].
Qed.

Lemma default_adaptive_layer_outcome dir layerName layer default_layer rm w :
  Ok_or_TypeError (default_adaptive_layer dir layerName layer default_layer rm w).
Proof.
  unfold Ok_or_TypeError, default_adaptive_layer.
  destruct layer as [l|]; [|reflexivity].
  destruct (startsWith l "@color"); [exact I|].
  destruct (String.eqb (Path.extname (Path.basename l)) ".xml");
    [destruct default_layer; [exact I|reflexivity]|].
  destruct (String.eqb (Path.extname (Path.basename l)) ".png");
    [destruct default_layer; [exact I|reflexivity]|exact I].
Qed.

Lemma default_adaptive_monochrome_outcome dir layer default_layer rm w :
  Ok_or_TypeError (default_adaptive_monochrome dir layer default_layer rm w).
Proof.
  rewrite default_adaptive_monochrome_materialized. unfold Ok_or_TypeError. cbn [snd].
  now destruct (if truthy layer then _ else _).
Qed.

Lemma updateIconResourceForAdaptive_outcome prepared rm dir w :
  Ok_or_TypeError (updateIconResourceForAdaptive prepared rm dir w).
Proof.
  unfold updateIconResourceForAdaptive.
  destruct (adaptive_loop_ok dir (JsObj.for_in (android_icons prepared))
              (mkVars None None None, rm) w) as (w1 & st1 & Hloop).
  rewrite (bind_ok _ _ _ _ _ Hloop). unfold adaptive_default_block.
  destruct (default_icon prepared) as [dflt|]; [|exact I].
  destruct (JsObj.get (android_icons prepared) "mdpi"); [exact I|].
  apply Ok_or_TypeError_bind; [apply default_adaptive_layer_outcome|]. intros rm2 w2.
  apply Ok_or_TypeError_bind; [apply default_adaptive_layer_outcome|]. intros rm3 w3.
  apply default_adaptive_monochrome_outcome.
Qed.

Lemma legacy_entry_outcome dir d icon rm w :
  Ok_or_TypeError (legacy_entry dir d icon rm w).
Proof. unfold Ok_or_TypeError, legacy_entry. now destruct (src icon). Qed.

Lemma updateIconResourceForLegacy_outcome prepared rm dir w :
  Ok_or_TypeError (updateIconResourceForLegacy prepared rm dir w).
Proof.
  unfold updateIconResourceForLegacy.
  apply Ok_or_TypeError_bind.
  - generalize rm w. induction (JsObj.for_in (android_icons prepared)) as [|entry l IH];
      intros rm0 w0; cbn [for_each]; [exact I|].
    apply Ok_or_TypeError_bind; [apply legacy_entry_outcome|]. intros rm1 w1. apply IH.
  - intros rm1 w1. destruct (default_icon prepared); [|exact I].
    destruct (JsObj.get (android_icons prepared) "mdpi"); [exact I|].
    apply legacy_entry_outcome.
Qed.

Lemma updateIcons_validated_outcome icons root dir folders w :
  validation_errorMessage (validate_icons icons) = [] ->
  Ok_or_TypeError (updateIcons icons root dir folders w).
Proof.
  intros Hv. unfold updateIcons. destruct icons as [|i0 icons0] eqn:Hicons; [exact I|].
  rewrite <- Hicons in *. clear Hicons. rewrite Hv.
  erewrite bind_ok by apply prepareIcons_run.
  apply Ok_or_TypeError_bind.
  - destruct (hasAdaptive (validate_icons icons));
      [apply updateIconResourceForAdaptive_outcome|exact I].
  - intros rm1 w1. apply Ok_or_TypeError_bind;
      [apply updateIconResourceForLegacy_outcome|]. intros rm2 w2. exact I.
Qed.

Lemma updateIcons_validation_throws icons root dir folders w :
  validation_errorMessage (validate_icons icons) <> [] ->
  updateIcons icons root dir folders w
  = (w, Throw (CordovaError (aggregated_message icons))).
Proof.
  intros Hv. unfold updateIcons. destruct icons as [|i0 icons0] eqn:Hicons;
    [now contradiction Hv|].
  rewrite <- Hicons in *. clear Hicons.
  destruct (validation_errorMessage (validate_icons icons)) as [|m ms] eqn:Hm;
    [now contradiction Hv|].
  now rewrite <- Hm, validation_message_eq.
Qed.

Lemma lookup_In {A} (l : list A) : forall i x, l !! i = Some x -> In x l.
Proof.
  induction l as [|y l IH]; intros [|i] x Hl; try discriminate.
  - injection Hl as ->. now left.
  - right. exact (IH i x Hl).
Qed.

Lemma filter_delete_rejected {A} (P : A -> bool) (l : list A) : forall i x,
  l !! i = Some x -> P x = false -> List.filter P (delete i l) = List.filter P l.
Proof.
  induction l as [|y l IH]; intros [|i] x Hl Hx; try discriminate.
  - injection Hl as ->. change (delete 0%nat (x :: l)) with l.
    cbn [List.filter]. now rewrite Hx.
  - change (delete (S i) (y :: l)) with (y :: delete i l).
    cbn [List.filter]. now rewrite (IH i x Hl Hx).
Qed.

(** C7 (as amended).  For a declaration whose foreground is an image
    (set, no colour reference, no [.xml] vector) and whose src is unset,
    the round of the validation loop, whatever it has seen before, records
    the declaration with its foreground as src, adds nothing to the list
    of the icons that need a legacy icon, and adds the declaration to the
    list of the missing attributes exactly when its background is unset.
    So with a background the declaration leaves the validation as it is
    without it: when the other declarations pass, the whole list passes
    and [updateIcons] throws no [CordovaError]; without a background the
    list is rejected, [updateIcons] throws the [CordovaError] and leaves the
    world as it was. *)
Theorem raster_foreground_becomes_src icons (i : nat) icon :
  icons !! i = Some icon ->
  raster_foreground icon = true ->
  truthy (src icon) = false ->
  legacy_needed icon = false
  /\ missing_pair icon = negb (truthy (background icon))
  /\ (exists icon',
        icons_seen (validate_icons icons) !! i = Some icon'
        /\ src icon' = foreground icon
        /\ icon' = set_src icon (foreground icon))
  /\ (forall st,
        validate_icon st icon
        = mkValidation (icons_seen st ++ [set_src icon (foreground icon)])
                       (if truthy (background icon) then errorMissingAttributes st
                        else errorMissingAttributes st ++ [icon_identifier icon])
                       (errorLegacyIconNeeded st) true)
  /\ (truthy (background icon) = true ->
      validation_errorMessage (validate_icons (delete i icons)) = [] ->
      validation_errorMessage (validate_icons icons) = []
      /\ forall root dir folders w, no_CordovaError (updateIcons icons root dir folders w))
  /\ (truthy (background icon) = false ->
      In (icon_identifier icon) (errorMissingAttributes (validate_icons icons))
      /\ forall root dir folders w,
          updateIcons icons root dir folders w
          = (w, Throw (CordovaError (aggregated_message icons)))).
Proof.
  intros Hi Hr Hs.
  assert (Hr' := Hr).
  unfold raster_foreground in Hr. apply andb_true_iff in Hr. destruct Hr as [Hf Hc].
  apply negb_true_iff in Hc.
  assert (Hlegacy : legacy_needed icon = false).
  { unfold legacy_needed. fold (color_or_vector (str (foreground icon))).
    now rewrite Hc, andb_false_r. }
  assert (Hmissing : missing_pair icon = negb (truthy (background icon))).
  { unfold missing_pair, exactly_one_of_pair, nothing_to_show. rewrite Hf.
    now destruct (truthy (background icon)). }
  split; [exact Hlegacy|]. split; [exact Hmissing|]. split; [|split; [|split]].
  - exists (set_src icon (foreground icon)). repeat split.
    rewrite validate_icons_eq. simpl. rewrite list_lookup_fmap, Hi. simpl.
    unfold derive_src, raster_foreground. now rewrite Hf, Hc, Hs.
  - intros st. unfold validate_icon. rewrite missing_attributes_eq, Hmissing, Hf, Hs, Hc.
    now destruct (truthy (background icon)).
  - intros Hb Hothers.
    assert (Hv : validation_errorMessage (validate_icons icons) = []).
    { rewrite validate_icons_eq in *. unfold validation_errorMessage in *.
      cbn [errorMissingAttributes errorLegacyIconNeeded] in *.
      rewrite (filter_delete_rejected missing_pair icons i icon Hi) in Hothers
        by now rewrite Hmissing, Hb.
      now rewrite (filter_delete_rejected legacy_needed icons i icon Hi Hlegacy) in Hothers. }
    split; [exact Hv|]. intros root dir folders w.
    pose proof (updateIcons_validated_outcome icons root dir folders w Hv) as Hout.
    unfold Ok_or_TypeError in Hout. unfold no_CordovaError.
    destruct (snd (updateIcons icons root dir folders w)) as [u|e]; [exact I|now subst e].
  - intros Hb.
    assert (Hin : In (icon_identifier icon) (errorMissingAttributes (validate_icons icons))).
    { rewrite validate_icons_eq. cbn [errorMissingAttributes]. apply in_map.
      apply List.filter_In. split; [|now rewrite Hmissing, Hb].
      exact (lookup_In icons i icon Hi). }
    split; [exact Hin|]. intros root dir folders w.
    apply updateIcons_validation_throws. unfold validation_errorMessage.
    destruct (errorMissingAttributes (validate_icons icons)); [destruct Hin|discriminate].
Qed.

Lemma raster_foreground_becomes_src_witness :
  [adaptive_icon (Some "mdpi"%string) (Some "bg.png"%string) (Some "fg.png"%string)] !! 0%nat
  = Some (adaptive_icon (Some "mdpi"%string) (Some "bg.png"%string) (Some "fg.png"%string))
  /\ legacy_needed (adaptive_icon (Some "mdpi"%string) (Some "bg.png"%string) (Some "fg.png"%string))
     = false
  /\ missing_pair (adaptive_icon (Some "mdpi"%string) (Some "bg.png"%string) (Some "fg.png"%string))
     = false
  /\ (exists icon',
      icons_seen (validate_icons
                    [adaptive_icon (Some "mdpi"%string) (Some "bg.png"%string)
                                   (Some "fg.png"%string)]) !! 0%nat
      = Some icon'
      /\ src icon' = Some "fg.png"%string
      /\ icon' = set_src (adaptive_icon (Some "mdpi"%string) (Some "bg.png"%string)
                                        (Some "fg.png"%string))
                         (Some "fg.png"%string))
  /\ validate_icons
       [adaptive_icon (Some "mdpi"%string) (Some "bg.png"%string) (Some "fg.png"%string)]
     = mkValidation
         [mkIcon (Some "fg.png"%string) (Some "mdpi"%string) None None None
                 (Some "bg.png"%string) (Some "fg.png"%string) None]
         [] [] true
  /\ forall root dir folders w,
      no_CordovaError
        (updateIcons
           [adaptive_icon (Some "mdpi"%string) (Some "bg.png"%string) (Some "fg.png"%string)]
           root dir folders w).
Proof.
  split; [reflexivity|].
  destruct (raster_foreground_becomes_src
              [adaptive_icon (Some "mdpi"%string) (Some "bg.png"%string)
                             (Some "fg.png"%string)]
              0%nat
              (adaptive_icon (Some "mdpi"%string) (Some "bg.png"%string)
                             (Some "fg.png"%string))
              eq_refl eq_refl eq_refl)
    as (Hlegacy & Hmissing & Hseen & Hround & Hset & _).
  split; [exact Hlegacy|]. split; [exact Hmissing|]. split; [exact Hseen|].
  split; [exact (Hround (mkValidation [] [] [] false))|].
  exact (proj2 (Hset eq_refl eq_refl)).
Defined.

(** *** Where the descriptor's path can come back from *)

Lemma launcher_basename dir d :
  Path.basename (launcherXmlPath dir d) = "ic_launcher.xml"%string.
Proof.
  unfold launcherXmlPath.
  change [dir; "mipmap-" +:+ d +:+ "-v26"; "ic_launcher.xml"]%string
    with (app [dir; "mipmap-" +:+ d +:+ "-v26"]%string ["ic_launcher.xml"%string]).
  now apply basename_join.
Qed.

Lemma adaptive_path_basename dir type density name sourceName :
  In name adaptive_layer_names ->
  Path.basename (getAdaptiveImageResourcePath dir type density name sourceName)
  <> "ic_launcher.xml"%string.
Proof.
  intros Hin. unfold getAdaptiveImageResourcePath.
  set (name' := if endsWith sourceName ".9.png" then replace_png_suffix name else name).
  set (sub := if String.eqb density EmptyString then type else type +:+ "-" +:+ density +:+ "-v26").
  change [dir; sub; name'] with ([dir; sub] ++ [name']).
  assert (H : plain_name name' = true /\ name' <> "ic_launcher.xml"%string).
  { subst name'. simpl in Hin.
    destruct (endsWith sourceName ".9.png");
      repeat (destruct Hin as [<-|Hin]; [split; [reflexivity|discriminate]|]);
      destruct Hin. }
  destruct H as [Hp Hne]. now rewrite basename_join.
Qed.

Lemma insert_adaptive_path_lookup dir type density name sourceName v
    (rm : resource_map) k :
  In name adaptive_layer_names ->
  Path.basename k = "ic_launcher.xml"%string ->
  <[getAdaptiveImageResourcePath dir type density name sourceName := v]> rm !! k = rm !! k.
Proof.
  intros Hin Hk. apply lookup_insert_ne. intros Heq. subst k.
  now apply (adaptive_path_basename dir type density name sourceName Hin).
Qed.

Lemma adaptive_layer_lookup dir d layerName layer val (rm : resource_map) k :
  In (layerName +:+ ".xml") adaptive_layer_names ->
  In (layerName +:+ ".png") adaptive_layer_names ->
  Path.basename k = "ic_launcher.xml"%string ->
  snd (adaptive_layer dir d layerName layer val rm) !! k = rm !! k.
Proof.
  intros Hx Hp Hk. unfold adaptive_layer.
  destruct (startsWith layer "@color"); [reflexivity|].
  destruct (String.eqb (Path.extname (Path.basename layer)) ".xml");
    [now apply insert_adaptive_path_lookup|].
  destruct (String.eqb (Path.extname (Path.basename layer)) ".png");
    [now apply insert_adaptive_path_lookup|reflexivity].
Qed.

Lemma adaptive_monochrome_lookup dir d layer (rm : resource_map) k :
  Path.basename k = "ic_launcher.xml"%string ->
  adaptive_monochrome dir d layer rm !! k = rm !! k.
Proof.
  intros Hk. unfold adaptive_monochrome.
  destruct (String.eqb (Path.extname (Path.basename layer)) ".xml");
    [apply insert_adaptive_path_lookup; [simpl; tauto|assumption]|].
  destruct (String.eqb (Path.extname (Path.basename layer)) ".png");
    [apply insert_adaptive_path_lookup; [simpl; tauto|assumption]|reflexivity].
Qed.

Lemma round_inserts_lookup dir d icon (rm : resource_map) k :
  Path.basename k = "ic_launcher.xml"%string ->
  round_inserts dir d icon rm !! k = rm !! k.
Proof.
  intros Hk. unfold round_inserts.
  destruct (truthy (monochrome icon)); [rewrite adaptive_monochrome_lookup by assumption|];
    rewrite !adaptive_layer_lookup by (assumption || (simpl; tauto)); reflexivity.
Qed.

(** What one round does to the paths of descriptors, to the files and to
    the calls of the synchronisation engine. *)
Lemma adaptive_round_descriptor dir vars (rm : resource_map) d icon w w' vars' rm' :
  adaptive_round dir (vars, rm) (d, icon) w = (w', Ok (vars', rm')) ->
  updatePaths_calls w' = updatePaths_calls w
  /\ (forall p, is_Some (files w !! p) -> is_Some (files w' !! p))
  /\ (forall k, Path.basename k = "ic_launcher.xml"%string ->
                rm !! k = None -> rm' !! k = None)
  /\ (is_adaptive icon = true ->
      rm' !! launcherXmlPath dir d = None /\ is_Some (files w' !! launcherXmlPath dir d)).
Proof.
  intros Hrun. destruct (is_adaptive icon) eqn:Ha.
  - destruct (adaptive_round_adaptive dir vars rm d icon w Ha) as (text & Heq).
    rewrite Heq in Hrun. injection Hrun as <- <- <-. simpl.
    split; [reflexivity|]. split; [|split].
    + intros p Hp. destruct (decide (launcherXmlPath dir d = p)) as [<-|Hne].
      * rewrite lookup_insert_eq. eauto.
      * now rewrite lookup_insert_ne.
    + intros k Hk Hnone. destruct (decide (launcherXmlPath dir d = k)) as [<-|Hne].
      * apply lookup_delete_eq.
      * rewrite lookup_delete_ne by assumption. now rewrite round_inserts_lookup.
    + intros _. split; [apply lookup_delete_eq|]. rewrite lookup_insert_eq. eauto.
  - rewrite adaptive_round_skipped in Hrun by assumption.
    injection Hrun as <- <- <-. simpl. repeat split; auto; discriminate.
Qed.

Lemma adaptive_loop_descriptor dir entries : forall vars (rm : resource_map) w w' vars' rm',
  for_each (adaptive_round dir) entries (vars, rm) w = (w', Ok (vars', rm')) ->
  updatePaths_calls w' = updatePaths_calls w
  /\ (forall p, is_Some (files w !! p) -> is_Some (files w' !! p))
  /\ (forall k, Path.basename k = "ic_launcher.xml"%string ->
                rm !! k = None -> rm' !! k = None)
  /\ (forall d icon, In (d, icon) entries -> is_adaptive icon = true ->
      rm' !! launcherXmlPath dir d = None /\ is_Some (files w' !! launcherXmlPath dir d)).
Proof.
  induction entries as [|[d0 icon0] entries IH]; intros vars rm w w' vars' rm' Hrun.
  - simpl in Hrun. injection Hrun as <- <- <-.
    split; [reflexivity|]. split; [auto|]. split; [auto|]. intros ? ? [].
  - simpl in Hrun.
    destruct (adaptive_round_ok dir (vars, rm) (d0, icon0) w) as (w1 & rm1 & H1).
    rewrite (bind_ok _ _ _ _ _ H1) in Hrun.
    destruct (adaptive_round_descriptor _ _ _ _ _ _ _ _ _ H1) as (C1 & F1 & K1 & A1).
    destruct (IH _ _ _ _ _ _ Hrun) as (C2 & F2 & K2 & A2).
    split; [congruence|]. split; [auto|]. split; [auto|].
    intros d icon [Heq|Hin] Ha.
    + injection Heq as <- <-. destruct (A1 Ha) as [Hn Hf]. split; [|auto].
      apply K2; [apply launcher_basename|assumption].
    + now apply (A2 d icon).
Qed.

Lemma default_adaptive_layer_lookup dir layerName layer dl (rm : resource_map) w w' r :
  In (layerName +:+ ".xml") adaptive_layer_names ->
  In (layerName +:+ ".png") adaptive_layer_names ->
  default_adaptive_layer dir layerName layer dl rm w = (w', r) ->
  w' = w
  /\ forall rm', r = Ok rm' ->
       forall k, Path.basename k = "ic_launcher.xml"%string -> rm' !! k = rm !! k.
Proof.
  intros Hx Hp Hrun. unfold default_adaptive_layer, throw, ret in Hrun.
  destruct layer as [l|]; [|injection Hrun as <- <-; split; [reflexivity|discriminate]].
  destruct (startsWith l "@color");
    [injection Hrun as <- <-; split; [reflexivity|]; now intros rm' [= <-]|].
  destruct (String.eqb (Path.extname (Path.basename l)) ".xml").
  { destruct dl as [d|]; injection Hrun as <- <-; (split; [reflexivity|]);
      [|discriminate].
    intros rm' [= <-] k Hk. now apply insert_adaptive_path_lookup. }
  destruct (String.eqb (Path.extname (Path.basename l)) ".png").
  { destruct dl as [d|]; injection Hrun as <- <-; (split; [reflexivity|]);
      [|discriminate].
    intros rm' [= <-] k Hk. now apply insert_adaptive_path_lookup. }
  injection Hrun as <- <-. split; [reflexivity|]. now intros rm' [= <-].
Qed.

Lemma default_adaptive_monochrome_lookup dir layer dl (rm : resource_map) w w' r :
  default_adaptive_monochrome dir layer dl rm w = (w', r) ->
  w' = w
  /\ forall rm', r = Ok rm' ->
       forall k, Path.basename k = "ic_launcher.xml"%string -> rm' !! k = rm !! k.
Proof.
  intros Hrun. unfold default_adaptive_monochrome, throw, ret in Hrun.
  destruct (truthy layer);
    [|injection Hrun as <- <-; split; [reflexivity|]; now intros rm' [= <-]].
  destruct (String.eqb (Path.extname (Path.basename (str layer))) ".xml").
  { destruct dl as [d|]; injection Hrun as <- <-; (split; [reflexivity|]);
      [|discriminate].
    intros rm' [= <-] k Hk. apply insert_adaptive_path_lookup; [simpl; tauto|assumption]. }
  destruct (String.eqb (Path.extname (Path.basename (str layer))) ".png").
  { destruct dl as [d|]; injection Hrun as <- <-; (split; [reflexivity|]);
      [|discriminate].
    intros rm' [= <-] k Hk. apply insert_adaptive_path_lookup; [simpl; tauto|assumption]. }
  injection Hrun as <- <-. split; [reflexivity|]. now intros rm' [= <-].
Qed.

Lemma adaptive_default_block_lookup dir prepared vars (rm : resource_map) w w' r :
  adaptive_default_block dir prepared vars rm w = (w', r) ->
  w' = w
  /\ forall rm', r = Ok rm' ->
       forall k, Path.basename k = "ic_launcher.xml"%string -> rm' !! k = rm !! k.
Proof.
  unfold adaptive_default_block. intros Hrun.
  destruct (default_icon prepared) as [dflt|];
    [|injection Hrun as <- <-; split; [reflexivity|]; now intros rm' [= <-]].
  destruct (JsObj.get (android_icons prepared) "mdpi");
    [injection Hrun as <- <-; split; [reflexivity|]; now intros rm' [= <-]|].
  unfold bind in Hrun.
  destruct (default_adaptive_layer dir "ic_launcher_background" _ _ rm w)
    as [w1 [rm1|e1]] eqn:H1;
    apply default_adaptive_layer_lookup in H1; try (simpl; tauto);
    destruct H1 as [-> K1];
    [|injection Hrun as <- <-; split; [reflexivity|discriminate]].
  destruct (default_adaptive_layer dir "ic_launcher_foreground" _ _ rm1 w)
    as [w2 [rm2|e2]] eqn:H2;
    apply default_adaptive_layer_lookup in H2; try (simpl; tauto);
    destruct H2 as [-> K2];
    [|injection Hrun as <- <-; split; [reflexivity|discriminate]].
  apply default_adaptive_monochrome_lookup in Hrun. destruct Hrun as [-> K3].
  split; [reflexivity|]. intros rm' Hr k Hk.
  rewrite (K3 rm' Hr k Hk), (K2 rm2 eq_refl k Hk). now apply K1.
Qed.

(** The adaptive pass as a whole: every descriptor it generates is on
    disk, and its path is not in the map the pass returns. *)
Lemma adaptive_pass_descriptor prepared (rm : resource_map) dir w w' r :
  updateIconResourceForAdaptive prepared rm dir w = (w', r) ->
  updatePaths_calls w' = updatePaths_calls w
  /\ forall rm', r = Ok rm' ->
       forall d icon, In (d, icon) (JsObj.for_in (android_icons prepared)) ->
                      is_adaptive icon = true ->
         rm' !! launcherXmlPath dir d = None
         /\ is_Some (files w' !! launcherXmlPath dir d).
Proof.
  unfold updateIconResourceForAdaptive. intros Hrun.
  destruct (adaptive_loop_ok dir (JsObj.for_in (android_icons prepared))
              (mkVars None None None, rm) w) as (w1 & [vars1 rm1] & Hloop).
  rewrite (bind_ok _ _ _ _ _ Hloop) in Hrun. simpl in Hrun.
  destruct (adaptive_loop_descriptor _ _ _ _ _ _ _ _ Hloop) as (C & F & K & A).
  apply adaptive_default_block_lookup in Hrun. destruct Hrun as [-> Kd].
  split; [exact C|]. intros rm' Hr d icon Hin Ha.
  destruct (A d icon Hin Ha) as [Hn Hf]. split; [|exact Hf].
  rewrite (Kd rm' Hr _ (launcher_basename dir d)). exact Hn.
Qed.

(** *** The legacy pass *)

Lemma legacy_entry_run dir d icon (rm : resource_map) w w' r :
  legacy_entry dir d icon rm w = (w', r) ->
  w' = w
  /\ forall rm', r = Ok rm' ->
       exists s, src icon = Some s
         /\ rm' = <[getImageResourcePath dir "mipmap" d "ic_launcher" (Path.basename s)
                    := Some s]> rm.
Proof.
  unfold legacy_entry, throw, ret. intros Hrun.
  destruct (src icon) as [s|]; injection Hrun as <- <-; (split; [reflexivity|]);
    [|discriminate].
  intros rm' [= <-]. eauto.
Qed.

Lemma legacy_loop_lookup dir entries : forall (rm : resource_map) w w' r,
  for_each (fun rm (entry : string * Icon) => legacy_entry dir (fst entry) (snd entry) rm)
           entries rm w = (w', r) ->
  w' = w
  /\ forall rm', r = Ok rm' ->
       forall k,
         rm' !! k = rm !! k
         \/ exists d icon s,
              In (d, icon) entries /\ src icon = Some s
              /\ getImageResourcePath dir "mipmap" d "ic_launcher" (Path.basename s) = k
              /\ rm' !! k = Some (Some s).
Proof.
  induction entries as [|[d0 icon0] entries IH]; intros rm w w' r Hrun.
  - simpl in Hrun. injection Hrun as <- <-. split; [reflexivity|].
    intros rm' [= <-] k. now left.
  - simpl in Hrun. unfold bind in Hrun.
    destruct (legacy_entry dir d0 icon0 rm w) as [w1 [rm1|e1]] eqn:H1;
      apply legacy_entry_run in H1; destruct H1 as [-> E1];
      [|injection Hrun as <- <-; split; [reflexivity|discriminate]].
    destruct (E1 rm1 eq_refl) as (s0 & Hs0 & ->).
    destruct (IH _ _ _ _ Hrun) as [-> K]. split; [reflexivity|].
    intros rm' Hr k. destruct (K rm' Hr k) as [Hsame|(d & icon & s & Hin & Hs & Hp & Hl)].
    + destruct (decide (getImageResourcePath dir "mipmap" d0 "ic_launcher"
                                             (Path.basename s0) = k)) as [Hk|Hk].
      * right. exists d0, icon0, s0.
        split; [now left|]. split; [exact Hs0|]. split; [exact Hk|].
        rewrite Hsame, <- Hk. apply lookup_insert_eq.
      * left. rewrite Hsame. now apply lookup_insert_ne.
    + right. exists d, icon, s.
      split; [now right|]. split; [exact Hs|]. split; [exact Hp|exact Hl].
Qed.

Lemma legacy_pass_lookup prepared (rm : resource_map) dir w w' r :
  updateIconResourceForLegacy prepared rm dir w = (w', r) ->
  w' = w
  /\ forall rm', r = Ok rm' ->
       forall k,
         rm' !! k = rm !! k
         \/ exists d icon s,
              legacy_source prepared d icon /\ src icon = Some s
              /\ getImageResourcePath dir "mipmap" d "ic_launcher" (Path.basename s) = k
              /\ rm' !! k = Some (Some s).
Proof.
  unfold updateIconResourceForLegacy, bind. intros Hrun.
  destruct (for_each _ (JsObj.for_in (android_icons prepared)) rm w)
    as [w1 [rm1|e1]] eqn:Hloop;
    apply legacy_loop_lookup in Hloop; destruct Hloop as [-> K];
    [|injection Hrun as <- <-; split; [reflexivity|discriminate]].
  assert (Kl : forall k,
             rm1 !! k = rm !! k
             \/ exists d icon s,
                  legacy_source prepared d icon /\ src icon = Some s
                  /\ getImageResourcePath dir "mipmap" d "ic_launcher" (Path.basename s) = k
                  /\ rm1 !! k = Some (Some s)).
  { intros k. destruct (K rm1 eq_refl k) as [H|(d & icon & s & Hin & H)]; [now left|].
    right. exists d, icon, s. split; [now left|exact H]. }
  destruct (default_icon prepared) as [dflt|] eqn:Hd;
    [|injection Hrun as <- <-; split; [reflexivity|]; now intros rm' [= <-]].
  destruct (JsObj.get (android_icons prepared) "mdpi") eqn:Hm;
    [injection Hrun as <- <-; split; [reflexivity|]; now intros rm' [= <-]|].
  apply legacy_entry_run in Hrun. destruct Hrun as [-> E]. split; [reflexivity|].
  intros rm' Hr k. destruct (E rm' Hr) as (s & Hs & ->).
  destruct (decide (getImageResourcePath dir "mipmap" "mdpi" "ic_launcher"
                                         (Path.basename s) = k)) as [Hk|Hk].
  - right. exists "mdpi"%string, dflt, s. split; [right; auto|].
    split; [exact Hs|]. split; [exact Hk|]. rewrite <- Hk. apply lookup_insert_eq.
  - rewrite lookup_insert_ne by assumption. apply Kl.
Qed.

(** *** From the resolved set back to the declarations *)

Lemma insert_index_In {V} n (e : string * V) l x :
  In x (JsObj.insert_index n e l) -> x = (n, e) \/ In x l.
Proof.
  induction l as [|[m e'] l IH]; simpl.
  - intros [<-|[]]. now left.
  - destruct (n <? m)%N; simpl.
    + intros [<-|H]; [now left|now right].
    + intros [<-|H]; [right; now left|].
      destruct (IH H) as [->|H']; [now left|right; now right].
Qed.

Lemma for_in_In {V} (o : JsObj.t V) e : In e (JsObj.for_in o) -> In e o.
Proof.
  unfold JsObj.for_in. intros H. apply in_app_or in H. destruct H as [H|H].
  - apply in_map_iff in H. destruct H as ([n e'] & <- & H). simpl.
    induction o as [|[k v] o IH]; simpl in *; [destruct H|].
    destruct (JsObj.array_index k).
    + apply insert_index_In in H. destruct H as [[= _ <-]|H]; [now left|right; auto].
    + right. auto.
  - induction o as [|[k v] o IH]; simpl in *; [destruct H|].
    destruct (JsObj.array_index k).
    + right. auto.
    + destruct H as [<-|H]; [now left|right; auto].
Qed.

Lemma set_In {V} (o : JsObj.t V) k v e :
  In e (JsObj.set o k v) -> e = (k, v) \/ In e o.
Proof.
  induction o as [|[k0 v0] o IH]; simpl.
  - intros [<-|[]]. now left.
  - destruct (String.eqb k0 k) eqn:E.
    + apply String.eqb_eq in E. subst k0. intros [<-|H]; [now left|right; now right].
    + intros [<-|H]; [right; now left|].
      destruct (IH H) as [->|H']; [now left|right; now right].
Qed.

Lemma parseIcon_In o icon size d i :
  In (d, i) (parseIcon o icon size) -> i = icon \/ In (d, i) o.
Proof.
  unfold parseIcon. destruct (negb _); [now right|].
  destruct (JsObj.get o _) as [p|].
  - destruct (truthy (platform p)); [now right|].
    intros H. apply set_In in H. destruct H as [[= _ ->]|H]; [now left|now right].
  - intros H. apply set_In in H. destruct H as [[= _ ->]|H]; [now left|now right].
Qed.

Lemma loop_slots_In icons : forall o d i,
  In (d, i) (loop_slots o icons) -> In i icons \/ In (d, i) o.
Proof.
  induction icons as [|icon icons IH]; intros o d i H; [now right|].
  unfold loop_slots in H. simpl in H. apply IH in H. destruct H as [H|H].
  - left. now right.
  - destruct (sizeless_densityless icon); [now right|].
    apply parseIcon_In in H. destruct H as [->|H]; [left; now left|now right].
Qed.

Lemma resolved_entry_declared icons d icon :
  In (d, icon) (JsObj.for_in (android_icons (prepared_of icons))) -> In icon icons.
Proof.
  rewrite prepared_of_eq. cbn [android_icons]. intros H. apply for_in_In in H.
  apply loop_slots_In in H. destruct H as [H|[]]. exact H.
Qed.

Lemma default_icon_declared icons dflt :
  default_icon (prepared_of icons) = Some dflt -> In dflt icons.
Proof.
  rewrite prepared_of_eq. cbn [default_icon]. unfold default_after. intros H.
  destruct (List.filter sizeless_densityless icons) as [|x l] eqn:E; [discriminate|].
  injection H as ->.
  assert (Hin : In dflt (List.filter sizeless_densityless icons)) by (rewrite E; now left).
  now apply filter_In in Hin.
Qed.

(** After a validation without error every declaration has a src, its own
    or its image foreground. *)
Lemma validated_src icons icon :
  validation_errorMessage (validate_icons icons) = [] ->
  In icon (icons_seen (validate_icons icons)) ->
  truthy (src icon) = true.
Proof.
  rewrite validate_icons_eq. unfold validation_errorMessage.
  cbn [errorMissingAttributes errorLegacyIconNeeded icons_seen].
  intros Hv Hin. apply app_eq_nil in Hv. destruct Hv as [Hm Hl].
  apply in_map_iff in Hin. destruct Hin as (i0 & <- & Hin).
  assert (Hm0 : missing_pair i0 = false).
  { destruct (missing_pair i0) eqn:E; [|reflexivity]. exfalso.
    assert (Hf : In i0 (List.filter missing_pair icons)) by (apply filter_In; auto).
    destruct (List.filter missing_pair icons); [destruct Hf|discriminate]. }
  assert (Hl0 : legacy_needed i0 = false).
  { destruct (legacy_needed i0) eqn:E; [|reflexivity]. exfalso.
    assert (Hf : In i0 (List.filter legacy_needed icons)) by (apply filter_In; auto).
    destruct (List.filter legacy_needed icons); [destruct Hf|discriminate]. }
  unfold derive_src, raster_foreground.
  unfold missing_pair, exactly_one_of_pair, nothing_to_show in Hm0.
  unfold legacy_needed in Hl0. fold (color_or_vector (str (foreground i0))) in Hl0.
  destruct (truthy (background i0)), (truthy (foreground i0)) eqn:Hf,
    (truthy (src i0)) eqn:Hs, (color_or_vector (str (foreground i0)));
    simpl in *; try discriminate; try assumption.
Qed.

Lemma adaptive_entry_sets_flag icons icon :
  In icon (icons_seen (validate_icons icons)) -> is_adaptive icon = true ->
  hasAdaptive (validate_icons icons) = true.
Proof.
  rewrite validate_icons_eq. cbn [icons_seen hasAdaptive]. intros Hin Ha.
  apply in_map_iff in Hin. destruct Hin as (i0 & <- & Hin).
  apply existsb_exists. exists i0. split; [exact Hin|].
  unfold is_adaptive in Ha. apply andb_true_iff in Ha. destruct Ha as [_ Hf].
  unfold derive_src in Hf. destruct (_ && _) in Hf; exact Hf.
Qed.

Lemma legacy_source_declared icons d icon :
  legacy_source (prepared_of icons) d icon -> In icon icons.
Proof.
  intros [H|(_ & H & _)].
  - now apply resolved_entry_declared in H.
  - now apply default_icon_declared in H.
Qed.

(** C6 (as amended).  Either [updateIcons] hands no map to
    [FileUpdater.updatePaths] (no icons, a validation error, a
    [TypeError]), or it hands over exactly one, and for every resolved
    density that has both a background and a foreground (those the
    adaptive pass generates a descriptor for): the descriptor is on disk,
    and its path [mipmap-<density>-v26/ic_launcher.xml] is either absent
    from the map, or mapped to the src of a declaration whose legacy icon
    goes to that very path; it is never mapped to the [null] that deletes.
    When all the resolved densities are among the six standard qualifiers
    the path is absent. *)
Theorem generated_descriptor_not_deleted icons root dir folders w :
  let prepared := prepared_of (icons_seen (validate_icons icons)) in
  let after := fst (updateIcons icons root dir folders w) in
  updatePaths_calls after = updatePaths_calls w
  \/ exists rm,
       updatePaths_calls after = updatePaths_calls w ++ [(rm, root)]
       /\ forall d icon,
            In (d, icon) (JsObj.for_in (android_icons prepared)) ->
            is_adaptive icon = true ->
            is_Some (files after !! launcherXmlPath dir d)
            /\ (rm !! launcherXmlPath dir d = None
                \/ exists d' icon' s,
                     legacy_source prepared d' icon'
                     /\ src icon' = Some s /\ truthy (src icon') = true
                     /\ getImageResourcePath dir "mipmap" d' "ic_launcher" (Path.basename s)
                        = launcherXmlPath dir d
                     /\ rm !! launcherXmlPath dir d = Some (Some s))
            /\ ((forall d' icon',
                   In (d', icon') (JsObj.for_in (android_icons prepared)) ->
                   standard_density d' = true) ->
                rm !! launcherXmlPath dir d = None).
Proof.
  intros prepared after. subst prepared after.
  destruct (updateIcons icons root dir folders w) as [w' r] eqn:Hrun.
  cbn [fst]. unfold updateIcons in Hrun.
  destruct icons as [|i0 icons0] eqn:Hicons; [injection Hrun as <- <-; now left|].
  rewrite <- Hicons in Hrun |- *.
  destruct (validation_errorMessage (validate_icons icons)) as [|m ms] eqn:Hv;
    [|injection Hrun as <- <-; now left].
  erewrite bind_ok in Hrun by apply prepareIcons_run.
  rewrite <- prepared_of_eq in Hrun.
  set (prepared := prepared_of (icons_seen (validate_icons icons))) in *.
  set (w1 := emitted w _) in Hrun.
  set (rm0 := Object_assign _ _) in Hrun.
  unfold bind at 1 in Hrun.
  destruct ((if hasAdaptive (validate_icons icons)
             then updateIconResourceForAdaptive prepared rm0 dir
             else ret rm0) w1) as [w2 [rm2|e2]] eqn:HA;
    cbv beta iota in Hrun.
  2:{ left. injection Hrun as <- <-. destruct (hasAdaptive (validate_icons icons)).
      - apply adaptive_pass_descriptor in HA. now destruct HA as [-> _].
      - now injection HA as <-. }
  assert (Hcalls : updatePaths_calls w2 = updatePaths_calls w).
  { destruct (hasAdaptive (validate_icons icons)).
    - apply adaptive_pass_descriptor in HA. now destruct HA as [-> _].
    - now injection HA as <-. }
  unfold bind at 1 in Hrun.
  destruct (updateIconResourceForLegacy prepared rm2 dir w2) as [w3 [rm3|e3]] eqn:HL;
    apply legacy_pass_lookup in HL; destruct HL as [-> KL]; cbv beta iota in Hrun.
  2:{ left. now injection Hrun as <- <-. }
  unfold bind, emit, FileUpdater_updatePaths in Hrun. cbn in Hrun.
  injection Hrun as <- <-. cbn [files updatePaths_calls].
  right. exists rm3.
  split; [now rewrite Hcalls|].
  intros d icon Hin Ha.
  assert (Hflag : hasAdaptive (validate_icons icons) = true).
  { apply (adaptive_entry_sets_flag icons icon); [|exact Ha].
    exact (resolved_entry_declared _ _ _ Hin). }
  rewrite Hflag in HA. apply adaptive_pass_descriptor in HA. destruct HA as [_ HA].
  destruct (HA rm2 eq_refl d icon Hin Ha) as [Hnone Hfile].
  split; [exact Hfile|].
  destruct (KL rm3 eq_refl (launcherXmlPath dir d))
    as [Hsame|(d' & icon' & s & Hsrc & Hs & Hp & Hl)].
  - split; [left|intros _]; now rewrite Hsame.
  - split.
    + right. exists d', icon', s. split; [exact Hsrc|]. split; [exact Hs|].
      split; [|split; assumption].
      apply (validated_src icons icon' Hv). exact (legacy_source_declared _ _ _ Hsrc).
    + intros Hstd. exfalso.
      assert (Hd : standard_density d = true) by exact (Hstd d icon Hin).
      assert (Hd' : standard_density d' = true).
      { destruct Hsrc as [Hin'|(-> & _)]; [exact (Hstd d' icon' Hin')|reflexivity]. }
      apply (legacy_path_is_not_descriptor dir d d' (Path.basename s));
        auto using standard_density_no_slash, standard_density_not_v26.
Qed.

(** C6, counterexample.  An adaptive [mdpi] icon, whose descriptor is
    generated and removed from the map by the adaptive pass, and a second
    declaration of density [mdpi-v26] with an [.xml] src: the legacy pass
    maps that src to [mipmap-mdpi-v26/ic_launcher.xml], so the
    descriptor's path is in the map handed to [FileUpdater.updatePaths]. *)
Lemma descriptor_path_back_in_map :
  JsObj.get (android_icons (prepared_of (icons_seen (validate_icons mdpi_and_mdpi_v26))))
            "mdpi"
  = Some (mkIcon (Some "fg.png"%string) (Some "mdpi"%string) None None None
                 (Some "bg.png"%string) (Some "fg.png"%string) None)
  /\ launcherXmlPath res_dir "mdpi"
     = "platforms/android/app/src/main/res/mipmap-mdpi-v26/ic_launcher.xml"%string
  /\ snd (updateIcons mdpi_and_mdpi_v26 "/project" res_dir
                      ["mipmap-mdpi"; "mipmap-mdpi-v26"]%string empty_world)
     = Ok tt
  /\ handed_over (fst (updateIcons mdpi_and_mdpi_v26 "/project" res_dir
                                   ["mipmap-mdpi"; "mipmap-mdpi-v26"]%string empty_world))
                 (launcherXmlPath res_dir "mdpi")
     = Some (Some (Some "x.xml"%string)).
Proof. repeat split; vm_compute; reflexivity. Qed.

Lemma generated_descriptor_not_deleted_witness :
  length (updatePaths_calls
    (fst (updateIcons
            [adaptive_icon (Some "mdpi"%string) (Some "bg.png"%string) (Some "fg.png"%string)]
            "/project" res_dir ["mipmap-mdpi"; "mipmap-mdpi-v26"]%string empty_world)))
  = 1%nat
  /\ handed_over
       (fst (updateIcons
               [adaptive_icon (Some "mdpi"%string) (Some "bg.png"%string) (Some "fg.png"%string)]
               "/project" res_dir ["mipmap-mdpi"; "mipmap-mdpi-v26"]%string empty_world))
       (launcherXmlPath res_dir "mdpi")
     = Some None
  /\ (let prepared :=
        prepared_of (icons_seen (validate_icons
          [adaptive_icon (Some "mdpi"%string) (Some "bg.png"%string) (Some "fg.png"%string)])) in
      let after :=
        fst (updateIcons
               [adaptive_icon (Some "mdpi"%string) (Some "bg.png"%string) (Some "fg.png"%string)]
               "/project" res_dir ["mipmap-mdpi"; "mipmap-mdpi-v26"]%string empty_world) in
      updatePaths_calls after = updatePaths_calls empty_world
      \/ exists rm,
           updatePaths_calls after = updatePaths_calls empty_world ++ [(rm, "/project"%string)]
           /\ forall d icon,
                In (d, icon) (JsObj.for_in (android_icons prepared)) ->
                is_adaptive icon = true ->
                is_Some (files after !! launcherXmlPath res_dir d)
                /\ (rm !! launcherXmlPath res_dir d = None
                    \/ exists d' icon' s,
                         legacy_source prepared d' icon'
                         /\ src icon' = Some s /\ truthy (src icon') = true
                         /\ getImageResourcePath res_dir "mipmap" d' "ic_launcher"
                                                 (Path.basename s)
                            = launcherXmlPath res_dir d
                         /\ rm !! launcherXmlPath res_dir d = Some (Some s))
                /\ ((forall d' icon',
                       In (d', icon') (JsObj.for_in (android_icons prepared)) ->
                       standard_density d' = true) ->
                    rm !! launcherXmlPath res_dir d = None)).
Proof.
  split; [vm_compute; reflexivity|]. split; [vm_compute; reflexivity|].
  exact (generated_descriptor_not_deleted
           [adaptive_icon (Some "mdpi"%string) (Some "bg.png"%string) (Some "fg.png"%string)]
           "/project" res_dir ["mipmap-mdpi"; "mipmap-mdpi-v26"]%string empty_world).
Defined.

(** ** XML documents *)

Section ListEdits.
Context {A : Type} (p : A -> bool).

Lemma find_index_lookup l i :
  find_index p l = Some i -> exists x, l !! i = Some x /\ p x = true.
Proof.
  revert i. induction l as [|x l IH]; intros i; simpl; [discriminate|].
  destruct (p x) eqn:E.
  - intros [= <-]. eauto.
  - destruct (find_index p l) as [j|]; [|discriminate].
    intros [= <-]. destruct (IH j eq_refl) as (y & Hy & Hp). eauto.
Qed.

Lemma find_index_none l : find_index p l = None -> List.filter p l = [].
Proof.
  induction l as [|x l IH]; simpl; [reflexivity|].
  destruct (p x); [discriminate|].
  destruct (find_index p l); [discriminate|]. auto.
Qed.

Lemma find_index_find l i :
  find_index p l = Some i -> List.find p l = l !! i.
Proof.
  revert i. induction l as [|x l IH]; intros i; simpl; [discriminate|].
  destruct (p x) eqn:E.
  - now intros [= <-].
  - destruct (find_index p l) as [j|]; [|discriminate].
    intros [= <-]. now apply IH.
Qed.

Lemma find_index_find_none l : find_index p l = None -> List.find p l = None.
Proof.
  induction l as [|x l IH]; simpl; [reflexivity|].
  destruct (p x); [discriminate|].
  destruct (find_index p l); [discriminate|]. auto.
Qed.

Lemma filter_remove_found l i :
  find_index p l = Some i ->
  length (List.filter p (remove_nth i l)) = pred (length (List.filter p l)).
Proof.
  revert i. induction l as [|x l IH]; intros i; simpl; [discriminate|].
  destruct (p x) eqn:E.
  - now intros [= <-].
  - destruct (find_index p l) as [j|]; [|discriminate].
    intros [= <-]. simpl. rewrite E. now apply IH.
Qed.

Lemma filter_remove_other l i x :
  l !! i = Some x -> p x = false ->
  List.filter p (remove_nth i l) = List.filter p l.
Proof.
  revert i. induction l as [|y l IH]; intros i; [discriminate|].
  destruct i as [|i]; simpl.
  - intros [= ->] ->. reflexivity.
  - intros Hl Hp. rewrite (IH i Hl Hp). reflexivity.
Qed.

Lemma filter_update_length (f : A -> A) l i :
  (forall x, p (f x) = p x) ->
  length (List.filter p (update_nth i f l)) = length (List.filter p l).
Proof.
  intros Hf. revert i. induction l as [|y l IH]; intros i; [now destruct i|].
  destruct i as [|i]; simpl.
  - rewrite Hf. now destruct (p y).
  - destruct (p y); simpl; now rewrite IH.
Qed.

Lemma find_update_other (f : A -> A) l i x :
  l !! i = Some x -> p x = false -> p (f x) = false ->
  List.find p (update_nth i f l) = List.find p l.
Proof.
  revert i. induction l as [|y l IH]; intros i; [discriminate|].
  destruct i as [|i]; simpl.
  - intros [= ->] -> ->. reflexivity.
  - intros Hl Hp Hf. now rewrite (IH i Hl Hp Hf).
Qed.

Lemma find_update_found (f : A -> A) l i x :
  find_index p l = Some i -> l !! i = Some x -> p (f x) = true ->
  List.find p (update_nth i f l) = Some (f x).
Proof.
  revert i. induction l as [|y l IH]; intros i; simpl; [discriminate|].
  destruct (p y) eqn:E.
  - intros [= <-] [= ->] Hf. simpl. now rewrite Hf.
  - destruct (find_index p l) as [j|]; [|discriminate].
    intros [= <-] Hl Hf. simpl. rewrite E. now apply (IH j).
Qed.

Lemma find_remove_other l i x :
  l !! i = Some x -> p x = false ->
  List.find p (remove_nth i l) = List.find p l.
Proof.
  revert i. induction l as [|y l IH]; intros i; [discriminate|].
  destruct i as [|i]; simpl.
  - intros [= ->] ->. reflexivity.
  - intros Hl Hp. now rewrite (IH i Hl Hp).
Qed.

Lemma find_snoc_other l x : p x = false -> List.find p (l ++ [x]) = List.find p l.
Proof.
  intros Hp. induction l as [|y l IH]; simpl; [now rewrite Hp|].
  destruct (p y); [reflexivity|exact IH].
Qed.

Lemma update_nth_lookup (f : A -> A) l i x :
  l !! i = Some x -> update_nth i f l !! i = Some (f x).
Proof.
  revert i. induction l as [|y l IH]; intros i; [discriminate|].
  destruct i as [|i]; simpl; [now intros [= ->]|apply IH].
Qed.

Lemma update_nth_snoc (f : A -> A) l x :
  update_nth (length l) f (l ++ [x]) = l ++ [f x].
Proof. induction l as [|y l IH]; simpl; [reflexivity|now rewrite IH]. Qed.

End ListEdits.

Lemma named_set_text tagName nameValue x e :
  named tagName nameValue (set_text x e) = named tagName nameValue e.
Proof. now destruct e. Qed.

Lemma named_other_name tagName k k' e :
  k <> k' -> named tagName k' e = true -> named tagName k e = false.
Proof.
  unfold named. intros Hne H. apply andb_true_iff in H. destruct H as [Ht Hn].
  rewrite Ht. simpl. destruct (JsObj.get (attrib_of e) "name") as [v|]; [|reflexivity].
  apply String.eqb_eq in Hn. subst v. now apply String.eqb_neq.
Qed.

Lemma count_named_set_child_text tagName nameValue i value parent :
  count_named tagName nameValue (set_child_text i value parent)
  = count_named tagName nameValue parent.
Proof.
  unfold count_named, set_child_text. destruct parent as [t a x c]. simpl.
  apply filter_update_length. intros e. apply named_set_text.
Qed.

Lemma count_named_remove_found tagName nameValue i parent :
  find_child tagName nameValue parent = Some i ->
  count_named tagName nameValue (remove_child i parent)
  = pred (count_named tagName nameValue parent).
Proof.
  unfold count_named, remove_child, find_child. destruct parent as [t a x c]. simpl.
  apply filter_remove_found.
Qed.

Lemma count_named_not_found tagName nameValue parent :
  find_child tagName nameValue parent = None ->
  count_named tagName nameValue parent = 0%nat.
Proof.
  unfold count_named, find_child. intros H. now rewrite (find_index_none _ _ H).
Qed.

Lemma count_named_append tagName nameValue node parent :
  count_named tagName nameValue (append_child node parent)
  = (count_named tagName nameValue parent
     + if named tagName nameValue node then 1 else 0)%nat.
Proof.
  unfold count_named, append_child. destruct parent as [t a x c]. simpl.
  rewrite List.filter_app, length_app. simpl. now destruct (named tagName nameValue node).
Qed.

(** *** The colours document *)

Lemma icon_background_color_unset color doc :
  truthy color = false ->
  (count_named "color" icon_background_name doc <= 1)%nat ->
  count_named "color" icon_background_name (set_icon_background_color color doc) = 0%nat.
Proof.
  intros Hc Hn. unfold set_icon_background_color. rewrite Hc. simpl.
  fold icon_background_name.
  destruct (find_child "color" icon_background_name doc) as [i|] eqn:Hf.
  - rewrite count_named_remove_found by assumption. lia.
  - now apply count_named_not_found.
Qed.

Lemma icon_background_color_set color doc :
  truthy color = true ->
  (count_named "color" icon_background_name doc <= 1)%nat ->
  (count_named "color" icon_background_name (set_icon_background_color color doc) <= 1)%nat.
Proof.
  intros Hc Hn. unfold set_icon_background_color. rewrite Hc. simpl.
  fold icon_background_name.
  destruct (find_child "color" icon_background_name doc) as [i|] eqn:Hf.
  - now rewrite count_named_set_child_text.
  - rewrite count_named_set_child_text, count_named_append.
    rewrite (count_named_not_found _ _ _ Hf). simpl. lia.
Qed.

Lemma xml_at_files w path doc : xml_at w path = Some doc <-> files w !! path = Some (Xml doc).
Proof.
  unfold xml_at. destruct (files w !! path) as [[d|t]|]; split; congruence.
Qed.

Lemma updateProjectSplashScreenIconBackgroundColor_run color loc w doc :
  xml_at w (colors loc) = Some doc ->
  updateProjectSplashScreenIconBackgroundColor color loc w
  = (mkWorld (<[colors loc := Xml (set_icon_background_color color doc)]> (files w))
             (events w ++ [Emit verbose (WroteColors (colors loc))])
             (updatePaths_calls w),
     Ok tt).
Proof.
  intros H. apply xml_at_files in H.
  unfold updateProjectSplashScreenIconBackgroundColor, bind, parseElementtreeSync.
  rewrite H. reflexivity.
Qed.

Lemma xml_at_written fs evs calls path doc :
  xml_at (mkWorld (<[path := Xml doc]> fs) evs calls) path = Some doc.
Proof. unfold xml_at. simpl. now rewrite lookup_insert_eq. Qed.

(** *** The themes document *)

Lemma resolve_hasE2E_run preferenceE2E w :
  resolve_hasE2E preferenceE2E w
  = (emitted w (edge_to_edge_diagnostic preferenceE2E),
     Ok (String.eqb (str preferenceE2E) "true")).
Proof.
  unfold resolve_hasE2E, edge_to_edge_diagnostic.
  destruct (truthy preferenceE2E) eqn:Ht; simpl.
  - destruct (String.eqb (str preferenceE2E) "true") eqn:E1; simpl.
    + unfold bind, ret. simpl. now rewrite emitted_nil.
    + destruct (String.eqb (str preferenceE2E) "false") eqn:E2; simpl.
      * unfold bind, ret. simpl. now rewrite emitted_nil.
      * reflexivity.
  - unfold bind, ret. rewrite emit_run.
    destruct preferenceE2E as [s|]; [|reflexivity].
    simpl in Ht. apply negb_false_iff, String.eqb_eq in Ht. now subst s.
Qed.

Lemma set_theme_item_run themeKey value st w w' st' :
  set_theme_item themeKey value st w = (w', Ok st') ->
  w' = w /\ set_item_text themeKey value st = Some st'.
Proof.
  unfold set_theme_item, throw, ret.
  destruct (set_item_text themeKey value st); intros [= <- <-]; auto.
Qed.

Lemma theme_rounds_trace getPreference require_resolve loc st w w' st' :
  for_each (theme_key_round getPreference require_resolve loc) theme_keys st w
  = (w', Ok st') ->
  theme_rounds_state getPreference st = Some st'.
Proof.
  unfold theme_keys. cbn [for_each]. intros Hrun.
  unfold bind at 1 in Hrun.
  destruct (theme_key_round _ _ _ st "windowSplashScreenAnimatedIcon" w)
    as [w1 [st1|e]] eqn:H1; [|discriminate].
  unfold theme_key_round in H1. cbn [String.eqb Ascii.eqb Bool.eqb] in H1.
  unfold bind, ret in H1.
  destruct (updateProjectSplashScreenImage _ _ _ _ _ w) as [w1' [[]|e]];
    [|discriminate]. injection H1 as E1 E2. subst w1 st1.
  unfold bind at 1 in Hrun.
  destruct (theme_key_round _ _ _ st "windowSplashScreenAnimationDuration" w1')
    as [w2 [st2|e]] eqn:H2; [|discriminate].
  unfold theme_key_round in H2. cbn [String.eqb Ascii.eqb Bool.eqb] in H2.
  apply set_theme_item_run in H2. destruct H2 as [E2 H2]. subst w2.
  unfold bind at 1 in Hrun.
  destruct (theme_key_round _ _ _ st2 "android:windowSplashScreenBrandingImage" w1')
    as [w3 [st3|e]] eqn:H3; [|discriminate].
  unfold theme_key_round in H3. cbn [String.eqb Ascii.eqb Bool.eqb] in H3.
  unfold bind, ret in H3.
  destruct ((if truthy _ then emit warn _ else _) w1') as [w3a [[]|e]]; [|discriminate].
  destruct (updateProjectSplashScreenImage _ _ _ _ _ w3a) as [w3b [[]|e]];
    [|discriminate]. injection H3 as E31 E32. subst w3 st3.
  unfold bind at 1 in Hrun.
  destruct (theme_key_round _ _ _ _ "windowSplashScreenIconBackgroundColor" w3b)
    as [w4 [st4|e]] eqn:H4; [|discriminate].
  unfold theme_key_round in H4. cbn [String.eqb Ascii.eqb Bool.eqb] in H4.
  unfold bind, ret in H4.
  destruct (updateProjectSplashScreenIconBackgroundColor _ _ w3b) as [w4a [[]|e]];
    [|discriminate]. injection H4 as E41 E42. subst w4 st4.
  unfold bind at 1 in Hrun.
  destruct (theme_key_round _ _ _ _ "postSplashScreenTheme" w4a)
    as [w5 [st5|e]] eqn:H5; [|discriminate].
  unfold theme_key_round in H5. cbn [String.eqb Ascii.eqb Bool.eqb] in H5.
  apply set_theme_item_run in H5. destruct H5 as [E5 H5]. subst w5.
  unfold ret in Hrun. injection Hrun as E61 E62. subst w' st'.
  change (cdvConfigPrefKey "windowSplashScreenAnimationDuration")
    with "AndroidWindowSplashScreenAnimationDuration"%string in *.
  change (cdvConfigPrefKey "android:windowSplashScreenBrandingImage")
    with "AndroidWindowSplashScreenBrandingImage"%string in *.
  change (cdvConfigPrefKey "windowSplashScreenIconBackgroundColor")
    with "AndroidWindowSplashScreenIconBackgroundColor"%string in *.
  change (cdvConfigPrefKey "postSplashScreenTheme")
    with "AndroidPostSplashScreenTheme"%string in *.
  unfold theme_rounds_state. rewrite H2. exact H5.
Qed.

Lemma found_child tagName nameValue parent i :
  find_child tagName nameValue parent = Some i ->
  exists x, children_of parent !! i = Some x /\ named tagName nameValue x = true.
Proof. apply find_index_lookup. Qed.

Lemma tag_of_set_children c e : tag_of (set_children c e) = tag_of e.
Proof. now destruct e. Qed.

Lemma attrib_of_set_children c e : attrib_of (set_children c e) = attrib_of e.
Proof. now destruct e. Qed.

Lemma children_of_set_children c e : children_of (set_children c e) = c.
Proof. now destruct e. Qed.

Lemma named_set_children tagName nameValue c e :
  named tagName nameValue (set_children c e) = named tagName nameValue e.
Proof. now destruct e. Qed.

(** Setting the text of the item found for [key]. *)
Lemma set_item_text_effect key value st st' :
  set_item_text key value st = Some st' ->
  root_attrib st' = root_attrib st
  /\ (forall t n, named t n (splashScreenTheme st') = named t n (splashScreenTheme st))
  /\ (forall k, count_named "item" k (splashScreenTheme st')
                = count_named "item" k (splashScreenTheme st))
  /\ item_text key (splashScreenTheme st') = Some (Some value)
  /\ (forall k, k <> key ->
        item_text k (splashScreenTheme st') = item_text k (splashScreenTheme st)).
Proof.
  unfold set_item_text.
  destruct (find_child "item" key (splashScreenTheme st)) as [i|] eqn:Hf; [|discriminate].
  intros [= <-]. cbn [root_attrib splashScreenTheme].
  destruct (found_child _ _ _ _ Hf) as (x & Hx & Hn).
  split; [reflexivity|]. split; [intros; apply named_set_children|].
  split; [intros; apply count_named_set_child_text|].
  unfold item_text, set_child_text. rewrite children_of_set_children. split.
  - rewrite (find_update_found _ _ _ i x Hf Hx) by now rewrite named_set_text.
    now destruct x.
  - intros k Hk. erewrite find_update_other; [reflexivity|exact Hx| |].
    + now apply (named_other_name "item" k key).
    + rewrite named_set_text. now apply (named_other_name "item" k key).
Qed.

Lemma named_makeelement tagName k attrib :
  JsObj.get attrib "name" = Some k ->
  forall k', k' <> k -> named tagName k' (makeelement tagName attrib) = false.
Proof.
  intros Ha k' Hne. unfold named, makeelement. simpl. rewrite Ha.
  rewrite String.eqb_refl. simpl. apply String.eqb_neq. congruence.
Qed.

(** Removing or creating the item of [key]: the other items keep their
    number and their text; without a value, at most one item of [key]
    leaves none. *)
Lemma set_or_remove_theme_item_effect key attrib value prefValue tools st :
  JsObj.get attrib "name" = Some key ->
  let st' := set_or_remove_theme_item key attrib value prefValue tools st in
  (forall t n, named t n (splashScreenTheme st') = named t n (splashScreenTheme st))
  /\ (forall k, k <> key ->
        count_named "item" k (splashScreenTheme st')
        = count_named "item" k (splashScreenTheme st))
  /\ (forall k, k <> key ->
        item_text k (splashScreenTheme st') = item_text k (splashScreenTheme st))
  /\ (truthy prefValue = false ->
      (count_named "item" key (splashScreenTheme st) <= 1)%nat ->
      count_named "item" key (splashScreenTheme st') = 0%nat).
Proof.
  intros Ha st'. subst st'. unfold set_or_remove_theme_item.
  destruct (find_child "item" key (splashScreenTheme st)) as [i|] eqn:Hf.
  - destruct (found_child _ _ _ _ Hf) as (x & Hx & Hn).
    destruct (truthy prefValue) eqn:Hp; cbn [negb splashScreenTheme].
    + split; [intros; apply named_set_children|].
      split; [intros; apply count_named_set_child_text|].
      split; [|discriminate].
      intros k Hk. unfold item_text, set_child_text. rewrite children_of_set_children.
      erewrite find_update_other; [reflexivity|exact Hx| |].
      * now apply (named_other_name "item" k key).
      * rewrite named_set_text. now apply (named_other_name "item" k key).
    + split; [intros; apply named_set_children|].
      split; [|split].
      * intros k Hk. unfold count_named, remove_child. rewrite children_of_set_children.
        erewrite filter_remove_other; [reflexivity|exact Hx|].
        now apply (named_other_name "item" k key).
      * intros k Hk. unfold item_text, remove_child. rewrite children_of_set_children.
        erewrite find_remove_other; [reflexivity|exact Hx|].
        now apply (named_other_name "item" k key).
      * intros _ Hn1. rewrite count_named_remove_found by assumption. lia.
  - destruct (truthy prefValue) eqn:Hp; cbn [splashScreenTheme].
    + split; [intros; unfold set_child_text, append_child; now rewrite !named_set_children|].
      split; [|split; [|discriminate]].
      * intros k Hk. rewrite count_named_set_child_text, count_named_append.
        rewrite (named_makeelement "item" key attrib Ha k Hk). lia.
      * intros k Hk. unfold item_text, set_child_text, append_child.
        rewrite !children_of_set_children, update_nth_snoc.
        rewrite find_snoc_other; [reflexivity|]. rewrite named_set_text.
        now apply (named_makeelement "item" key attrib Ha).
    + split; [reflexivity|]. split; [reflexivity|]. split; [reflexivity|].
      intros _ _. now apply count_named_not_found.
Qed.

Lemma updateProjectTheme_trace getPreference require_resolve loc w w' :
  updateProjectTheme getPreference require_resolve loc w = (w', Ok tt) ->
  exists themes_doc si style st,
    xml_at w (themes loc) = Some themes_doc
    /\ find_child "style" "Theme.App.SplashScreen" themes_doc = Some si
    /\ children_of themes_doc !! si = Some style
    /\ theme_final_state getPreference themes_doc style = Some st
    /\ xml_at w' (themes loc) = Some (themes_document themes_doc si st).
Proof.
  unfold updateProjectTheme. intros Hrun. unfold bind at 1 in Hrun.
  unfold parseElementtreeSync in Hrun.
  destruct (files w !! themes loc) as [[themes_doc|t]|] eqn:Hfile; try discriminate.
  unfold bind at 1 in Hrun. rewrite resolve_hasE2E_run in Hrun.
  destruct (find_child "style" "Theme.App.SplashScreen" themes_doc) as [si|] eqn:Hsi;
    [|discriminate].
  destruct (found_child _ _ _ _ Hsi) as (style & Hstyle & _).
  assert (Hnth : nth si (children_of themes_doc) (makeelement EmptyString []) = style).
  { apply nth_lookup_Some with (d := makeelement EmptyString []) in Hstyle. exact Hstyle. }
  rewrite Hnth in Hrun.
  unfold bind at 1 in Hrun.
  destruct (set_theme_item optOutE2EKey _ _ _) as [w1 [st1|e]] eqn:H1; [|discriminate].
  apply set_theme_item_run in H1. destruct H1 as [E1 H1]. subst w1.
  unfold bind at 1 in Hrun. rewrite emit_run in Hrun.
  unfold bind at 1 in Hrun. rewrite emit_run in Hrun.
  unfold bind at 1 in Hrun.
  destruct (set_theme_item "windowSplashScreenBackground" _ _ _) as [w2 [st2|e]] eqn:H2;
    [|discriminate].
  apply set_theme_item_run in H2. destruct H2 as [E2 H2]. subst w2.
  unfold bind at 1 in Hrun.
  destruct (for_each _ theme_keys st2 _) as [w3 [st3|e]] eqn:H3; [|discriminate].
  apply theme_rounds_trace in H3.
  unfold bind, writeFileSync, emit in Hrun. injection Hrun as <-.
  exists themes_doc, si, style, st3.
  split; [now apply xml_at_files|]. split; [exact Hsi|]. split; [exact Hstyle|].
  split; [|apply xml_at_written].
  unfold theme_final_state. rewrite H1, H2. exact H3.
Qed.

Lemma splash_style_written themes_doc si style st :
  find_child "style" "Theme.App.SplashScreen" themes_doc = Some si ->
  children_of themes_doc !! si = Some style ->
  (forall t n, named t n (splashScreenTheme st) = named t n style) ->
  splash_style (themes_document themes_doc si st) = Some (splashScreenTheme st).
Proof.
  intros Hsi Hstyle Hn. unfold splash_style, themes_document.
  destruct (found_child _ _ _ _ Hsi) as (x & Hx & Hnx).
  assert (x = style) by congruence. subst x.
  destruct themes_doc as [t a tx c]. simpl in *.
  apply (find_update_found _ (fun _ => splashScreenTheme st) c si style Hsi Hstyle).
  now rewrite Hn.
Qed.

Lemma theme_rounds_state_effect getPreference st st' :
  theme_rounds_state getPreference st = Some st' ->
  (forall t n, named t n (splashScreenTheme st') = named t n (splashScreenTheme st))
  /\ item_text optOutE2EKey (splashScreenTheme st')
     = item_text optOutE2EKey (splashScreenTheme st)
  /\ (truthy (getPreference "AndroidWindowSplashScreenIconBackgroundColor"%string) = false ->
      (count_named "item" icon_background_key (splashScreenTheme st) <= 1)%nat ->
      count_named "item" icon_background_key (splashScreenTheme st') = 0%nat).
Proof.
  unfold theme_rounds_state.
  destruct (set_item_text "windowSplashScreenAnimationDuration" _ st) as [st3|] eqn:H3;
    [|discriminate].
  intros H6.
  destruct (set_item_text_effect _ _ _ _ H3) as (_ & N3 & C3 & _ & T3).
  destruct (set_item_text_effect _ _ _ _ H6) as (_ & N6 & C6 & _ & T6).
  match type of H6 with
  | set_item_text _ _ (set_or_remove_theme_item ?k5 ?a5 ?v5 ?p5 ?t5
                         (set_or_remove_theme_item ?k4 ?a4 ?v4 ?p4 ?t4 _)) = _ =>
      destruct (set_or_remove_theme_item_effect k4 a4 v4 p4 t4 st3 eq_refl)
        as (N4 & C4 & T4 & _);
      destruct (set_or_remove_theme_item_effect k5 a5 v5 p5 t5
                  (set_or_remove_theme_item k4 a4 v4 p4 t4 st3) eq_refl)
        as (N5 & _ & T5 & Z5)
  end.
  split; [|split].
  - intros t n. now rewrite N6, N5, N4, N3.
  - rewrite T6, T5, T4, T3 by discriminate. reflexivity.
  - intros Hp Hc. rewrite C6. apply Z5; [exact Hp|].
    rewrite C4 by discriminate. now rewrite C3.
Qed.

Lemma theme_final_state_effect getPreference themes_doc style st :
  theme_final_state getPreference themes_doc style = Some st ->
  (forall t n, named t n (splashScreenTheme st) = named t n style)
  /\ item_text optOutE2EKey (splashScreenTheme st)
     = Some (Some (if String.eqb (str (getPreference "AndroidEdgeToEdge"%string)) "true"
                   then "false"%string else "true"%string))
  /\ (truthy (getPreference "AndroidWindowSplashScreenIconBackgroundColor"%string) = false ->
      (count_named "item" icon_background_key style <= 1)%nat ->
      count_named "item" icon_background_key (splashScreenTheme st) = 0%nat).
Proof.
  unfold theme_final_state.
  destruct (set_item_text optOutE2EKey _ _) as [st1|] eqn:H1; [|discriminate].
  destruct (set_item_text "windowSplashScreenBackground" _ st1) as [st2|] eqn:H2;
    [|discriminate].
  intros H3.
  destruct (set_item_text_effect _ _ _ _ H1) as (_ & N1 & C1 & T1 & _).
  destruct (set_item_text_effect _ _ _ _ H2) as (_ & N2 & C2 & _ & T2).
  destruct (theme_rounds_state_effect _ _ _ H3) as (N3 & T3 & Z3).
  cbn [splashScreenTheme] in *.
  split; [|split].
  - intros t n. now rewrite N3, N2, N1.
  - rewrite T3, T2 by discriminate. rewrite T1.
    now destruct (String.eqb (str (getPreference "AndroidEdgeToEdge"%string)) "true").
  - intros Hp Hc. apply Z3; [exact Hp|]. now rewrite C2, C1.
Qed.

Lemma splash_style_index themes_doc si style style' :
  find_child "style" "Theme.App.SplashScreen" themes_doc = Some si ->
  children_of themes_doc !! si = Some style' ->
  splash_style themes_doc = Some style -> style' = style.
Proof.
  unfold splash_style, find_child. intros Hsi Hl Hf.
  rewrite (find_index_find _ _ _ Hsi) in Hf. congruence.
Qed.

(** *** When [updateProjectTheme] completes *)

Lemma rm_if_exists (b : bool) path w :
  exists w',
    (if b && bool_decide (is_Some (files w !! path)) then rmSync path else ret tt) w
    = (w', Ok tt)
    /\ forall q, q <> path -> files w' !! q = files w !! q.
Proof.
  destruct b; cbn [andb]; [|exists w; split; reflexivity].
  destruct (files w !! path) as [c|] eqn:E.
  - rewrite bool_decide_eq_true_2 by eauto. unfold rmSync. rewrite E.
    eexists. split; [reflexivity|]. intros q Hq. cbn [files].
    apply lookup_delete_ne. congruence.
  - rewrite bool_decide_eq_false_2 by (intros [? ?]; discriminate).
    exists w. split; reflexivity.
Qed.

Lemma cleanupAndSetProjectSplashScreenImage_run srcFile dest prev cleanupOnly w written :
  In dest written -> In prev written ->
  exists w',
    cleanupAndSetProjectSplashScreenImage srcFile dest prev cleanupOnly w = (w', Ok tt)
    /\ forall q, ~ In q written -> files w' !! q = files w !! q.
Proof.
  intros Hd Hp. unfold cleanupAndSetProjectSplashScreenImage.
  rewrite (bind_ok (existsSync prev) _ w w _ eq_refl).
  destruct (rm_if_exists true prev w) as (w1 & H1 & F1). cbn [andb] in H1.
  rewrite (bind_ok _ _ _ _ _ H1).
  rewrite (bind_ok (existsSync dest) _ w1 w1 _ eq_refl).
  destruct (rm_if_exists cleanupOnly dest w1) as (w2 & H2 & F2).
  rewrite (bind_ok _ _ _ _ _ H2).
  assert (F : forall q, ~ In q written -> files w2 !! q = files w !! q).
  { intros q Hq. rewrite F2, F1; [reflexivity| |]; intros ->; contradiction. }
  destruct (negb cleanupOnly && truthy srcFile); [|now exists w2].
  rewrite (bind_ok (existsSync (str srcFile)) _ w2 w2 _ eq_refl).
  destruct (files w2 !! str srcFile) as [c|] eqn:E.
  - rewrite bool_decide_eq_true_2 by eauto. unfold cpSync. rewrite E.
    eexists. split; [reflexivity|]. intros q Hq. cbn [files].
    rewrite lookup_insert_ne by (intros ->; contradiction). now apply F.
  - rewrite bool_decide_eq_false_2 by (intros [? ?]; discriminate). now exists w2.
Qed.

Lemma updateProjectSplashScreenImage_run require_resolve loc themeKey destFileName
    prefKey prefValue w :
  SPLASH_SCREEN_IMAGE_BY_THEME_KEY themeKey = Some destFileName ->
  (String.eqb themeKey "android:windowSplashScreenBrandingImage" = false ->
   template_found require_resolve destFileName = true) ->
  exists w',
    updateProjectSplashScreenImage require_resolve loc themeKey prefKey prefValue w
    = (w', Ok tt)
    /\ forall q, ~ In q (splash_image_files loc destFileName) ->
                 files w' !! q = files w !! q.
Proof.
  intros Hk Ht. unfold updateProjectSplashScreenImage. rewrite Hk. cbv zeta.
  assert (Hxml : In (Path.join [Path.join [res loc; "drawable"%string];
                                destFileName +:+ ".xml"])
                    (splash_image_files loc destFileName)) by (left; reflexivity).
  assert (Hpng : In (Path.join [Path.join [res loc; "drawable-nodpi"%string];
                                destFileName +:+ ".png"])
                    (splash_image_files loc destFileName)) by (right; left; reflexivity).
  assert (Hdflt : exists dflt,
    (if negb (String.eqb themeKey "android:windowSplashScreenBrandingImage") then
       match require_resolve ("cordova-android/templates/project/res/drawable/"
                              +:+ (destFileName +:+ ".xml")) with
       | Some p => ret (Some p)
       | None =>
           match require_resolve ("../templates/project/res/drawable/"
                                  +:+ (destFileName +:+ ".xml")) with
           | Some p => ret (Some p)
           | None => throw (Error "MODULE_NOT_FOUND")
           end
       end
     else ret None) w = (w, Ok dflt)).
  { destruct (String.eqb themeKey "android:windowSplashScreenBrandingImage");
      cbn [negb]; [now eexists|].
    specialize (Ht eq_refl). unfold template_found in Ht.
    destruct (require_resolve _); [now eexists|].
    destruct (require_resolve _); [now eexists|discriminate]. }
  destruct Hdflt as (dflt & Hdflt).
  rewrite (bind_ok _ _ _ _ _ Hdflt).
  rewrite (bind_ok (existsSync _) _ w w _ eq_refl).
  assert (Hdone : forall srcFile dest prev cleanupOnly evs,
    In dest (splash_image_files loc destFileName) ->
    In prev (splash_image_files loc destFileName) ->
    exists w',
      cleanupAndSetProjectSplashScreenImage srcFile dest prev cleanupOnly (emitted w evs)
      = (w', Ok tt)
      /\ forall q, ~ In q (splash_image_files loc destFileName) ->
                   files w' !! q = files w !! q).
  { intros srcFile dest prev cleanupOnly evs Hd Hp.
    destruct (cleanupAndSetProjectSplashScreenImage_run srcFile dest prev cleanupOnly
                (emitted w evs) _ Hd Hp) as (w' & H & F).
    exists w'. split; [exact H|exact F]. }
  destruct (_ || _).
  - destruct (_ && _); rewrite (bind_ok _ _ _ _ _ (emit_run _ _ _)); now apply Hdone.
  - destruct (String.eqb _ ".png");
      [now apply cleanupAndSetProjectSplashScreenImage_run|].
    destruct (String.eqb _ ".xml");
      [now apply cleanupAndSetProjectSplashScreenImage_run|].
    rewrite (bind_ok _ _ _ _ _ (emit_run _ _ _)). now apply Hdone.
Qed.

Lemma set_theme_item_ok themeKey st :
  is_Some (item_text themeKey (splashScreenTheme st)) ->
  forall value w,
  exists st',
    set_theme_item themeKey value st w = (w, Ok st')
    /\ forall k, k <> themeKey ->
         item_text k (splashScreenTheme st') = item_text k (splashScreenTheme st).
Proof.
  intros [x Hx] value w. unfold set_theme_item.
  destruct (set_item_text themeKey value st) as [st'|] eqn:Hs.
  - exists st'. split; [reflexivity|].
    now destruct (set_item_text_effect _ _ _ _ Hs) as (_ & _ & _ & _ & T).
  - unfold set_item_text, find_child in Hs. unfold item_text in Hx.
    destruct (find_index _ _) as [i|] eqn:Hf; [discriminate|].
    rewrite (find_index_find_none _ _ Hf) in Hx. discriminate.
Qed.

Lemma animated_icon_round getPreference require_resolve loc st w :
  template_found require_resolve "ic_cdv_splashscreen" = true ->
  exists w',
    theme_key_round getPreference require_resolve loc st "windowSplashScreenAnimatedIcon" w
    = (w', Ok st)
    /\ forall q, ~ In q (splash_image_files loc "ic_cdv_splashscreen") ->
                 files w' !! q = files w !! q.
Proof.
  intros Ht. unfold theme_key_round. cbn [String.eqb Ascii.eqb Bool.eqb].
  destruct (updateProjectSplashScreenImage_run require_resolve loc
              "windowSplashScreenAnimatedIcon" "ic_cdv_splashscreen"
              (cdvConfigPrefKey "windowSplashScreenAnimatedIcon")
              (getPreference (cdvConfigPrefKey "windowSplashScreenAnimatedIcon"))
              w eq_refl (fun _ => Ht)) as (w' & H & F).
  exists w'. split; [|exact F]. erewrite bind_ok by exact H. reflexivity.
Qed.

Lemma branding_image_round getPreference require_resolve loc st w :
  exists w' st',
    theme_key_round getPreference require_resolve loc st
                    "android:windowSplashScreenBrandingImage" w
    = (w', Ok st')
    /\ (forall q, ~ In q (splash_image_files loc "ic_cdv_splashscreen_branding") ->
                  files w' !! q = files w !! q)
    /\ forall k, k <> "android:windowSplashScreenBrandingImage"%string ->
         item_text k (splashScreenTheme st') = item_text k (splashScreenTheme st).
Proof.
  unfold theme_key_round. cbn [String.eqb Ascii.eqb Bool.eqb].
  set (value := getPreference _).
  assert (He : exists evs,
    (if truthy value
     then emit warn (BrandingImageNotSupported "android:windowSplashScreenBrandingImage")
     else ret tt) w = (emitted w evs, Ok tt)).
  { destruct (truthy value); [now eexists|]. exists []. now rewrite emitted_nil. }
  destruct He as (evs & He). erewrite bind_ok by exact He.
  destruct (updateProjectSplashScreenImage_run require_resolve loc
              "android:windowSplashScreenBrandingImage" "ic_cdv_splashscreen_branding"
              (cdvConfigPrefKey "android:windowSplashScreenBrandingImage") value
              (emitted w evs) eq_refl) as (w' & H & F).
  { intros E. vm_compute in E. discriminate E. }
  erewrite bind_ok by exact H. eexists _, _. split; [reflexivity|]. split; [exact F|].
  now destruct (set_or_remove_theme_item_effect
                  "android:windowSplashScreenBrandingImage"
                  [("name", "android:windowSplashScreenBrandingImage");
                   ("tools:targetApi", "31")]%string
                  "@drawable/ic_cdv_splashscreen_branding" value true st eq_refl)
    as (_ & _ & T & _).
Qed.

Lemma icon_background_round getPreference require_resolve loc st w :
  is_Some (xml_at w (colors loc)) ->
  exists w' st',
    theme_key_round getPreference require_resolve loc st
                    "windowSplashScreenIconBackgroundColor" w
    = (w', Ok st')
    /\ forall k, k <> icon_background_key ->
         item_text k (splashScreenTheme st') = item_text k (splashScreenTheme st).
Proof.
  intros [doc Hdoc]. unfold theme_key_round. cbn [String.eqb Ascii.eqb Bool.eqb].
  erewrite bind_ok by exact (updateProjectSplashScreenIconBackgroundColor_run _ _ _ _ Hdoc).
  eexists _, _. split; [reflexivity|].
  now destruct (set_or_remove_theme_item_effect
                  icon_background_key [("name", icon_background_key)]%string
                  "@color/cdv_splashscreen_icon_background"
                  (getPreference (cdvConfigPrefKey "windowSplashScreenIconBackgroundColor"))
                  false st eq_refl)
    as (_ & _ & T & _).
Qed.

Lemma not_among (x : string) l :
  forallb (fun p => negb (String.eqb x p)) l = true -> ~ In x l.
Proof.
  intros H Hin. rewrite forallb_forall in H. specialize (H x Hin).
  now rewrite String.eqb_refl in H.
Qed.

Lemma theme_rounds_run getPreference require_resolve loc st w :
  template_found require_resolve "ic_cdv_splashscreen" = true ->
  is_Some (xml_at w (colors loc)) ->
  forallb (fun p => negb (String.eqb (colors loc) p))
          (splash_image_files loc "ic_cdv_splashscreen"
           ++ splash_image_files loc "ic_cdv_splashscreen_branding") = true ->
  is_Some (item_text "windowSplashScreenAnimationDuration" (splashScreenTheme st)) ->
  is_Some (item_text "postSplashScreenTheme" (splashScreenTheme st)) ->
  exists w' st',
    for_each (theme_key_round getPreference require_resolve loc) theme_keys st w
    = (w', Ok st').
Proof.
  intros Ht Hc Hpaths Hd Hp.
  rewrite forallb_app in Hpaths. apply andb_true_iff in Hpaths.
  destruct Hpaths as [Hn1 Hn2]. apply not_among in Hn1, Hn2.
  unfold theme_keys. cbn [for_each].
  destruct (animated_icon_round getPreference require_resolve loc st w Ht)
    as (w1 & R1 & F1).
  rewrite (bind_ok _ _ _ _ _ R1).
  assert (R2 : exists st2,
    theme_key_round getPreference require_resolve loc st
                    "windowSplashScreenAnimationDuration" w1 = (w1, Ok st2)
    /\ forall k, k <> "windowSplashScreenAnimationDuration"%string ->
         item_text k (splashScreenTheme st2) = item_text k (splashScreenTheme st)).
  { unfold theme_key_round. cbn [String.eqb Ascii.eqb Bool.eqb].
    now apply set_theme_item_ok. }
  destruct R2 as (st2 & R2 & T2). rewrite (bind_ok _ _ _ _ _ R2).
  destruct (branding_image_round getPreference require_resolve loc st2 w1)
    as (w3 & st3 & R3 & F3 & T3).
  rewrite (bind_ok _ _ _ _ _ R3).
  destruct (icon_background_round getPreference require_resolve loc st3 w3)
    as (w4 & st4 & R4 & T4).
  { unfold xml_at in *. now rewrite (F3 _ Hn2), (F1 _ Hn1). }
  rewrite (bind_ok _ _ _ _ _ R4).
  assert (R5 : exists st5,
    theme_key_round getPreference require_resolve loc st4 "postSplashScreenTheme" w4
    = (w4, Ok st5)
    /\ forall k, k <> "postSplashScreenTheme"%string ->
         item_text k (splashScreenTheme st5) = item_text k (splashScreenTheme st4)).
  { unfold theme_key_round. cbn [String.eqb Ascii.eqb Bool.eqb].
    apply set_theme_item_ok.
    rewrite (T4 "postSplashScreenTheme"%string), (T3 "postSplashScreenTheme"%string),
      (T2 "postSplashScreenTheme"%string) by discriminate.
    exact Hp. }
  destruct R5 as (st5 & R5 & _). rewrite (bind_ok _ _ _ _ _ R5). now eexists _, _.
Qed.

Lemma splash_style_found themes_doc style :
  splash_style themes_doc = Some style ->
  exists si,
    find_child "style" "Theme.App.SplashScreen" themes_doc = Some si
    /\ children_of themes_doc !! si = Some style.
Proof.
  unfold splash_style, find_child. intros H.
  destruct (find_index _ _) as [si|] eqn:Hf.
  - exists si. split; [reflexivity|]. now rewrite <- (find_index_find _ _ _ Hf).
  - rewrite (find_index_find_none _ _ Hf) in H. discriminate.
Qed.

(** A project that is ready is one [updateProjectTheme] returns on. *)
Lemma updateProjectTheme_completes getPreference require_resolve loc w themes_doc style :
  theme_ready require_resolve loc w themes_doc style ->
  exists w', updateProjectTheme getPreference require_resolve loc w = (w', Ok tt).
Proof.
  intros (Hdoc & Hstyle & Hitems & Hcolors & Hpaths & Ht).
  apply bool_decide_eq_true in Hcolors.
  unfold required_theme_items in Hitems. cbn [forallb] in Hitems.
  repeat (apply andb_true_iff in Hitems; destruct Hitems as [?I Hitems]).
  apply bool_decide_eq_true in I, I0, I1, I2. clear Hitems.
  destruct (splash_style_found _ _ Hstyle) as (si & Hsi & Hchild).
  apply xml_at_files in Hdoc.
  unfold updateProjectTheme.
  assert (Hparse : parseElementtreeSync (themes loc) w = (w, Ok themes_doc))
    by (unfold parseElementtreeSync; now rewrite Hdoc).
  rewrite (bind_ok _ _ _ _ _ Hparse), Hsi.
  rewrite (bind_ok _ _ _ _ _ (resolve_hasE2E_run _ _)).
  apply nth_lookup_Some with (d := makeelement EmptyString []) in Hchild.
  rewrite Hchild.
  set (w1 := emitted w _).
  destruct (set_theme_item_ok optOutE2EKey (mkTheme (attrib_of themes_doc) style) I
              (if negb (String.eqb (str (getPreference "AndroidEdgeToEdge"%string)) "true")
               then "true"%string else "false"%string) w1) as (st1 & R1 & T1).
  rewrite (bind_ok _ _ _ _ _ R1).
  rewrite (bind_ok _ _ _ _ _ (emit_run _ _ _)).
  rewrite (bind_ok _ _ _ _ _ (emit_run _ _ _)).
  rewrite !emitted_app. set (w2 := emitted w1 _).
  destruct (set_theme_item_ok "windowSplashScreenBackground" st1) with
    (value := resolve_splashBg getPreference) (w := w2) as (st2 & R2 & T2).
  { rewrite T1 by discriminate. exact I0. }
  rewrite (bind_ok _ _ _ _ _ R2).
  destruct (theme_rounds_run getPreference require_resolve loc st2 w2 Ht)
    as (w3 & st3 & R3); [exact Hcolors|exact Hpaths| | |].
  - rewrite T2, T1 by discriminate. exact I1.
  - rewrite T2, T1 by discriminate. exact I2.
  - rewrite (bind_ok _ _ _ _ _ R3). unfold bind, writeFileSync, emit. now eexists.
Qed.

(** C8 (as amended).  For a colours document holding at most one
    [cdv_splashscreen_icon_background] node: updating with the preference
    unset leaves no such node in the file, and so does updating with the
    preference set and then again with it unset.  For a themes document
    whose splash-screen style holds at most one
    [windowSplashScreenIconBackgroundColor] item: whenever
    [updateProjectTheme] completes with the preference unset, the style it
    wrote holds no such item; and it does complete, with such a style, on a
    project that is ready for it ([theme_ready]). *)
Theorem icon_background_removed_when_unset loc getPreference require_resolve w unset value :
  truthy unset = false ->
  truthy value = true ->
  (forall doc,
      xml_at w (colors loc) = Some doc ->
      (count_named "color" icon_background_name doc <= 1)%nat ->
      exists w1 doc1,
        updateProjectSplashScreenIconBackgroundColor unset loc w = (w1, Ok tt)
        /\ xml_at w1 (colors loc) = Some doc1
        /\ count_named "color" icon_background_name doc1 = 0%nat)
  /\ (forall doc,
      xml_at w (colors loc) = Some doc ->
      (count_named "color" icon_background_name doc <= 1)%nat ->
      exists w1 w2 doc2,
        updateProjectSplashScreenIconBackgroundColor value loc w = (w1, Ok tt)
        /\ updateProjectSplashScreenIconBackgroundColor unset loc w1 = (w2, Ok tt)
        /\ xml_at w2 (colors loc) = Some doc2
        /\ count_named "color" icon_background_name doc2 = 0%nat)
  /\ (forall w' themes_doc style,
      xml_at w (themes loc) = Some themes_doc ->
      splash_style themes_doc = Some style ->
      (count_named "item" icon_background_key style <= 1)%nat ->
      truthy (getPreference "AndroidWindowSplashScreenIconBackgroundColor"%string) = false ->
      updateProjectTheme getPreference require_resolve loc w = (w', Ok tt) ->
      exists themes_doc' style',
        xml_at w' (themes loc) = Some themes_doc'
        /\ splash_style themes_doc' = Some style'
        /\ count_named "item" icon_background_key style' = 0%nat)
  /\ (forall themes_doc style,
      theme_ready require_resolve loc w themes_doc style ->
      (count_named "item" icon_background_key style <= 1)%nat ->
      truthy (getPreference "AndroidWindowSplashScreenIconBackgroundColor"%string) = false ->
      exists w' themes_doc' style',
        updateProjectTheme getPreference require_resolve loc w = (w', Ok tt)
        /\ xml_at w' (themes loc) = Some themes_doc'
        /\ splash_style themes_doc' = Some style'
        /\ count_named "item" icon_background_key style' = 0%nat).
Proof.
  intros Hu Hv.
  assert (Htheme : forall w' themes_doc style,
      xml_at w (themes loc) = Some themes_doc ->
      splash_style themes_doc = Some style ->
      (count_named "item" icon_background_key style <= 1)%nat ->
      truthy (getPreference "AndroidWindowSplashScreenIconBackgroundColor"%string) = false ->
      updateProjectTheme getPreference require_resolve loc w = (w', Ok tt) ->
      exists themes_doc' style',
        xml_at w' (themes loc) = Some themes_doc'
        /\ splash_style themes_doc' = Some style'
        /\ count_named "item" icon_background_key style' = 0%nat).
  { intros w' themes_doc style Hdoc Hstyle Hn Hp Hrun.
    destruct (updateProjectTheme_trace _ _ _ _ _ Hrun)
      as (doc0 & si & style0 & st & Hdoc0 & Hsi & Hstyle0 & Hst & Hw').
    assert (doc0 = themes_doc) by congruence. subst doc0.
    assert (style0 = style) by (eapply splash_style_index; eassumption). subst style0.
    destruct (theme_final_state_effect _ _ _ _ Hst) as (N & _ & Z).
    exists (themes_document themes_doc si st), (splashScreenTheme st).
    split; [exact Hw'|]. split; [now apply (splash_style_written _ _ style)|].
    now apply Z. }
  split; [|split; [|split; [exact Htheme|]]].
  - intros doc Hdoc Hn. eexists _, _.
    split; [exact (updateProjectSplashScreenIconBackgroundColor_run _ _ _ _ Hdoc)|].
    split; [apply xml_at_written|]. now apply icon_background_color_unset.
  - intros doc Hdoc Hn. eexists _, _, _.
    split; [exact (updateProjectSplashScreenIconBackgroundColor_run _ _ _ _ Hdoc)|].
    split; [apply updateProjectSplashScreenIconBackgroundColor_run, xml_at_written|].
    split; [apply xml_at_written|].
    apply icon_background_color_unset; [exact Hu|].
    now apply icon_background_color_set.
  - intros themes_doc style Hready Hn Hp.
    destruct (updateProjectTheme_completes getPreference _ _ _ _ _ Hready) as (w' & Hrun).
    destruct Hready as (Hdoc & Hstyle & _).
    destruct (Htheme w' themes_doc style Hdoc Hstyle Hn Hp Hrun)
      as (themes_doc' & style' & H).
    now exists w', themes_doc', style'.
Qed.

(** C8, counterexample.  A colours document that holds the node twice:
    updating with the preference unset removes the first one only, and the
    file still has a [cdv_splashscreen_icon_background] node afterwards. *)
Lemma doubled_icon_background_node_survives :
  xml_at (sample_world doubled_colors) (colors sample_locations) = Some doubled_colors
  /\ count_named "color" icon_background_name doubled_colors = 2%nat
  /\ snd (updateProjectSplashScreenIconBackgroundColor None sample_locations
            (sample_world doubled_colors))
     = Ok tt
  /\ xml_at (fst (updateProjectSplashScreenIconBackgroundColor None sample_locations
                    (sample_world doubled_colors)))
            (colors sample_locations)
     = Some (Element "resources" [] None
               [color_node "cdv_splashscreen_icon_background" "#445566"]).
Proof. repeat split; vm_compute; reflexivity. Qed.

Lemma icon_background_removed_when_unset_witness :
  truthy None = false
  /\ truthy (Some "#00FF00"%string) = true
  /\ (exists w1 doc1,
        updateProjectSplashScreenIconBackgroundColor None sample_locations
          (sample_world sample_colors) = (w1, Ok tt)
        /\ xml_at w1 (colors sample_locations) = Some doc1
        /\ count_named "color" icon_background_name doc1 = 0%nat)
  /\ (exists w1 w2 doc2,
        updateProjectSplashScreenIconBackgroundColor (Some "#00FF00"%string) sample_locations
          (sample_world sample_colors) = (w1, Ok tt)
        /\ updateProjectSplashScreenIconBackgroundColor None sample_locations w1 = (w2, Ok tt)
        /\ xml_at w2 (colors sample_locations) = Some doc2
        /\ count_named "color" icon_background_name doc2 = 0%nat)
  /\ (exists w' themes_doc' style',
        updateProjectTheme (fun _ => None) sample_resolve sample_locations
          (sample_world sample_colors) = (w', Ok tt)
        /\ xml_at w' (themes sample_locations) = Some themes_doc'
        /\ splash_style themes_doc' = Some style'
        /\ count_named "item" icon_background_key style' = 0%nat).
Proof.
  split; [reflexivity|]. split; [reflexivity|].
  destruct (icon_background_removed_when_unset sample_locations (fun _ => None)
              sample_resolve (sample_world sample_colors) None (Some "#00FF00"%string)
              eq_refl eq_refl) as (Hunset & Hround & _ & Htheme).
  split; [|split].
  - apply (Hunset sample_colors); [reflexivity|vm_compute; constructor].
  - apply (Hround sample_colors); [reflexivity|vm_compute; constructor].
  - apply (Htheme sample_themes sample_splash_style);
      [repeat split; vm_compute; reflexivity|vm_compute; constructor|reflexivity].
Defined.

(** *** Edge to edge *)

Lemma hasE2E_strict preferenceE2E :
  String.eqb (str preferenceE2E) "true" = bool_decide (preferenceE2E = Some "true"%string).
Proof.
  destruct preferenceE2E as [s|]; [|reflexivity]. simpl.
  destruct (String.eqb s "true") eqn:E.
  - apply String.eqb_eq in E. subst s. reflexivity.
  - apply String.eqb_neq in E. symmetry. apply bool_decide_eq_false_2. congruence.
Qed.

(** C9.  The flag [hasE2E] is [true] exactly when the preference
    [AndroidEdgeToEdge] is the string [true].  The values [true] and
    [false] raise no diagnostic; any other non-empty value (a case variant
    such as [TRUE] among them) gives [false] with the diagnostic that the
    value is invalid; an absent (or empty) value gives [false] with the
    note that the preference was not set.  Whenever [updateProjectTheme]
    completes, the item [android:windowOptOutEdgeToEdgeEnforcement] of the
    style it wrote has the text [true] exactly when the flag is [false];
    and it does complete, with that item, on a project that is ready for
    it ([theme_ready]). *)
Theorem edge_to_edge_flag_strict getPreference require_resolve loc w :
  let preferenceE2E := getPreference "AndroidEdgeToEdge"%string in
  let hasE2E := bool_decide (preferenceE2E = Some "true"%string) in
  resolve_hasE2E preferenceE2E w
  = (emitted w (edge_to_edge_diagnostic preferenceE2E), Ok hasE2E)
  /\ edge_to_edge_diagnostic (Some "true"%string) = []
  /\ edge_to_edge_diagnostic (Some "false"%string) = []
  /\ (forall other,
        truthy (Some other) = true ->
        String.eqb other "true" = false -> String.eqb other "false" = false ->
        edge_to_edge_diagnostic (Some other) = [Emit verbose EdgeToEdgeInvalid]
        /\ bool_decide (Some other = Some "true"%string) = false)
  /\ (forall absent,
        truthy absent = false ->
        edge_to_edge_diagnostic absent = [Emit verbose EdgeToEdgeNotSet]
        /\ bool_decide (absent = Some "true"%string) = false)
  /\ (forall w',
        updateProjectTheme getPreference require_resolve loc w = (w', Ok tt) ->
        exists themes_doc' style',
          xml_at w' (themes loc) = Some themes_doc'
          /\ splash_style themes_doc' = Some style'
          /\ item_text optOutE2EKey style'
             = Some (Some (if hasE2E then "false"%string else "true"%string)))
  /\ (forall themes_doc style,
        theme_ready require_resolve loc w themes_doc style ->
        exists w' themes_doc' style',
          updateProjectTheme getPreference require_resolve loc w = (w', Ok tt)
          /\ xml_at w' (themes loc) = Some themes_doc'
          /\ splash_style themes_doc' = Some style'
          /\ item_text optOutE2EKey style'
             = Some (Some (if hasE2E then "false"%string else "true"%string))).
Proof.
  intros preferenceE2E hasE2E. subst hasE2E.
  assert (Hitem : forall w',
    updateProjectTheme getPreference require_resolve loc w = (w', Ok tt) ->
    exists themes_doc' style',
      xml_at w' (themes loc) = Some themes_doc'
      /\ splash_style themes_doc' = Some style'
      /\ item_text optOutE2EKey style'
         = Some (Some (if bool_decide (preferenceE2E = Some "true"%string)
                       then "false"%string else "true"%string))).
  { intros w' Hrun.
    destruct (updateProjectTheme_trace _ _ _ _ _ Hrun)
      as (doc & si & style & st & Hdoc & Hsi & Hstyle & Hst & Hw').
    destruct (theme_final_state_effect _ _ _ _ Hst) as (N & T & _).
    exists (themes_document doc si st), (splashScreenTheme st).
    split; [exact Hw'|]. split; [now apply (splash_style_written _ _ style)|].
    rewrite T. fold preferenceE2E. now rewrite hasE2E_strict. }
  split; [rewrite resolve_hasE2E_run; now rewrite hasE2E_strict|].
  split; [reflexivity|]. split; [reflexivity|]. split; [|split; [|split; [exact Hitem|]]].
  - intros other Ht E1 E2. unfold edge_to_edge_diagnostic. rewrite Ht. simpl.
    rewrite E1, E2. split; [reflexivity|].
    rewrite <- hasE2E_strict. exact E1.
  - intros absent Ht. unfold edge_to_edge_diagnostic. rewrite Ht. split; [reflexivity|].
    rewrite <- hasE2E_strict. destruct absent as [s|]; [|reflexivity].
    simpl in Ht. apply negb_false_iff, String.eqb_eq in Ht. now subst s.
  - intros themes_doc style Hready.
    destruct (updateProjectTheme_completes getPreference _ _ _ _ _ Hready) as (w' & Hrun).
    destruct (Hitem w' Hrun) as (themes_doc' & style' & H).
    now exists w', themes_doc', style'.
Qed.

Lemma edge_to_edge_flag_strict_witness :
  resolve_hasE2E (Some "TRUE"%string) (sample_world sample_colors)
  = (emitted (sample_world sample_colors) [Emit verbose EdgeToEdgeInvalid], Ok false)
  /\ resolve_hasE2E (Some "true"%string) (sample_world sample_colors)
     = (emitted (sample_world sample_colors) [], Ok true)
  /\ exists w' themes_doc' style',
      updateProjectTheme (only_edge_to_edge "true") sample_resolve sample_locations
        (sample_world sample_colors) = (w', Ok tt)
      /\ xml_at w' (themes sample_locations) = Some themes_doc'
      /\ splash_style themes_doc' = Some style'
      /\ item_text optOutE2EKey style' = Some (Some "false"%string).
Proof.
  split; [|split].
  - exact (proj1 (edge_to_edge_flag_strict (only_edge_to_edge "TRUE") sample_resolve
                    sample_locations (sample_world sample_colors))).
  - exact (proj1 (edge_to_edge_flag_strict (only_edge_to_edge "true") sample_resolve
                    sample_locations (sample_world sample_colors))).
  - apply (proj2 (proj2 (proj2 (proj2 (proj2 (proj2
             (edge_to_edge_flag_strict (only_edge_to_edge "true") sample_resolve
                sample_locations (sample_world sample_colors)))))))
             sample_themes sample_splash_style).
    repeat split; vm_compute; reflexivity.
Defined.

(** ** Version code *)

Lemma add_component_exact code nums i weight z :
  component nums i = Some z ->
  0 <= code -> 1 <= weight -> code + z * weight <= MAX_SAFE_INTEGER ->
  add_component (Some code) (nth_error nums i) weight = Some (code + z * weight)
  /\ 0 <= z.
Proof.
  unfold component, add_component, to_number. intros Hc Hcode Hw Hmax.
  destruct (nth_error nums i) as [s|].
  - destruct (JsObj.digits_value 0%N s) as [n|]; [|discriminate].
    injection Hc as <-. assert (Hn : 0 <= Z.of_N n) by lia. split; [|exact Hn].
    assert (Hz : Z.of_N n <= MAX_SAFE_INTEGER) by nia.
    apply Z.leb_le in Hz. rewrite Hz.
    destruct (Z.of_N n =? 0) eqn:E.
    + apply Z.eqb_eq in E. rewrite E. f_equal. lia.
    + apply Z.leb_le in Hmax. now rewrite Hmax.
  - injection Hc as <-. split; [f_equal; lia|lia].
Qed.

(** C10.  When the components of the version before any [-] are decimal
    numbers [major], [minor] and [patch] (a missing one counting for 0) and
    the result is a safe integer, [default_versionCode] returns
    [major * 10000 + minor * 100 + patch]. *)
Theorem default_versionCode_formula version major minor patch :
  component (version_numbers version) 0 = Some major ->
  component (version_numbers version) 1 = Some minor ->
  component (version_numbers version) 2 = Some patch ->
  major * 10000 + minor * 100 + patch <= MAX_SAFE_INTEGER ->
  default_versionCode version = Some (major * 10000 + minor * 100 + patch).
Proof.
  intros H0 H1 H2 Hmax. unfold default_versionCode. fold (version_numbers version).
  assert (P0 : 0 <= major).
  { unfold component in H0. destruct (nth_error _ _); [|injection H0; lia].
    destruct (JsObj.digits_value _ _); [injection H0; lia|discriminate]. }
  assert (P1 : 0 <= minor).
  { unfold component in H1. destruct (nth_error _ _); [|injection H1; lia].
    destruct (JsObj.digits_value _ _); [injection H1; lia|discriminate]. }
  assert (P2 : 0 <= patch).
  { unfold component in H2. destruct (nth_error _ _); [|injection H2; lia].
    destruct (JsObj.digits_value _ _); [injection H2; lia|discriminate]. }
  destruct (add_component_exact 0 _ _ 10000 _ H0) as [-> _]; [lia..|].
  destruct (add_component_exact (0 + major * 10000) _ _ 100 _ H1) as [-> _]; [lia..|].
  destruct (add_component_exact (0 + major * 10000 + minor * 100) _ _ 1 _ H2) as [-> _];
    [lia..|].
  f_equal. lia.
Qed.

Lemma default_versionCode_formula_witness :
  version_numbers "2.3.4" = ["2"; "3"; "4"]%string
  /\ version_numbers "1.0" = ["1"; "0"]%string
  /\ default_versionCode "2.3.4" = Some 20304
  /\ default_versionCode "1.0" = Some 10000.
Proof.
  split; [reflexivity|]. split; [reflexivity|]. split.
  - exact (default_versionCode_formula "2.3.4" 2 3 4 eq_refl eq_refl eq_refl
             ltac:(vm_compute; discriminate)).
  - exact (default_versionCode_formula "1.0" 1 0 0 eq_refl eq_refl eq_refl
             ltac:(vm_compute; discriminate)).
Defined.

(** * Further properties *)

(** ** [prepareIcons]: which slots are filled *)

Lemma find_some_In {A} (p : A -> bool) l x : List.find p l = Some x -> In x l.
Proof. intros H. now apply find_some in H. Qed.

Lemma last_In {A} (l : list A) x : last l = Some x -> In x l.
Proof.
  induction l as [|y l IH]; [discriminate|].
  destruct l as [|z l]; [intros [= ->]; now left|].
  intros H. right. apply IH. exact H.
Qed.

Lemma slot_holder_In d icons icon :
  slot_holder d icons = Some icon -> In icon icons /\ resolves_to d icon = true.
Proof.
  unfold slot_holder. intros H. apply filter_In.
  destruct (List.find _ _) as [x|] eqn:Hf.
  - injection H as <-. now apply find_some_In in Hf.
  - now apply last_In.
Qed.

Lemma slot_holder_filled d icons icon :
  In icon icons -> resolves_to d icon = true -> is_Some (slot_holder d icons).
Proof.
  intros Hin Hr. unfold slot_holder.
  destruct (List.find _ _) as [x|]; [eauto|].
  assert (Hf : In icon (List.filter (resolves_to d) icons)) by (apply filter_In; auto).
  destruct (List.filter (resolves_to d) icons) as [|y l] using rev_ind; [destruct Hf|].
  rewrite last_snoc. eauto.
Qed.

(** X1.  A density slot of the set [prepareIcons] returns is filled
    exactly when some declaration resolves to that density (by its density
    or by the lookup of its size), and what it holds is one of the
    declarations that resolve to it: no slot is invented, none is lost. *)
Theorem prepareIcons_slots_are_resolved icons d w :
  exists p,
    prepareIcons icons w = (emitted w (loop_events None icons), Ok p)
    /\ (is_Some (JsObj.get (android_icons p) d)
        <-> exists icon, In icon icons /\ resolves_to d icon = true)
    /\ forall icon,
         JsObj.get (android_icons p) d = Some icon ->
         In icon icons /\ resolves_to d icon = true.
Proof.
  eexists. split; [apply prepareIcons_run|].
  cbn [android_icons]. rewrite loop_slots_get, slot_after_fold.
  change (JsObj.get JsObj.empty d) with (@None Icon).
  fold (slot_holder d icons). split; [split|].
  - intros [icon H]. exists icon. now apply slot_holder_In.
  - intros (icon & Hin & Hr). now apply (slot_holder_filled d icons icon).
  - intros icon. apply slot_holder_In.
Qed.

(** ** [prepareIcons]: a size the table does not know *)

Lemma unknown_size_not_default icon :
  truthyZ (js_orZ (width icon) (height icon)) = true ->
  sizeless_densityless icon = false.
Proof. unfold sizeless_densityless. now intros ->. Qed.

Lemma unknown_size_leaves_slots o icon :
  truthy (density icon) = false ->
  SIZE_TO_DENSITY_MAP (js_orZ (width icon) (height icon)) = None ->
  parseIcon o icon (js_orZ (width icon) (height icon)) = o.
Proof. intros Hd Hs. unfold parseIcon, js_or. now rewrite Hd, Hs. Qed.

(** X2.  A declaration without density whose size (its width, or its
    height when it has no width) is not one of 36, 48, 72, 96, 144 and 192
    is dropped without a word: [prepareIcons] returns the same set, the
    same default icon and emits the same events as if the declaration were
    not there. *)
Theorem prepareIcons_drops_unknown_size before icon after w :
  truthy (density icon) = false ->
  truthyZ (js_orZ (width icon) (height icon)) = true ->
  SIZE_TO_DENSITY_MAP (js_orZ (width icon) (height icon)) = None ->
  prepareIcons (before ++ icon :: after) w = prepareIcons (before ++ after) w.
Proof.
  intros Hd Hz Hs. rewrite !prepareIcons_run.
  pose proof (unknown_size_not_default icon Hz) as Hn.
  assert (Hf : List.filter sizeless_densityless (before ++ icon :: after)
               = List.filter sizeless_densityless (before ++ after)).
  { rewrite !List.filter_app. cbn [List.filter]. now rewrite Hn. }
  unfold loop_events, default_after. rewrite Hf. do 3 f_equal.
  unfold loop_slots. rewrite !fold_left_app. cbn [fold_left]. rewrite Hn.
  now rewrite unknown_size_leaves_slots.
Qed.

Lemma prepareIcons_drops_unknown_size_witness :
  SIZE_TO_DENSITY_MAP (Some 50) = None
  /\ prepareIcons [legacy_icon "hdpi" "h.png";
                   mkIcon (Some "odd.png"%string) None None (Some 50) None None None None;
                   default_legacy_icon "d.png"] empty_world
     = prepareIcons [legacy_icon "hdpi" "h.png"; default_legacy_icon "d.png"] empty_world.
Proof.
  split; [reflexivity|].
  exact (prepareIcons_drops_unknown_size
           [legacy_icon "hdpi" "h.png"]
           (mkIcon (Some "odd.png"%string) None None (Some 50) None None None None)
           [default_legacy_icon "d.png"] empty_world eq_refl eq_refl eq_refl).
Defined.

(** ** [updateIcons]: when it completes *)

Lemma legacy_entry_ok dir d icon (rm : resource_map) w :
  truthy (src icon) = true -> exists rm', legacy_entry dir d icon rm w = (w, Ok rm').
Proof.
  unfold legacy_entry. destruct (src icon) as [s|]; [|discriminate]. intros _. now eexists.
Qed.

Lemma legacy_loop_ok dir entries :
  (forall d icon, In (d, icon) entries -> truthy (src icon) = true) ->
  forall (rm : resource_map) w,
  exists rm',
    for_each (fun rm (entry : string * Icon) => legacy_entry dir (fst entry) (snd entry) rm)
             entries rm w = (w, Ok rm').
Proof.
  induction entries as [|[d icon] entries IH]; intros Hs rm w; cbn [for_each].
  - now eexists.
  - destruct (legacy_entry_ok dir d icon rm w) as (rm1 & H1); [apply (Hs d); now left|].
    cbn [fst snd]. rewrite (bind_ok _ _ _ _ _ H1). apply IH.
    intros d' icon' Hin. apply (Hs d'). now right.
Qed.

Lemma legacy_pass_ok prepared (rm : resource_map) dir w :
  (forall d icon, legacy_source prepared d icon -> truthy (src icon) = true) ->
  exists rm', updateIconResourceForLegacy prepared rm dir w = (w, Ok rm').
Proof.
  intros Hs. unfold updateIconResourceForLegacy.
  destruct (legacy_loop_ok dir (JsObj.for_in (android_icons prepared))) with (rm := rm) (w := w)
    as (rm1 & H1).
  { intros d icon Hin. apply (Hs d). now left. }
  rewrite (bind_ok _ _ _ _ _ H1).
  destruct (default_icon prepared) as [dflt|] eqn:Hd; [|now eexists].
  destruct (JsObj.get (android_icons prepared) "mdpi") eqn:Hm; [now eexists|].
  apply legacy_entry_ok. apply (Hs "mdpi"%string). right. auto.
Qed.

Lemma adaptive_pass_ok prepared (rm : resource_map) dir w :
  default_icon prepared = None \/ is_Some (JsObj.get (android_icons prepared) "mdpi") ->
  exists w' rm', updateIconResourceForAdaptive prepared rm dir w = (w', Ok rm').
Proof.
  intros Hd. unfold updateIconResourceForAdaptive.
  destruct (adaptive_loop_ok dir (JsObj.for_in (android_icons prepared))
              (mkVars None None None, rm) w) as (w1 & st1 & Hloop).
  rewrite (bind_ok _ _ _ _ _ Hloop). unfold adaptive_default_block.
  destruct Hd as [->|[i ->]]; [now eexists _, _|].
  destruct (default_icon prepared); now eexists _, _.
Qed.

(** X3.  [updateIcons] runs to its end on declarations that pass the
    validation, none of which names the density [__proto__], when the
    descriptor of every adaptive density is on disk already (the directory
    the descriptor is written into exists then) and no declaration has a
    foreground, or there is no default icon, or an [mdpi] icon was
    resolved (the [TypeError] of the block for the default icon cannot
    arise then): it hands exactly one map to [FileUpdater.updatePaths],
    with the project root, and the last event it emits is the note that
    the icons are updated. *)
Theorem updateIcons_completes icons root dir folders w :
  icons <> [] ->
  validation_errorMessage (validate_icons icons) = [] ->
  ordinary_densities icons ->
  descriptors_in_place dir (prepared_of (icons_seen (validate_icons icons))) w ->
  (forall icon, In icon icons -> truthy (foreground icon) = false)
  \/ default_icon (prepared_of (icons_seen (validate_icons icons))) = None
  \/ is_Some (JsObj.get (android_icons (prepared_of (icons_seen (validate_icons icons))))
                        "mdpi") ->
  exists w' rm,
    updateIcons icons root dir folders w = (w', Ok tt)
    /\ updatePaths_calls w' = updatePaths_calls w ++ [(rm, root)]
    /\ last (events w') = Some (Emit verbose (UpdatingIconsAt dir)).
Proof.
  intros Hne Hv _ _ Hcase. unfold updateIcons.
  destruct icons as [|i0 icons0] eqn:Hicons; [contradiction|].
  rewrite <- Hicons in *. clear Hicons Hne. rewrite Hv.
  erewrite bind_ok by apply prepareIcons_run. rewrite <- prepared_of_eq.
  set (prepared := prepared_of (icons_seen (validate_icons icons))) in *.
  set (w1 := emitted w _). set (rm0 := Object_assign _ _).
  assert (HA : exists w2 rm2,
    (if hasAdaptive (validate_icons icons)
     then updateIconResourceForAdaptive prepared rm0 dir
     else ret rm0) w1 = (w2, Ok rm2)
    /\ updatePaths_calls w2 = updatePaths_calls w).
  { destruct (hasAdaptive (validate_icons icons)) eqn:Ha; [|now exists w1, rm0].
    destruct Hcase as [Hno|Hd].
    - exfalso. rewrite validate_icons_eq in Ha. cbn [hasAdaptive] in Ha.
      apply existsb_exists in Ha. destruct Ha as (icon & Hin & Hf).
      rewrite (Hno icon Hin) in Hf. discriminate.
    - destruct (adaptive_pass_ok prepared rm0 dir w1 Hd) as (w2 & rm2 & H2).
      exists w2, rm2. split; [exact H2|].
      now destruct (adaptive_pass_descriptor _ _ _ _ _ _ H2) as [-> _]. }
  destruct HA as (w2 & rm2 & HA & Hcalls). rewrite (bind_ok _ _ _ _ _ HA).
  destruct (legacy_pass_ok prepared rm2 dir w2) as (rm3 & HL).
  { intros d icon Hsrc. apply (validated_src icons icon Hv).
    exact (legacy_source_declared _ _ _ Hsrc). }
  rewrite (bind_ok _ _ _ _ _ HL). rewrite (bind_ok _ _ _ _ _ (emit_run _ _ _)).
  unfold FileUpdater_updatePaths. eexists _, rm3. split; [reflexivity|].
  cbn [updatePaths_calls events emitted]. rewrite Hcalls. split; [reflexivity|].
  apply last_snoc.
Qed.

Lemma updateIcons_completes_witness :
  exists w' rm,
    updateIcons [adaptive_icon (Some "hdpi"%string) (Some "bg.png"%string)
                               (Some "fg.png"%string);
                 legacy_icon "xhdpi" "x.png"]
                "/project" res_dir ["mipmap-hdpi"; "mipmap-hdpi-v26"; "mipmap-xhdpi"]%string
                world_with_hdpi_descriptor
    = (w', Ok tt)
    /\ updatePaths_calls w'
       = updatePaths_calls world_with_hdpi_descriptor ++ [(rm, "/project"%string)]
    /\ last (events w') = Some (Emit verbose (UpdatingIconsAt res_dir)).
Proof.
  apply (updateIcons_completes
           [adaptive_icon (Some "hdpi"%string) (Some "bg.png"%string) (Some "fg.png"%string);
            legacy_icon "xhdpi" "x.png"]).
  - discriminate.
  - reflexivity.
  - intros icon [<-|[<-|[]]]; discriminate.
  - intros d icon Hin Ha. vm_compute in Hin.
    destruct Hin as [Hin|[Hin|[]]]; injection Hin as <- <-; [|discriminate Ha].
    exists (Text "<adaptive-icon />"). vm_compute. reflexivity.
  - right. left. reflexivity.
Defined.

(** ** Keys of the resolved set *)

Lemma set_keys {V} (o : JsObj.t V) k v :
  List.NoDup (map fst o) -> List.NoDup (map fst (JsObj.set o k v))
  /\ forall k', In k' (map fst (JsObj.set o k v)) -> k' = k \/ In k' (map fst o).
Proof.
  induction o as [|[k0 v0] o IH]; cbn [JsObj.set map fst].
  - intros _. split; [constructor; [intros []|constructor]|]. intros k' [<-|[]]. now left.
  - intros Hn. inversion Hn as [|? ? Hnotin Hn']; subst.
    destruct (String.eqb k0 k) eqn:E; cbn [map fst].
    + split; [exact Hn|]. intros k' H. now right.
    + destruct (IH Hn') as [IH1 IH2]. split.
      * constructor; [|exact IH1]. intros Hin. apply IH2 in Hin.
        destruct Hin as [->|Hin]; [|contradiction].
        now rewrite String.eqb_refl in E.
      * intros k' [<-|Hin]; [right; now left|].
        apply IH2 in Hin. destruct Hin; [now left|right; now right].
Qed.

Lemma parseIcon_keys o icon size :
  List.NoDup (map fst o) -> List.NoDup (map fst (parseIcon o icon size)).
Proof.
  intros Hn. unfold parseIcon.
  destruct (negb _); [exact Hn|].
  destruct (JsObj.get o _) as [previous|];
    [destruct (truthy (platform previous)); [exact Hn|]|]; now apply set_keys.
Qed.

Lemma loop_slots_keys icons : forall o,
  List.NoDup (map fst o) -> List.NoDup (map fst (loop_slots o icons)).
Proof.
  unfold loop_slots. induction icons as [|icon icons IH]; intros o Hn; cbn [fold_left].
  - exact Hn.
  - apply IH. destruct (sizeless_densityless icon); [exact Hn|now apply parseIcon_keys].
Qed.

Lemma unique_key_entry {V} (o : JsObj.t V) d (i1 i2 : V) :
  List.NoDup (map fst o) -> In (d, i1) o -> In (d, i2) o -> i1 = i2.
Proof.
  induction o as [|[k v] o IH]; [intros _ []|].
  cbn [map fst]. intros Hn H1 H2. inversion Hn as [|? ? Hnotin Hn']; subst.
  destruct H1 as [E1|H1], H2 as [E2|H2].
  - congruence.
  - injection E1 as -> ->. exfalso. apply Hnotin. now apply (in_map fst) in H2.
  - injection E2 as -> ->. exfalso. apply Hnotin. now apply (in_map fst) in H1.
  - now apply IH.
Qed.

(** The resolved set holds one icon per density. *)
Lemma resolved_entries_functional icons d i1 i2 :
  In (d, i1) (JsObj.for_in (android_icons (prepared_of icons))) ->
  In (d, i2) (JsObj.for_in (android_icons (prepared_of icons))) ->
  i1 = i2.
Proof.
  intros H1 H2. apply for_in_In in H1, H2. rewrite prepared_of_eq in H1, H2.
  cbn [android_icons] in H1, H2.
  apply (unique_key_entry (loop_slots JsObj.empty icons) d); try assumption.
  apply loop_slots_keys. constructor.
Qed.

Lemma get_In {V} (o : JsObj.t V) d (i : V) : JsObj.get o d = Some i -> In (d, i) o.
Proof.
  induction o as [|[k v] o IH]; [discriminate|]. cbn [JsObj.get].
  destruct (String.eqb k d) eqn:E.
  - apply String.eqb_eq in E. subst k. intros [= ->]. now left.
  - intros H. right. now apply IH.
Qed.

Lemma In_get {V} (o : JsObj.t V) d (i : V) :
  List.NoDup (map fst o) -> In (d, i) o -> JsObj.get o d = Some i.
Proof.
  intros Hn Hin. destruct (JsObj.get o d) as [i'|] eqn:Hg.
  - apply get_In in Hg. f_equal. now apply (unique_key_entry o d).
  - exfalso. induction o as [|[k v] o IH]; [destruct Hin|].
    cbn [JsObj.get] in Hg. destruct (String.eqb k d) eqn:E; [discriminate|].
    destruct Hin as [[= -> ->]|Hin]; [now rewrite String.eqb_refl in E|].
    inversion Hn; subst. now apply IH.
Qed.

(** ** One directory per density *)

Lemma length_append (a b : string) :
  String.length (a +:+ b) = (String.length a + String.length b)%nat.
Proof.
  induction a as [|x a IH]; [reflexivity|].
  rewrite append_cons. cbn [String.length]. now rewrite IH.
Qed.

Lemma append_inv_tail (a b c : string) : a +:+ c = b +:+ c -> a = b.
Proof.
  revert b. induction a as [|x a IH]; intros [|y b] H.
  - reflexivity.
  - apply (f_equal String.length) in H. rewrite !length_append in H.
    cbn [String.length] in H. lia.
  - apply (f_equal String.length) in H. rewrite !length_append in H.
    cbn [String.length] in H. lia.
  - rewrite !append_cons in H. injection H as -> H. f_equal. now apply IH.
Qed.

Lemma launcherXmlPath_inj dir d d' :
  no_slash d = true -> no_slash d' = true ->
  launcherXmlPath dir d = launcherXmlPath dir d' -> d = d'.
Proof.
  intros Hd Hd' Heq. unfold launcherXmlPath in Heq.
  assert (Hp : forall x, no_slash x = true ->
                         plain_name ("mipmap-" +:+ x +:+ "-v26") = true).
  { intros x Hx. apply (plain_name_app "m" "ipmap-" (x +:+ "-v26")); try reflexivity.
    now rewrite no_slash_app, Hx. }
  apply (join_plain_tail_inj [dir] [dir]
           ["mipmap-" +:+ d +:+ "-v26"; "ic_launcher.xml"]%string
           ["mipmap-" +:+ d' +:+ "-v26"; "ic_launcher.xml"]%string) in Heq;
    [|repeat constructor; auto..|congruence|reflexivity].
  assert (Hs : "mipmap-" +:+ (d +:+ "-v26") = "mipmap-" +:+ (d' +:+ "-v26"))
    by congruence.
  apply (String.app_inj "mipmap-") in Hs. now apply append_inv_tail in Hs.
Qed.

Lemma legacy_extension_no_slash sourceName :
  no_slash (if endsWith sourceName ".9.png" then ".9.png"%string
            else toLowerCase (Path.extname sourceName)) = true.
Proof.
  destruct (endsWith sourceName ".9.png"); [reflexivity|].
  rewrite no_slash_toLowerCase. apply extname_no_slash.
Qed.

Lemma getImageResourcePath_density_inj dir d d' name b b' :
  directory_density d = true -> directory_density d' = true ->
  getImageResourcePath dir "mipmap" d ("i" +:+ name) b
  = getImageResourcePath dir "mipmap" d' ("i" +:+ name) b' ->
  no_slash name = true ->
  d = d'.
Proof.
  unfold directory_density. intros Hd Hd' Heq Hname.
  apply andb_true_iff in Hd, Hd'. destruct Hd as [Hne Hd], Hd' as [Hne' Hd'].
  apply negb_true_iff in Hne, Hne'.
  unfold getImageResourcePath in Heq. rewrite Hne, Hne' in Heq.
  assert (Hsub : forall x, no_slash x = true -> plain_name ("mipmap" +:+ "-" +:+ x) = true).
  { intros x Hx. apply (plain_name_app "m" "ipmap" ("-" +:+ x)); try reflexivity.
    now rewrite no_slash_app, Hx. }
  assert (Hfile : forall s, plain_name (("i" +:+ name) +:+
                    (if endsWith s ".9.png" then ".9.png"%string
                     else toLowerCase (Path.extname s))) = true).
  { intros s. rewrite append_assoc.
    apply (plain_name_app "i" EmptyString); try reflexivity.
    rewrite no_slash_app, Hname. apply legacy_extension_no_slash. }
  apply (join_plain_tail_inj [dir] [dir]
           ["mipmap" +:+ "-" +:+ d;
            ("i" +:+ name) +:+ (if endsWith b ".9.png" then ".9.png"%string
                                else toLowerCase (Path.extname b))]
           ["mipmap" +:+ "-" +:+ d';
            ("i" +:+ name) +:+ (if endsWith b' ".9.png" then ".9.png"%string
                                else toLowerCase (Path.extname b'))]) in Heq;
    [|repeat constructor; auto..|congruence|reflexivity].
  assert (Hs : "mipmap" +:+ "-" +:+ d = "mipmap" +:+ "-" +:+ d') by congruence.
  change ("mipmap-" +:+ d = "mipmap-" +:+ d') in Hs.
  now apply (String.app_inj "mipmap-") in Hs.
Qed.

(** ** The descriptors the adaptive pass writes *)

Lemma adaptive_layer_reference dir d layerName layer val (rm : resource_map) :
  fst (adaptive_layer dir d layerName layer val rm) = layer_reference layer val.
Proof.
  unfold adaptive_layer, layer_reference.
  destruct (startsWith layer "@color"); [reflexivity|].
  destruct (String.eqb _ ".xml"); [reflexivity|].
  destruct (String.eqb _ ".png"); reflexivity.
Qed.

Lemma adaptive_round_text dir vars (rm : resource_map) d icon w :
  is_adaptive icon = true ->
  exists rm',
    adaptive_round dir (vars, rm) (d, icon) w
    = (mkWorld (<[launcherXmlPath dir d := Text (descriptor_text icon)]> (files w))
               (events w) (updatePaths_calls w),
       Ok (round_vars icon, rm')).
Proof.
  intros Ha. unfold is_adaptive in Ha.
  unfold adaptive_round, round_vars, descriptor_text. rewrite Ha. simpl.
  rewrite andb_false_r. unfold bind, ret. simpl.
  rewrite <- (adaptive_layer_reference dir d "ic_launcher_background" _ _ rm).
  destruct (adaptive_layer dir d "ic_launcher_background" _ _ rm) as [bv rm1]. simpl.
  rewrite <- (adaptive_layer_reference dir d "ic_launcher_foreground" _ _ rm1).
  destruct (adaptive_layer dir d "ic_launcher_foreground" _ _ rm1) as [fv rm2]. simpl.
  unfold writeFileSync. destruct w. simpl. eexists. reflexivity.
Qed.

Lemma adaptive_round_files dir st d icon w w' st' :
  adaptive_round dir st (d, icon) w = (w', Ok st') ->
  files w' = if is_adaptive icon
             then <[launcherXmlPath dir d := Text (descriptor_text icon)]> (files w)
             else files w.
Proof.
  destruct st as [vars rm]. destruct (is_adaptive icon) eqn:Ha.
  - destruct (adaptive_round_text dir vars rm d icon w Ha) as (rm' & ->).
    now intros [= <- _].
  - rewrite (adaptive_round_skipped dir vars rm d icon w Ha). now intros [= <- _].
Qed.

Lemma adaptive_loop_files dir entries :
  (forall d i1 i2, In (d, i1) entries -> In (d, i2) entries -> i1 = i2) ->
  (forall d icon, In (d, icon) entries -> no_slash d = true) ->
  forall st w w' st',
  for_each (adaptive_round dir) entries st w = (w', Ok st') ->
  (forall d icon, In (d, icon) entries -> is_adaptive icon = true ->
     files w' !! launcherXmlPath dir d = Some (Text (descriptor_text icon)))
  /\ (forall p,
        (forall d icon, In (d, icon) entries -> is_adaptive icon = true ->
                        launcherXmlPath dir d <> p) ->
        files w' !! p = files w !! p).
Proof.
  induction entries as [|[d0 i0] entries IH] using rev_ind; intros Hfun Hns st w w' st' Hrun.
  - injection Hrun as <- _. split; [intros d icon []|reflexivity].
  - rewrite for_each_app in Hrun. unfold bind at 1 in Hrun.
    destruct (for_each (adaptive_round dir) entries st w) as [w1 [st1|e]] eqn:H1;
      [|discriminate].
    cbn [for_each] in Hrun. unfold bind at 1 in Hrun.
    destruct (adaptive_round dir st1 (d0, i0) w1) as [w2 [st2|e]] eqn:H2; [|discriminate].
    injection Hrun as <- _. apply adaptive_round_files in H2.
    destruct (IH (fun d i1 i2 A B => Hfun d i1 i2 (in_or_app _ _ _ (or_introl A))
                                          (in_or_app _ _ _ (or_introl B)))
                 (fun d icon A => Hns d icon (in_or_app _ _ _ (or_introl A)))
                 st w w1 st1 H1) as [IHw IHf].
    rewrite H2. split.
    + intros d icon Hin Ha.
      assert (Hd : no_slash d = true) by exact (Hns d icon Hin).
      assert (Hd0 : no_slash d0 = true).
      { apply (Hns d0 i0). apply in_or_app. right. now left. }
      assert (Hsame : d = d0 -> icon = i0).
      { intros ->. apply (Hfun d0); [exact Hin|]. apply in_or_app. right. now left. }
      apply in_app_or in Hin.
      destruct (is_adaptive i0) eqn:Ha0.
      * destruct (String.eqb d d0) eqn:E.
        -- apply String.eqb_eq in E. rewrite (Hsame E). subst d0. apply lookup_insert_eq.
        -- rewrite lookup_insert_ne.
           ++ destruct Hin as [Hin|[[= <- <-]|[]]]; [now apply IHw|].
              now rewrite String.eqb_refl in E.
           ++ intros Heq. apply launcherXmlPath_inj in Heq; [|assumption..].
              subst d0. now rewrite String.eqb_refl in E.
      * destruct Hin as [Hin|[[= <- <-]|[]]]; [now apply IHw|congruence].
    + intros p Hp.
      assert (Hrest : files w1 !! p = files w !! p).
      { apply IHf. intros d icon Hin. apply Hp. apply in_or_app. now left. }
      destruct (is_adaptive i0) eqn:Ha0; [|exact Hrest].
      rewrite lookup_insert_ne; [exact Hrest|].
      apply (Hp d0 i0); [apply in_or_app; right; now left|exact Ha0].
Qed.

Lemma adaptive_pass_files prepared (rm : resource_map) dir w w' rm' :
  (forall d icon, In (d, icon) (JsObj.for_in (android_icons prepared)) ->
                  no_slash d = true) ->
  (forall d i1 i2, In (d, i1) (JsObj.for_in (android_icons prepared)) ->
                   In (d, i2) (JsObj.for_in (android_icons prepared)) -> i1 = i2) ->
  updateIconResourceForAdaptive prepared rm dir w = (w', Ok rm') ->
  (forall d icon, In (d, icon) (JsObj.for_in (android_icons prepared)) ->
     is_adaptive icon = true ->
     files w' !! launcherXmlPath dir d = Some (Text (descriptor_text icon)))
  /\ (forall p,
        (forall d icon, In (d, icon) (JsObj.for_in (android_icons prepared)) ->
                        is_adaptive icon = true -> launcherXmlPath dir d <> p) ->
        files w' !! p = files w !! p).
Proof.
  intros Hns Hfun. unfold updateIconResourceForAdaptive. intros Hrun.
  destruct (adaptive_loop_ok dir (JsObj.for_in (android_icons prepared))
              (mkVars None None None, rm) w) as (w1 & st1 & Hloop).
  rewrite (bind_ok _ _ _ _ _ Hloop) in Hrun.
  apply adaptive_default_block_lookup in Hrun. destruct Hrun as [-> _].
  exact (adaptive_loop_files dir _ Hfun Hns _ _ _ _ Hloop).
Qed.

(** The steps of a run of [updateIcons] that reaches its end. *)
Lemma updateIcons_trace icons root dir folders w w' :
  icons <> [] ->
  updateIcons icons root dir folders w = (w', Ok tt) ->
  validation_errorMessage (validate_icons icons) = []
  /\ exists w2 rm2 rm3,
       (if hasAdaptive (validate_icons icons)
        then updateIconResourceForAdaptive
               (prepared_of (icons_seen (validate_icons icons)))
               (Object_assign ∅ (map (mapImageResources folders dir) icon_resource_names))
               dir
        else ret (Object_assign ∅ (map (mapImageResources folders dir) icon_resource_names)))
         (emitted w (loop_events None (icons_seen (validate_icons icons))))
       = (w2, Ok rm2)
       /\ updateIconResourceForLegacy (prepared_of (icons_seen (validate_icons icons)))
                                      rm2 dir w2 = (w2, Ok rm3)
       /\ w' = mkWorld (files w2) (events w2 ++ [Emit verbose (UpdatingIconsAt dir)])
                       (updatePaths_calls w2 ++ [(rm3, root)]).
Proof.
  intros Hne Hrun. unfold updateIcons in Hrun.
  destruct icons as [|i0 icons0] eqn:Hicons; [contradiction|].
  rewrite <- Hicons in *. clear Hicons Hne.
  destruct (validation_errorMessage (validate_icons icons)) as [|m ms] eqn:Hv;
    [|discriminate]. split; [reflexivity|].
  erewrite bind_ok in Hrun by apply prepareIcons_run. rewrite <- prepared_of_eq in Hrun.
  unfold bind at 1 in Hrun.
  match type of Hrun with
  | (let (_, _) := ?run in _) = _ => destruct run as [w2 [rm2|e2]] eqn:HA; [|discriminate]
  end.
  unfold bind at 1 in Hrun.
  destruct (updateIconResourceForLegacy _ rm2 dir w2) as [w3 [rm3|e3]] eqn:HL;
    [|discriminate].
  destruct (legacy_pass_lookup _ _ _ _ _ _ HL) as [-> _].
  rewrite (bind_ok _ _ _ _ _ (emit_run _ _ _)) in Hrun.
  unfold FileUpdater_updatePaths in Hrun. injection Hrun as <-.
  now exists w2, rm2, rm3.
Qed.

Lemma derive_src_density icon : density (derive_src icon) = density icon.
Proof. unfold derive_src. now destruct (_ && _). Qed.

Lemma table_density_directory size d :
  SIZE_TO_DENSITY_MAP size = Some d -> directory_density d = true.
Proof.
  unfold SIZE_TO_DENSITY_MAP. intros H.
  repeat match type of H with
         | match ?x with _ => _ end = _ => destruct x; try discriminate
         end; injection H as <-; reflexivity.
Qed.

Lemma resolved_key_directory icons d icon :
  (forall i, In i icons -> no_slash (str (density i)) = true) ->
  In (d, icon) (JsObj.for_in (android_icons (prepared_of icons))) ->
  directory_density d = true.
Proof.
  intros Hns Hin. pose proof (resolved_entry_declared _ _ _ Hin) as Hdecl.
  apply for_in_In in Hin. rewrite prepared_of_eq in Hin. cbn [android_icons] in Hin.
  apply In_get in Hin; [|apply loop_slots_keys; constructor].
  rewrite loop_slots_get, slot_after_fold in Hin.
  change (JsObj.get JsObj.empty d) with (@None Icon) in Hin.
  fold (slot_holder d icons) in Hin. apply slot_holder_In in Hin. destruct Hin as [_ Hr].
  apply resolves_to_true in Hr. unfold resolved_density in Hr.
  destruct (sizeless_densityless icon); [discriminate|].
  unfold js_or in Hr. destruct (truthy (density icon)) eqn:Ht.
  - rewrite Ht in Hr. specialize (Hns icon Hdecl). rewrite Hr in Hns, Ht.
    change (str (Some d)) with d in Hns. cbn [truthy] in Ht.
    unfold directory_density. now rewrite Ht, Hns.
  - destruct (SIZE_TO_DENSITY_MAP _) as [d'|] eqn:Hs; [|discriminate].
    destruct (truthy (Some d')); [|discriminate]. injection Hr as <-.
    exact (table_density_directory _ _ Hs).
Qed.

Lemma directory_density_no_slash d : directory_density d = true -> no_slash d = true.
Proof. unfold directory_density. intros H. now apply andb_true_iff in H. Qed.

(** X4.  When [updateIcons] reaches its end on declarations whose
    densities hold no path separator, every resolved density whose icon
    has a background and a foreground has its descriptor
    [mipmap-<density>-v26/ic_launcher.xml] on disk: it refers to a colour
    layer by the colour itself and to any other layer by the resource
    [@mipmap/ic_launcher_background] or [@mipmap/ic_launcher_foreground],
    and has a monochrome line exactly when the icon has a monochrome
    layer.  These descriptors are the only files [updateIcons] writes
    itself: every other path holds what it held before. *)
Theorem updateIcons_writes_descriptors icons root dir folders w w' :
  updateIcons icons root dir folders w = (w', Ok tt) ->
  (forall icon, In icon icons -> no_slash (str (density icon)) = true) ->
  (forall d icon,
     In (d, icon)
        (JsObj.for_in (android_icons (prepared_of (icons_seen (validate_icons icons))))) ->
     is_adaptive icon = true ->
     files w' !! launcherXmlPath dir d = Some (Text (descriptor_text icon)))
  /\ (forall p,
        (forall d icon,
           In (d, icon)
              (JsObj.for_in (android_icons (prepared_of (icons_seen (validate_icons icons))))) ->
           is_adaptive icon = true -> launcherXmlPath dir d <> p) ->
        files w' !! p = files w !! p).
Proof.
  intros Hrun Hdens. destruct icons as [|i0 icons0] eqn:Hicons.
  { injection Hrun as <-. split; [intros d icon []|reflexivity]. }
  assert (Hne : i0 :: icons0 <> []) by discriminate.
  rewrite <- Hicons in *. clear Hicons.
  destruct (updateIcons_trace _ _ _ _ _ _ Hne Hrun)
    as (Hv & w2 & rm2 & rm3 & HA & _ & ->). cbn [files].
  set (prepared := prepared_of (icons_seen (validate_icons icons))) in *.
  assert (Hns : forall d icon, In (d, icon) (JsObj.for_in (android_icons prepared)) ->
                               no_slash d = true).
  { intros d icon Hin. apply directory_density_no_slash.
    apply (resolved_key_directory (icons_seen (validate_icons icons)) d icon); [|exact Hin].
    rewrite validate_icons_eq. cbn [icons_seen]. intros i Hi.
    apply in_map_iff in Hi. destruct Hi as (i' & <- & Hi').
    rewrite derive_src_density. now apply Hdens. }
  destruct (hasAdaptive (validate_icons icons)) eqn:Ha.
  - exact (adaptive_pass_files prepared _ dir _ _ _ Hns
             (resolved_entries_functional _) HA).
  - injection HA as <- _. cbn [files emitted]. split; [|reflexivity].
    intros d icon Hin Hic. exfalso.
    rewrite (adaptive_entry_sets_flag icons icon) in Ha; [discriminate| |exact Hic].
    exact (resolved_entry_declared _ _ _ Hin).
Qed.

Lemma updateIcons_writes_descriptors_witness :
  files (fst (updateIcons [colour_background_icon] "/project" res_dir
                          ["mipmap-mdpi"; "mipmap-mdpi-v26"]%string empty_world))
    !! launcherXmlPath res_dir "mdpi"
  = Some (Text (icLauncherTemplate "@color/bg" "@mipmap/ic_launcher_foreground"
                                   (Some "@mipmap/ic_launcher_monochrome"%string))).
Proof.
  refine (proj1 (updateIcons_writes_descriptors [colour_background_icon] "/project" res_dir
                   ["mipmap-mdpi"; "mipmap-mdpi-v26"]%string empty_world _ _ _)
                "mdpi"%string (set_src colour_background_icon (Some "fg.png"%string)) _ _).
  - vm_compute. reflexivity.
  - intros icon [<-|[]]. reflexivity.
  - vm_compute. left. reflexivity.
  - reflexivity.
Defined.

(** ** The legacy icons *)

Lemma legacy_entry_insert dir d icon (rm : resource_map) w w' rm' :
  legacy_entry dir d icon rm w = (w', Ok rm') ->
  w' = w /\ rm' = <[legacy_path dir d icon := src icon]> rm.
Proof.
  intros Hrun. destruct (legacy_entry_run _ _ _ _ _ _ _ Hrun) as [-> H].
  destruct (H rm' eq_refl) as (s & Hs & ->). split; [reflexivity|].
  unfold legacy_path. now rewrite Hs.
Qed.

Lemma legacy_path_density_inj dir d d' icon icon' :
  directory_density d = true -> directory_density d' = true ->
  legacy_path dir d icon = legacy_path dir d' icon' -> d = d'.
Proof.
  intros Hd Hd' Heq.
  now apply (getImageResourcePath_density_inj dir d d' "c_launcher" _ _ Hd Hd' Heq).
Qed.

Lemma legacy_loop_targets dir entries :
  (forall d i1 i2, In (d, i1) entries -> In (d, i2) entries -> i1 = i2) ->
  (forall d icon, In (d, icon) entries -> directory_density d = true) ->
  forall (rm : resource_map) w w' rm',
  for_each (fun rm (entry : string * Icon) => legacy_entry dir (fst entry) (snd entry) rm)
           entries rm w = (w', Ok rm') ->
  forall d icon, In (d, icon) entries -> rm' !! legacy_path dir d icon = Some (src icon).
Proof.
  induction entries as [|[d0 i0] entries IH] using rev_ind;
    intros Hfun Hdir rm w w' rm' Hrun d icon Hin; [destruct Hin|].
  rewrite for_each_app in Hrun. unfold bind at 1 in Hrun.
  destruct (for_each _ entries rm w) as [w1 [rm1|e]] eqn:H1; [|discriminate].
  cbn [for_each fst snd] in Hrun. unfold bind at 1 in Hrun.
  destruct (legacy_entry dir d0 i0 rm1 w1) as [w2 [rm2|e]] eqn:H2; [|discriminate].
  injection Hrun as <- <-. apply legacy_entry_insert in H2. destruct H2 as [-> ->].
  assert (Hd : directory_density d = true) by exact (Hdir d icon Hin).
  assert (Hd0 : directory_density d0 = true).
  { apply (Hdir d0 i0). apply in_or_app. right. now left. }
  assert (Hsame : d = d0 -> icon = i0).
  { intros ->. apply (Hfun d0); [exact Hin|]. apply in_or_app. right. now left. }
  destruct (String.eqb d d0) eqn:E.
  - apply String.eqb_eq in E. rewrite (Hsame E). subst d0. apply lookup_insert_eq.
  - apply String.eqb_neq in E. rewrite lookup_insert_ne.
    + apply in_app_or in Hin. destruct Hin as [Hin|[[= <- <-]|[]]]; [|congruence].
      apply (IH (fun d i1 i2 A B => Hfun d i1 i2 (in_or_app _ _ _ (or_introl A))
                                         (in_or_app _ _ _ (or_introl B)))
                (fun d icon A => Hdir d icon (in_or_app _ _ _ (or_introl A)))
                rm w w1 rm1 H1 d icon Hin).
    + intros Heq. apply E. symmetry. exact (legacy_path_density_inj _ _ _ _ _ Hd0 Hd Heq).
Qed.

Lemma legacy_pass_targets prepared (rm : resource_map) dir w w' rm' :
  List.NoDup (map fst (android_icons prepared)) ->
  (forall d icon, In (d, icon) (JsObj.for_in (android_icons prepared)) ->
                  directory_density d = true) ->
  updateIconResourceForLegacy prepared rm dir w = (w', Ok rm') ->
  forall d icon, legacy_source prepared d icon ->
                 rm' !! legacy_path dir d icon = Some (src icon).
Proof.
  intros Hkeys Hdir. unfold updateIconResourceForLegacy. intros Hrun.
  unfold bind at 1 in Hrun.
  destruct (for_each _ (JsObj.for_in (android_icons prepared)) rm w)
    as [w1 [rm1|e]] eqn:H1; [|discriminate].
  assert (Hfun : forall d i1 i2, In (d, i1) (JsObj.for_in (android_icons prepared)) ->
                                 In (d, i2) (JsObj.for_in (android_icons prepared)) -> i1 = i2).
  { intros d i1 i2 A B. apply for_in_In in A, B.
    exact (unique_key_entry _ d i1 i2 Hkeys A B). }
  pose proof (legacy_loop_targets dir _ Hfun Hdir rm w w1 rm1 H1) as Hloop.
  destruct (default_icon prepared) as [dflt|] eqn:Hd.
  - destruct (JsObj.get (android_icons prepared) "mdpi") as [m|] eqn:Hm.
    + injection Hrun as <- <-. intros d icon [Hin|(_ & _ & Hno)]; [now apply Hloop|congruence].
    + apply legacy_entry_insert in Hrun. destruct Hrun as [-> ->].
      intros d icon [Hin|(-> & Hdi & _)];
        [|assert (icon = dflt) by congruence; subst icon; apply lookup_insert_eq].
      rewrite lookup_insert_ne; [now apply Hloop|].
      intros Heq. apply legacy_path_density_inj in Heq; [|reflexivity|now apply (Hdir d icon)].
      subst d. apply for_in_In in Hin. apply (In_get _ _ _ Hkeys) in Hin. congruence.
  - injection Hrun as <- <-. intros d icon [Hin|(_ & Hno & _)]; [now apply Hloop|congruence].
Qed.

(** X5.  When [updateIcons] reaches its end on declarations whose
    densities hold no path separator, the map it hands to
    [FileUpdater.updatePaths] maps, for every resolved density and for
    the default icon standing in for [mdpi], the legacy target
    [mipmap-<density>/ic_launcher<ext>] to the src of that very icon: no
    legacy icon is lost or replaced by another density's. *)
Theorem updateIcons_maps_every_legacy_icon icons root dir folders w w' :
  updateIcons icons root dir folders w = (w', Ok tt) ->
  (forall icon, In icon icons -> no_slash (str (density icon)) = true) ->
  forall d icon,
    legacy_source (prepared_of (icons_seen (validate_icons icons))) d icon ->
    truthy (src icon) = true
    /\ handed_over w' (legacy_path dir d icon) = Some (Some (src icon)).
Proof.
  intros Hrun Hdens d icon Hsrc. destruct icons as [|i0 icons0] eqn:Hicons.
  { exfalso. destruct Hsrc as [[]|(_ & Hd & _)]. discriminate Hd. }
  assert (Hne : i0 :: icons0 <> []) by discriminate.
  rewrite <- Hicons in *. clear Hicons.
  destruct (updateIcons_trace _ _ _ _ _ _ Hne Hrun)
    as (Hv & w2 & rm2 & rm3 & _ & HL & ->).
  split.
  { apply (validated_src icons icon Hv). exact (legacy_source_declared _ _ _ Hsrc). }
  unfold handed_over. cbn [updatePaths_calls]. rewrite last_snoc. cbn [fst]. f_equal.
  apply (legacy_pass_targets (prepared_of (icons_seen (validate_icons icons)))
           rm2 dir w2 w2 rm3); [| |exact HL|exact Hsrc].
  - rewrite prepared_of_eq. cbn [android_icons]. apply loop_slots_keys. constructor.
  - intros d' icon' Hin.
    apply (resolved_key_directory (icons_seen (validate_icons icons)) d' icon'); [|exact Hin].
    rewrite validate_icons_eq. cbn [icons_seen]. intros i Hi.
    apply in_map_iff in Hi. destruct Hi as (i' & <- & Hi').
    rewrite derive_src_density. now apply Hdens.
Qed.

Lemma updateIcons_maps_every_legacy_icon_witness :
  handed_over (fst (updateIcons [legacy_icon "hdpi" "art/H.PNG"; default_legacy_icon "d.9.png"]
                                "/project" res_dir ["mipmap-hdpi"; "mipmap-mdpi"]%string
                                empty_world))
              "platforms/android/app/src/main/res/mipmap-hdpi/ic_launcher.png"
  = Some (Some (Some "art/H.PNG"%string))
  /\ handed_over (fst (updateIcons [legacy_icon "hdpi" "art/H.PNG";
                                    default_legacy_icon "d.9.png"]
                                   "/project" res_dir ["mipmap-hdpi"; "mipmap-mdpi"]%string
                                   empty_world))
                 "platforms/android/app/src/main/res/mipmap-mdpi/ic_launcher.9.png"
     = Some (Some (Some "d.9.png"%string)).
Proof.
  assert (Hrun : updateIcons [legacy_icon "hdpi" "art/H.PNG"; default_legacy_icon "d.9.png"]
                             "/project" res_dir ["mipmap-hdpi"; "mipmap-mdpi"]%string
                             empty_world
                 = (fst (updateIcons [legacy_icon "hdpi" "art/H.PNG";
                                      default_legacy_icon "d.9.png"]
                                     "/project" res_dir ["mipmap-hdpi"; "mipmap-mdpi"]%string
                                     empty_world), Ok tt))
    by (vm_compute; reflexivity).
  assert (Hdens : forall icon,
             In icon [legacy_icon "hdpi" "art/H.PNG"; default_legacy_icon "d.9.png"] ->
             no_slash (str (density icon)) = true)
    by (intros icon [<-|[<-|[]]]; reflexivity).
  split.
  - apply (updateIcons_maps_every_legacy_icon _ _ _ _ _ _ Hrun Hdens "hdpi"
             (legacy_icon "hdpi" "art/H.PNG")).
    left. vm_compute. left. reflexivity.
  - apply (updateIcons_maps_every_legacy_icon _ _ _ _ _ _ Hrun Hdens "mdpi"
             (default_legacy_icon "d.9.png")).
    right. repeat split; reflexivity.
Defined.

(** ** [default_versionCode] *)

Lemma split_on_lacks c s : lacks c s = true -> split_on c s = [s].
Proof.
  induction s as [|x s IH]; [reflexivity|]. cbn [lacks split_on]. intros H.
  apply andb_true_iff in H. destruct H as [Hx Hs]. apply negb_true_iff in Hx.
  now rewrite Hx, (IH Hs).
Qed.

(** X6.  What follows the first [-] of a version plays no part in the
    version code: a version and the same version with a pre-release or
    build suffix get the same code. *)
Theorem default_versionCode_ignores_suffix version suffix :
  lacks "-" version = true ->
  default_versionCode (version +:+ "-" +:+ suffix) = default_versionCode version.
Proof.
  intros H. unfold default_versionCode.
  change (version +:+ "-" +:+ suffix) with (version +:+ String "-" suffix).
  rewrite split_on_app, (split_on_lacks _ _ H). reflexivity.
Qed.

Lemma default_versionCode_ignores_suffix_witness :
  default_versionCode "2.3.4-beta.1" = default_versionCode "2.3.4"
  /\ default_versionCode "2.3.4" = Some 20304.
Proof.
  split; [|reflexivity].
  exact (default_versionCode_ignores_suffix "2.3.4" "beta.1" eq_refl).
Defined.

Lemma nth_error_firstn_lt {A} (l : list A) n i :
  (i < n)%nat -> nth_error (firstn n l) i = nth_error l i.
Proof.
  revert l i. induction n as [|n IH]; intros l i Hi; [lia|].
  destruct l as [|x l]; [reflexivity|]. destruct i as [|i]; [reflexivity|].
  cbn [firstn nth_error]. apply IH. lia.
Qed.

(** X7.  Only the first three components count: two versions whose parts
    before [-] agree on their first three dot-separated components get the
    same code, whatever components follow. *)
Theorem default_versionCode_first_three v1 v2 :
  firstn 3 (version_numbers v1) = firstn 3 (version_numbers v2) ->
  default_versionCode v1 = default_versionCode v2.
Proof.
  intros H. unfold default_versionCode. fold (version_numbers v1) (version_numbers v2).
  rewrite <- !(nth_error_firstn_lt (version_numbers v1) 3) by lia.
  rewrite <- !(nth_error_firstn_lt (version_numbers v2) 3) by lia.
  now rewrite H.
Qed.

Lemma default_versionCode_first_three_witness :
  default_versionCode "1.2.3.4" = default_versionCode "1.2.3".
Proof. exact (default_versionCode_first_three "1.2.3.4" "1.2.3" eq_refl). Defined.

Lemma add_component_counted code nums i weight z :
  counted_component nums i = Some z ->
  0 <= code -> 1 <= weight -> code + z * weight <= MAX_SAFE_INTEGER ->
  add_component (Some code) (nth_error nums i) weight = Some (code + z * weight)
  /\ 0 <= z.
Proof.
  unfold counted_component, add_component, to_number. intros Hc Hcode Hw Hmax.
  destruct (nth_error nums i) as [s|].
  - destruct (JsObj.digits_value 0%N s) as [n|].
    + injection Hc as <-. assert (Hn : 0 <= Z.of_N n) by lia. split; [|exact Hn].
      assert (Hz : Z.of_N n <= MAX_SAFE_INTEGER) by nia.
      apply Z.leb_le in Hz. rewrite Hz.
      destruct (Z.of_N n =? 0) eqn:E.
      * apply Z.eqb_eq in E. rewrite E. f_equal. lia.
      * apply Z.leb_le in Hmax. now rewrite Hmax.
    + destruct (begins_no_number s || digits_then_no_number s); [|discriminate].
      injection Hc as <-. split; [f_equal; lia|lia].
  - injection Hc as <-. split; [f_equal; lia|lia].
Qed.

Lemma default_versionCode_counted version major minor patch :
  counted_component (version_numbers version) 0 = Some major ->
  counted_component (version_numbers version) 1 = Some minor ->
  counted_component (version_numbers version) 2 = Some patch ->
  major * 10000 + minor * 100 + patch <= MAX_SAFE_INTEGER ->
  0 <= major /\ 0 <= minor /\ 0 <= patch ->
  default_versionCode version = Some (major * 10000 + minor * 100 + patch).
Proof.
  intros H0 H1 H2 Hmax (P0 & P1 & P2).
  unfold default_versionCode. fold (version_numbers version).
  destruct (add_component_counted 0 _ _ 10000 _ H0) as [-> _]; [lia..|].
  destruct (add_component_counted (0 + major * 10000) _ _ 100 _ H1) as [-> _]; [lia..|].
  destruct (add_component_counted (0 + major * 10000 + minor * 100) _ _ 1 _ H2) as [-> _];
    [lia..|].
  f_equal. lia.
Qed.

Lemma counted_component_nonneg nums i z : counted_component nums i = Some z -> 0 <= z.
Proof.
  unfold counted_component. destruct (nth_error nums i) as [s|]; [|intros [= <-]; lia].
  destruct (JsObj.digits_value 0%N s); [intros [= <-]; lia|].
  destruct (begins_no_number s || digits_then_no_number s);
    [intros [= <-]; lia|discriminate].
Qed.

(** X8.  A component that is no number counts for nothing and raises no
    error.  When each of the first three components is written in decimal
    digits, or is missing, or starts with a visible character that cannot
    begin a number (a letter other than [I], a sign other than [+], [-]
    and [.]), or has its leading digits followed by a visible character
    that cannot go on one (anything but a digit, [.], [e], [E], [x], [o]
    and [b]), the code is major * 10000 + minor * 100 + patch, with 0 for
    every component of the last three kinds: the build metadata of
    [1.2.3+build5] makes the patch number count for nothing. *)
Theorem default_versionCode_skips_NaN version major minor patch :
  counted_component (version_numbers version) 0 = Some major ->
  counted_component (version_numbers version) 1 = Some minor ->
  counted_component (version_numbers version) 2 = Some patch ->
  major * 10000 + minor * 100 + patch <= MAX_SAFE_INTEGER ->
  default_versionCode version = Some (major * 10000 + minor * 100 + patch).
Proof.
  intros H0 H1 H2 Hmax. apply default_versionCode_counted; try assumption.
  repeat split; eapply counted_component_nonneg; eassumption.
Qed.

Lemma default_versionCode_skips_NaN_witness :
  default_versionCode "1.x.3" = Some 10003
  /\ default_versionCode "dev" = Some 0
  /\ default_versionCode "1.2.3+build5" = Some 10200
  /\ default_versionCode "2.0rc1" = Some 20000.
Proof.
  split; [|split; [|split]].
  - exact (default_versionCode_skips_NaN "1.x.3" 1 0 3 eq_refl eq_refl eq_refl
             ltac:(vm_compute; discriminate)).
  - exact (default_versionCode_skips_NaN "dev" 0 0 0 eq_refl eq_refl eq_refl
             ltac:(vm_compute; discriminate)).
  - exact (default_versionCode_skips_NaN "1.2.3+build5" 1 2 0 eq_refl eq_refl eq_refl
             ltac:(vm_compute; discriminate)).
  - exact (default_versionCode_skips_NaN "2.0rc1" 2 0 0 eq_refl eq_refl eq_refl
             ltac:(vm_compute; discriminate)).
Defined.

(** X9.  The weights overlap: a minor component of 100 or more runs into
    the major one.  Two versions whose components are (major, minor + 100,
    patch) and (major + 1, minor, patch) get the same code, so the code
    does not tell such versions apart. *)
Theorem default_versionCode_overlap v1 v2 major minor patch :
  counted_component (version_numbers v1) 0 = Some major ->
  counted_component (version_numbers v1) 1 = Some (minor + 100) ->
  counted_component (version_numbers v1) 2 = Some patch ->
  counted_component (version_numbers v2) 0 = Some (major + 1) ->
  counted_component (version_numbers v2) 1 = Some minor ->
  counted_component (version_numbers v2) 2 = Some patch ->
  0 <= minor ->
  (major + 1) * 10000 + minor * 100 + patch <= MAX_SAFE_INTEGER ->
  default_versionCode v1 = default_versionCode v2
  /\ default_versionCode v2 = Some ((major + 1) * 10000 + minor * 100 + patch).
Proof.
  intros A0 A1 A2 B0 B1 B2 Hm Hmax.
  pose proof (counted_component_nonneg _ _ _ A0).
  pose proof (counted_component_nonneg _ _ _ A2).
  rewrite (default_versionCode_counted v1 major (minor + 100) patch) by (auto; lia).
  rewrite (default_versionCode_counted v2 (major + 1) minor patch) by (auto; lia).
  split; f_equal; lia.
Qed.

Lemma default_versionCode_overlap_witness :
  default_versionCode "1.100.0" = default_versionCode "2.0.0"
  /\ default_versionCode "2.0.0" = Some 20000.
Proof.
  exact (default_versionCode_overlap "1.100.0" "2.0.0" 1 0 0
           eq_refl eq_refl eq_refl eq_refl eq_refl eq_refl
           ltac:(lia) ltac:(vm_compute; discriminate)).
Defined.

(** ** [updateProjectTheme]: a themes file without the style *)

Lemma splash_style_missing themes_doc :
  splash_style themes_doc = None ->
  find_child "style" "Theme.App.SplashScreen" themes_doc = None.
Proof.
  unfold splash_style, find_child. intros H.
  destruct (find_index _ _) as [i|] eqn:Hf; [|reflexivity].
  destruct (find_index_lookup _ _ _ Hf) as (x & Hx & _).
  rewrite (find_index_find _ _ _ Hf), Hx in H. discriminate.
Qed.

(** X10.  On a themes document that has no [Theme.App.SplashScreen]
    style, [updateProjectTheme] throws a [TypeError] (it looks for an item
    in the style it did not find) right after the edge-to-edge diagnostic:
    no file is written, and nothing else is emitted. *)
Theorem updateProjectTheme_without_style getPreference require_resolve loc w themes_doc :
  xml_at w (themes loc) = Some themes_doc ->
  splash_style themes_doc = None ->
  updateProjectTheme getPreference require_resolve loc w
  = (emitted w (edge_to_edge_diagnostic (getPreference "AndroidEdgeToEdge"%string)),
     Throw TypeError).
Proof.
  intros Hdoc Hstyle. apply xml_at_files in Hdoc. unfold updateProjectTheme.
  assert (Hparse : parseElementtreeSync (themes loc) w = (w, Ok themes_doc))
    by (unfold parseElementtreeSync; now rewrite Hdoc).
  rewrite (bind_ok _ _ _ _ _ Hparse), (splash_style_missing _ Hstyle).
  now rewrite (bind_ok _ _ _ _ _ (resolve_hasE2E_run _ _)).
Qed.

Lemma updateProjectTheme_without_style_witness :
  updateProjectTheme (only_edge_to_edge "yes") sample_resolve sample_locations
    (mkWorld (<["res/values/cdv_themes.xml"%string
                := Xml (Element "resources" [] None [])]> ∅) [] [])
  = (mkWorld (<["res/values/cdv_themes.xml"%string
                := Xml (Element "resources" [] None [])]> ∅)
             [Emit verbose EdgeToEdgeInvalid] [],
     Throw TypeError).
Proof.
  exact (updateProjectTheme_without_style (only_edge_to_edge "yes") sample_resolve
           sample_locations
           (mkWorld (<["res/values/cdv_themes.xml"%string
                       := Xml (Element "resources" [] None [])]> ∅) [] [])
           (Element "resources" [] None []) eq_refl eq_refl).
Defined.

(** ** [updateProjectTheme]: the items it sets *)

Lemma find_snoc_new {A} (p : A -> bool) l x :
  find_index p l = None -> p x = true -> List.find p (l ++ [x]) = Some x.
Proof.
  intros Hf Hp. induction l as [|y l IH]; cbn [app List.find]; [now rewrite Hp|].
  cbn [find_index] in Hf. destruct (p y); [discriminate|].
  apply IH. now destruct (find_index p l).
Qed.

Lemma item_text_find_child key parent :
  item_text key parent = None <-> find_child "item" key parent = None.
Proof.
  unfold item_text, find_child. split; intros H.
  - destruct (find_index _ _) as [i|] eqn:Hf; [|reflexivity].
    destruct (find_index_lookup _ _ _ Hf) as (x & Hx & _).
    rewrite (find_index_find _ _ _ Hf), Hx in H. discriminate.
  - now rewrite (find_index_find_none _ _ H).
Qed.

Lemma named_makeelement_self tagName key attrib :
  JsObj.get attrib "name" = Some key -> named tagName key (makeelement tagName attrib) = true.
Proof.
  intros Ha. unfold named, makeelement. cbn [tag_of attrib_of].
  now rewrite Ha, !String.eqb_refl.
Qed.

(** With a value: the item of [key] carries [value]; the root's
    attributes change only when the item had to be created. *)
Lemma set_or_remove_theme_item_set key attrib value prefValue tools st :
  JsObj.get attrib "name" = Some key ->
  truthy prefValue = true ->
  item_text key (splashScreenTheme (set_or_remove_theme_item key attrib value prefValue tools st))
  = Some (Some value)
  /\ root_attrib (set_or_remove_theme_item key attrib value prefValue tools st)
     = match item_text key (splashScreenTheme st) with
       | Some _ => root_attrib st
       | None =>
           if tools
           then JsObj.set (root_attrib st) "xmlns:tools" "http://schemas.android.com/tools"
           else root_attrib st
       end.
Proof.
  intros Ha Hp. unfold set_or_remove_theme_item. rewrite Hp. cbn [negb].
  destruct (find_child "item" key (splashScreenTheme st)) as [i|] eqn:Hf.
  - destruct (found_child _ _ _ _ Hf) as (x & Hx & Hn). cbn [splashScreenTheme root_attrib].
    split.
    + unfold item_text, set_child_text. rewrite children_of_set_children.
      rewrite (find_update_found _ _ _ i x Hf Hx) by now rewrite named_set_text.
      now destruct x.
    + destruct (item_text key (splashScreenTheme st)) eqn:Hi; [reflexivity|].
      apply item_text_find_child in Hi. congruence.
  - cbn [splashScreenTheme root_attrib]. split.
    + unfold item_text, set_child_text, append_child.
      rewrite !children_of_set_children, update_nth_snoc.
      rewrite find_snoc_new; [reflexivity|exact Hf|].
      rewrite named_set_text. now apply named_makeelement_self.
    + apply item_text_find_child in Hf. now rewrite Hf.
Qed.

(** Without a value: an item found is removed, and with it the
    [xmlns:tools] attribute when [tools] says so; when there is none,
    nothing changes. *)
Lemma set_or_remove_theme_item_unset key attrib value prefValue tools st :
  truthy prefValue = false ->
  match item_text key (splashScreenTheme st) with
  | Some _ =>
      root_attrib (set_or_remove_theme_item key attrib value prefValue tools st)
      = (if tools then JsObj.delete (root_attrib st) "xmlns:tools" else root_attrib st)
      /\ count_named "item" key
           (splashScreenTheme (set_or_remove_theme_item key attrib value prefValue tools st))
         = pred (count_named "item" key (splashScreenTheme st))
  | None => set_or_remove_theme_item key attrib value prefValue tools st = st
  end.
Proof.
  intros Hp. unfold set_or_remove_theme_item. rewrite Hp. cbn [negb].
  destruct (find_child "item" key (splashScreenTheme st)) as [i|] eqn:Hf.
  - destruct (item_text key (splashScreenTheme st)) eqn:Hi.
    + cbn [root_attrib splashScreenTheme]. split; [reflexivity|].
      now apply count_named_remove_found.
    + apply item_text_find_child in Hi. congruence.
  - apply item_text_find_child in Hf. now rewrite Hf.
Qed.

Lemma set_or_remove_theme_item_root key attrib value prefValue st :
  root_attrib (set_or_remove_theme_item key attrib value prefValue false st) = root_attrib st.
Proof.
  unfold set_or_remove_theme_item.
  destruct (find_child "item" key (splashScreenTheme st)); destruct (truthy prefValue);
    reflexivity.
Qed.

Lemma theme_final_items getPreference themes_doc style st :
  theme_final_state getPreference themes_doc style = Some st ->
  item_text "windowSplashScreenBackground" (splashScreenTheme st)
  = Some (Some (resolve_splashBg getPreference))
  /\ item_text "windowSplashScreenAnimationDuration" (splashScreenTheme st)
     = Some (Some (str (js_or (getPreference "AndroidWindowSplashScreenAnimationDuration"%string)
                              (Some "200"%string))))
  /\ item_text "postSplashScreenTheme" (splashScreenTheme st)
     = Some (Some (str (js_or (getPreference "AndroidPostSplashScreenTheme"%string)
                              (Some "@style/Theme.Cordova.App.DayNight"%string))))
  /\ (truthy (getPreference "AndroidWindowSplashScreenBrandingImage"%string) = true ->
      item_text branding_key (splashScreenTheme st)
      = Some (Some "@drawable/ic_cdv_splashscreen_branding"%string)
      /\ root_attrib st
         = match item_text branding_key style with
           | Some _ => attrib_of themes_doc
           | None => JsObj.set (attrib_of themes_doc) "xmlns:tools"
                               "http://schemas.android.com/tools"
           end)
  /\ (truthy (getPreference "AndroidWindowSplashScreenBrandingImage"%string) = false ->
      match item_text branding_key style with
      | Some _ =>
          root_attrib st = JsObj.delete (attrib_of themes_doc) "xmlns:tools"
          /\ count_named "item" branding_key (splashScreenTheme st)
             = pred (count_named "item" branding_key style)
      | None =>
          root_attrib st = attrib_of themes_doc
          /\ item_text branding_key (splashScreenTheme st) = None
      end).
Proof.
  unfold theme_final_state.
  destruct (set_item_text optOutE2EKey _ _) as [st1|] eqn:H1; [|discriminate].
  destruct (set_item_text "windowSplashScreenBackground" _ st1) as [st2|] eqn:H2;
    [|discriminate].
  unfold theme_rounds_state.
  destruct (set_item_text "windowSplashScreenAnimationDuration" _ st2) as [st3|] eqn:H3;
    [|discriminate].
  intros H6.
  destruct (set_item_text_effect _ _ _ _ H1) as (R1 & _ & C1 & _ & T1).
  destruct (set_item_text_effect _ _ _ _ H2) as (R2 & _ & C2 & S2 & T2).
  destruct (set_item_text_effect _ _ _ _ H3) as (R3 & _ & C3 & S3 & T3).
  destruct (set_item_text_effect _ _ _ _ H6) as (R6 & _ & C6 & S6 & T6).
  cbn [root_attrib splashScreenTheme] in *.
  match type of H6 with
  | set_item_text _ _ (set_or_remove_theme_item ?k5 ?a5 ?v5 ?p5 ?t5 ?st4) = _ =>
      destruct (set_or_remove_theme_item_effect k5 a5 v5 p5 t5 st4 eq_refl)
        as (_ & C5 & T5 & _);
      pose proof (set_or_remove_theme_item_root k5 a5 v5 p5 st4) as R5
  end.
  match type of R5 with
  | _ = root_attrib (set_or_remove_theme_item ?k4 ?a4 ?v4 ?p4 ?t4 st3) =>
      destruct (set_or_remove_theme_item_effect k4 a4 v4 p4 t4 st3 eq_refl)
        as (_ & C4 & T4 & _);
      pose proof (set_or_remove_theme_item_set k4 a4 v4 p4 t4 st3 eq_refl) as Hset;
      pose proof (set_or_remove_theme_item_unset k4 a4 v4 p4 t4 st3) as Hunset
  end.
  assert (Hb : item_text branding_key (splashScreenTheme st3) = item_text branding_key style).
  { rewrite T3, T2, T1 by discriminate. reflexivity. }
  assert (Hc : count_named "item" branding_key (splashScreenTheme st3)
               = count_named "item" branding_key style).
  { now rewrite C3, C2, C1. }
  assert (Hr : root_attrib st3 = attrib_of themes_doc) by now rewrite R3, R2, R1.
  unfold branding_key in *.
  split; [|split; [|split; [|split]]].
  - rewrite T6, T5, T4, T3 by discriminate. exact S2.
  - rewrite T6, T5, T4 by discriminate. exact S3.
  - exact S6.
  - intros Hp. destruct (Hset Hp) as [Hi Ha]. split.
    + rewrite T6, T5 by discriminate. exact Hi.
    + rewrite R6, R5, Ha. now rewrite Hb, Hr.
  - intros Hp. specialize (Hunset Hp). rewrite Hb in Hunset.
    destruct (item_text "android:windowSplashScreenBrandingImage" style).
    + destruct Hunset as [Ha Hn]. split.
      * now rewrite R6, R5, Ha, Hr.
      * rewrite C6, C5 by discriminate. now rewrite Hn, Hc.
    + rewrite R6, R5, Hunset, Hr. split; [reflexivity|].
      rewrite T6, T5 by discriminate. now rewrite Hunset, Hb.
Qed.

Lemma js_or_first_set a fallback : str (js_or a (Some fallback)) = first_set [a] fallback.
Proof. unfold js_or. cbn [first_set]. now destruct (truthy a). Qed.

Lemma resolve_splashBg_first_set getPreference :
  resolve_splashBg getPreference
  = first_set [getPreference "AndroidWindowSplashScreenBackground"%string;
               getPreference "SplashScreenBackgroundColor"%string;
               getPreference "BackgroundColor"%string]
              "@color/cdv_splashscreen_background".
Proof.
  unfold resolve_splashBg, js_or. cbn [first_set].
  destruct (truthy (getPreference "AndroidWindowSplashScreenBackground"%string)) eqn:A;
    destruct (truthy (getPreference "SplashScreenBackgroundColor"%string)) eqn:B;
    destruct (truthy (getPreference "BackgroundColor"%string)) eqn:C;
    repeat (cbv iota; rewrite ?A, ?B, ?C); reflexivity.
Qed.

Lemma attrib_of_themes_document themes_doc si st :
  attrib_of (themes_document themes_doc si st) = root_attrib st.
Proof. unfold themes_document. now destruct themes_doc. Qed.

(** The run of [updateProjectTheme] on a project that is ready, with the
    state it ends in. *)
Lemma updateProjectTheme_ready_run getPreference require_resolve loc w themes_doc style :
  theme_ready require_resolve loc w themes_doc style ->
  exists w' si st,
    updateProjectTheme getPreference require_resolve loc w = (w', Ok tt)
    /\ theme_final_state getPreference themes_doc style = Some st
    /\ xml_at w' (themes loc) = Some (themes_document themes_doc si st)
    /\ splash_style (themes_document themes_doc si st) = Some (splashScreenTheme st).
Proof.
  intros Hready.
  destruct (updateProjectTheme_completes getPreference _ _ _ _ _ Hready) as (w' & Hrun).
  destruct Hready as (Hdoc & Hstyle & _).
  destruct (updateProjectTheme_trace _ _ _ _ _ Hrun)
    as (doc0 & si & style0 & st & Hdoc0 & Hsi & Hstyle0 & Hst & Hw').
  assert (doc0 = themes_doc) by congruence. subst doc0.
  assert (style0 = style) by (eapply splash_style_index; eassumption). subst style0.
  destruct (theme_final_state_effect _ _ _ _ Hst) as (N & _ & _).
  exists w', si, st. split; [exact Hrun|]. split; [exact Hst|]. split; [exact Hw'|].
  now apply (splash_style_written _ _ style).
Qed.

(** X11.  On a project that is ready, [updateProjectTheme] completes and
    the style it writes has: as [windowSplashScreenBackground] the first
    that is set of the preferences [AndroidWindowSplashScreenBackground],
    [SplashScreenBackgroundColor] and [BackgroundColor], else the default
    colour resource; as [windowSplashScreenAnimationDuration] the
    preference or [200]; as [postSplashScreenTheme] the preference or the
    day-night theme. *)
Theorem updateProjectTheme_item_values getPreference require_resolve loc w themes_doc style :
  theme_ready require_resolve loc w themes_doc style ->
  exists w' themes_doc' style',
    updateProjectTheme getPreference require_resolve loc w = (w', Ok tt)
    /\ xml_at w' (themes loc) = Some themes_doc'
    /\ splash_style themes_doc' = Some style'
    /\ item_text "windowSplashScreenBackground" style'
       = Some (Some (first_set
                       [getPreference "AndroidWindowSplashScreenBackground"%string;
                        getPreference "SplashScreenBackgroundColor"%string;
                        getPreference "BackgroundColor"%string]
                       "@color/cdv_splashscreen_background"))
    /\ item_text "windowSplashScreenAnimationDuration" style'
       = Some (Some (first_set
                       [getPreference "AndroidWindowSplashScreenAnimationDuration"%string]
                       "200"))
    /\ item_text "postSplashScreenTheme" style'
       = Some (Some (first_set [getPreference "AndroidPostSplashScreenTheme"%string]
                               "@style/Theme.Cordova.App.DayNight")).
Proof.
  intros Hready.
  destruct (updateProjectTheme_ready_run getPreference _ _ _ _ _ Hready)
    as (w' & si & st & Hrun & Hst & Hw' & Hs).
  destruct (theme_final_items _ _ _ _ Hst) as (B & D & P & _).
  exists w', (themes_document themes_doc si st), (splashScreenTheme st).
  rewrite <- resolve_splashBg_first_set, <- !js_or_first_set. auto 10.
Qed.

Lemma updateProjectTheme_item_values_witness :
  exists w' themes_doc' style',
    updateProjectTheme (only_preference "BackgroundColor" "#102030") sample_resolve
      sample_locations (sample_world sample_colors) = (w', Ok tt)
    /\ xml_at w' (themes sample_locations) = Some themes_doc'
    /\ splash_style themes_doc' = Some style'
    /\ item_text "windowSplashScreenBackground" style' = Some (Some "#102030"%string)
    /\ item_text "windowSplashScreenAnimationDuration" style' = Some (Some "200"%string)
    /\ item_text "postSplashScreenTheme" style'
       = Some (Some "@style/Theme.Cordova.App.DayNight"%string).
Proof.
  apply (updateProjectTheme_item_values (only_preference "BackgroundColor" "#102030")
           sample_resolve sample_locations (sample_world sample_colors)
           sample_themes sample_splash_style).
  repeat split; vm_compute; reflexivity.
Defined.

(** X12.  On a project that is ready, [updateProjectTheme] completes and
    treats the branding image so.  With the preference set, the style has
    the item [android:windowSplashScreenBrandingImage] referring to the
    branding drawable, and the root gains the [xmlns:tools] attribute only
    when the item had to be created.  With the preference unset, an item
    that was there is removed and the root loses [xmlns:tools]; when there
    was none, the root keeps its attributes. *)
Theorem updateProjectTheme_branding_item getPreference require_resolve loc w themes_doc style :
  theme_ready require_resolve loc w themes_doc style ->
  exists w' themes_doc' style',
    updateProjectTheme getPreference require_resolve loc w = (w', Ok tt)
    /\ xml_at w' (themes loc) = Some themes_doc'
    /\ splash_style themes_doc' = Some style'
    /\ (truthy (getPreference "AndroidWindowSplashScreenBrandingImage"%string) = true ->
        item_text branding_key style'
        = Some (Some "@drawable/ic_cdv_splashscreen_branding"%string)
        /\ attrib_of themes_doc'
           = match item_text branding_key style with
             | Some _ => attrib_of themes_doc
             | None => JsObj.set (attrib_of themes_doc) "xmlns:tools"
                                 "http://schemas.android.com/tools"
             end)
    /\ (truthy (getPreference "AndroidWindowSplashScreenBrandingImage"%string) = false ->
        match item_text branding_key style with
        | Some _ =>
            attrib_of themes_doc' = JsObj.delete (attrib_of themes_doc) "xmlns:tools"
            /\ count_named "item" branding_key style'
               = pred (count_named "item" branding_key style)
        | None =>
            attrib_of themes_doc' = attrib_of themes_doc
            /\ item_text branding_key style' = None
        end).
Proof.
  intros Hready.
  destruct (updateProjectTheme_ready_run getPreference _ _ _ _ _ Hready)
    as (w' & si & st & Hrun & Hst & Hw' & Hs).
  destruct (theme_final_items _ _ _ _ Hst) as (_ & _ & _ & Hset & Hunset).
  exists w', (themes_document themes_doc si st), (splashScreenTheme st).
  rewrite attrib_of_themes_document. auto 10.
Qed.

Lemma updateProjectTheme_branding_item_witness :
  exists w' themes_doc' style',
    updateProjectTheme (only_preference "AndroidWindowSplashScreenBrandingImage" "brand.png")
      sample_resolve sample_locations (sample_world sample_colors) = (w', Ok tt)
    /\ xml_at w' (themes sample_locations) = Some themes_doc'
    /\ splash_style themes_doc' = Some style'
    /\ item_text branding_key style'
       = Some (Some "@drawable/ic_cdv_splashscreen_branding"%string)
    /\ JsObj.get (attrib_of themes_doc') "xmlns:tools"
       = Some "http://schemas.android.com/tools"%string.
Proof.
  destruct (updateProjectTheme_branding_item
              (only_preference "AndroidWindowSplashScreenBrandingImage" "brand.png")
              sample_resolve sample_locations (sample_world sample_colors)
              sample_themes sample_splash_style)
    as (w' & themes_doc' & style' & Hrun & Hdoc & Hstyle & Hset & _).
  { repeat split; vm_compute; reflexivity. }
  destruct (Hset eq_refl) as [Hitem Hattrib].
  exists w', themes_doc', style'. rewrite Hattrib. auto.
Defined.

(** ** [updateProjectSplashScreenIconBackgroundColor] *)

Lemma find_index_update {A} (p : A -> bool) (f : A -> A) l i :
  (forall x, p (f x) = p x) -> find_index p (update_nth i f l) = find_index p l.
Proof.
  intros Hf. revert i. induction l as [|y l IH]; intros [|i]; cbn [update_nth find_index];
    try reflexivity.
  - now rewrite Hf.
  - now rewrite IH.
Qed.

Lemma find_index_snoc_new {A} (p : A -> bool) l x :
  find_index p l = None -> p x = true -> find_index p (l ++ [x]) = Some (length l).
Proof.
  intros Hn Hp. induction l as [|y l IH]; cbn [app find_index length]; [now rewrite Hp|].
  cbn [find_index] in Hn. destruct (p y); [discriminate|].
  destruct (find_index p l); [discriminate|]. now rewrite IH.
Qed.

Lemma update_nth_twice {A} (f : A -> A) l i :
  (forall x, f (f x) = f x) -> update_nth i f (update_nth i f l) = update_nth i f l.
Proof.
  intros Hf. revert i. induction l as [|y l IH]; intros [|i]; cbn [update_nth];
    try reflexivity.
  - now rewrite Hf.
  - now rewrite IH.
Qed.

Lemma find_index_filter_nil {A} (p : A -> bool) l :
  List.filter p l = [] -> find_index p l = None.
Proof.
  induction l as [|y l IH]; [reflexivity|]. cbn [List.filter find_index].
  destruct (p y); [discriminate|]. intros H. now rewrite IH.
Qed.

Lemma set_icon_background_color_twice color doc :
  truthy color = true \/ (count_named "color" icon_background_name doc <= 1)%nat ->
  set_icon_background_color color (set_icon_background_color color doc)
  = set_icon_background_color color doc.
Proof.
  intros Hcase. destruct doc as [t a x c].
  unfold set_icon_background_color at 2 3. fold icon_background_name.
  destruct (find_child "color" icon_background_name (Element t a x c)) as [i|] eqn:Hf;
    destruct (truthy color) eqn:Hc; cbn [negb].
  - unfold set_icon_background_color, find_child, set_child_text.
    cbn [children_of set_children]. fold icon_background_name.
    rewrite find_index_update by (intros; apply named_set_text).
    unfold find_child in Hf. cbn [children_of] in Hf. rewrite Hf, Hc. cbn [negb].
    now rewrite update_nth_twice by (intros []; reflexivity).
  - destruct Hcase as [|Hn]; [discriminate|].
    assert (H0 : count_named "color" icon_background_name
                   (remove_child i (Element t a x c)) = 0%nat)
      by (rewrite count_named_remove_found by assumption; lia).
    unfold set_icon_background_color. fold icon_background_name.
    unfold count_named in H0. apply length_zero_iff_nil, find_index_filter_nil in H0.
    unfold find_child. now rewrite H0, Hc.
  - unfold set_icon_background_color, find_child, set_child_text, append_child.
    cbn [children_of set_children]. fold icon_background_name.
    unfold find_child in Hf. cbn [children_of] in Hf.
    rewrite update_nth_snoc, (find_index_snoc_new _ _ _ Hf), Hc; cbn [negb].
    + now rewrite update_nth_snoc.
    + rewrite named_set_text. now apply named_makeelement_self.
  - unfold set_icon_background_color. fold icon_background_name. now rewrite Hf, Hc.
Qed.

Lemma set_icon_background_color_text color doc :
  truthy color = true ->
  color_text icon_background_name (set_icon_background_color color doc)
  = Some (Some (escape_apostrophes (str color)))
  /\ forall name, name <> icon_background_name ->
       color_text name (set_icon_background_color color doc) = color_text name doc.
Proof.
  intros Hc. unfold set_icon_background_color. rewrite Hc. cbn [negb].
  fold icon_background_name.
  destruct (find_child "color" icon_background_name doc) as [i|] eqn:Hf.
  - destruct (found_child _ _ _ _ Hf) as (x & Hx & Hn).
    unfold color_text, set_child_text. rewrite children_of_set_children. split.
    + rewrite (find_update_found _ _ _ i x Hf Hx) by now rewrite named_set_text.
      now destruct x.
    + intros name Hne. erewrite find_update_other; [reflexivity|exact Hx| |].
      * now apply (named_other_name "color" name icon_background_name).
      * rewrite named_set_text. now apply (named_other_name "color" name icon_background_name).
  - unfold color_text, set_child_text, append_child.
    rewrite !children_of_set_children, update_nth_snoc. split.
    + rewrite find_snoc_new; [reflexivity|exact Hf|].
      rewrite named_set_text. now apply named_makeelement_self.
    + intros name Hne. rewrite find_snoc_other; [reflexivity|].
      rewrite named_set_text. now apply (named_makeelement "color" icon_background_name).
Qed.

(** X13.  With a colour given, [updateProjectSplashScreenIconBackgroundColor]
    leaves the colours file with a [cdv_splashscreen_icon_background] node
    whose text is the colour with every apostrophe escaped, creating the
    node when there was none; the other colours keep their text, and no
    other file is touched. *)
Theorem icon_background_color_written color loc w doc :
  xml_at w (colors loc) = Some doc ->
  truthy color = true ->
  exists w1 doc1,
    updateProjectSplashScreenIconBackgroundColor color loc w = (w1, Ok tt)
    /\ xml_at w1 (colors loc) = Some doc1
    /\ color_text icon_background_name doc1 = Some (Some (escape_apostrophes (str color)))
    /\ (forall name, name <> icon_background_name ->
                     color_text name doc1 = color_text name doc)
    /\ (forall p, p <> colors loc -> files w1 !! p = files w !! p).
Proof.
  intros Hdoc Hc. eexists _, _.
  split; [exact (updateProjectSplashScreenIconBackgroundColor_run _ _ _ _ Hdoc)|].
  split; [apply xml_at_written|].
  destruct (set_icon_background_color_text color doc Hc) as [Ht Ho].
  split; [exact Ht|]. split; [exact Ho|].
  intros p Hp. cbn [files]. apply lookup_insert_ne. congruence.
Qed.

Lemma icon_background_color_written_witness :
  exists w1 doc1,
    updateProjectSplashScreenIconBackgroundColor (Some "it's"%string) sample_locations
      (sample_world (Element "resources" [] None
                       [color_node "cdv_splashscreen_background" "#FFFFFF"]))
    = (w1, Ok tt)
    /\ xml_at w1 (colors sample_locations) = Some doc1
    /\ color_text icon_background_name doc1
       = Some (Some (String "i" (String "t" (String (ascii_of_nat 92) "'s"))))
    /\ color_text "cdv_splashscreen_background" doc1 = Some (Some "#FFFFFF"%string).
Proof.
  destruct (icon_background_color_written (Some "it's"%string) sample_locations
              (sample_world (Element "resources" [] None
                               [color_node "cdv_splashscreen_background" "#FFFFFF"]))
              (Element "resources" [] None
                 [color_node "cdv_splashscreen_background" "#FFFFFF"])
              eq_refl eq_refl) as (w1 & doc1 & Hrun & Hdoc & Ht & Ho & _).
  exists w1, doc1. repeat split; try assumption.
  now rewrite Ho.
Defined.

(** X14.  Setting the icon background colour twice is setting it once:
    with a colour given, or on a colours document holding at most one
    [cdv_splashscreen_icon_background] node, a second run of
    [updateProjectSplashScreenIconBackgroundColor] with the same
    preference writes the document the first run wrote. *)
Theorem icon_background_color_idempotent color loc w doc :
  xml_at w (colors loc) = Some doc ->
  truthy color = true \/ (count_named "color" icon_background_name doc <= 1)%nat ->
  exists w1 w2 doc1,
    updateProjectSplashScreenIconBackgroundColor color loc w = (w1, Ok tt)
    /\ updateProjectSplashScreenIconBackgroundColor color loc w1 = (w2, Ok tt)
    /\ xml_at w1 (colors loc) = Some doc1
    /\ xml_at w2 (colors loc) = Some doc1
    /\ files w2 = files w1.
Proof.
  intros Hdoc Hcase. eexists _, _, _.
  split; [exact (updateProjectSplashScreenIconBackgroundColor_run _ _ _ _ Hdoc)|].
  split; [apply updateProjectSplashScreenIconBackgroundColor_run, xml_at_written|].
  split; [apply xml_at_written|].
  rewrite (set_icon_background_color_twice color doc Hcase).
  split; [apply xml_at_written|]. cbn [files]. apply insert_insert_eq.
Qed.

Lemma icon_background_color_idempotent_witness :
  exists w1 w2 doc1,
    updateProjectSplashScreenIconBackgroundColor (Some "#00FF00"%string) sample_locations
      (sample_world sample_colors) = (w1, Ok tt)
    /\ updateProjectSplashScreenIconBackgroundColor (Some "#00FF00"%string) sample_locations w1
       = (w2, Ok tt)
    /\ xml_at w1 (colors sample_locations) = Some doc1
    /\ xml_at w2 (colors sample_locations) = Some doc1
    /\ files w2 = files w1.
Proof.
  apply (icon_background_color_idempotent (Some "#00FF00"%string) sample_locations
           (sample_world sample_colors) sample_colors eq_refl).
  left. reflexivity.
Defined.

(** ** The splash-screen images *)

Lemma world_eta w : mkWorld (files w) (events w) (updatePaths_calls w) = w.
Proof. now destruct w. Qed.

Lemma rm_if_exists_run (b : bool) path w :
  (if b && bool_decide (is_Some (files w !! path)) then rmSync path else ret tt) w
  = (mkWorld (if b then delete path (files w) else files w) (events w)
             (updatePaths_calls w), Ok tt).
Proof.
  destruct b; cbn [andb]; [|now rewrite world_eta].
  destruct (files w !! path) as [c|] eqn:E.
  - rewrite bool_decide_eq_true_2 by eauto. unfold rmSync. now rewrite E.
  - rewrite bool_decide_eq_false_2 by (intros [? ?]; discriminate).
    rewrite (delete_id _ _ E). now rewrite world_eta.
Qed.

Lemma cleanupAndSetProjectSplashScreenImage_effect srcFile dest prev cleanupOnly w :
  cleanupAndSetProjectSplashScreenImage srcFile dest prev cleanupOnly w
  = (mkWorld (cleaned_and_set srcFile dest prev cleanupOnly (files w)) (events w)
             (updatePaths_calls w), Ok tt).
Proof.
  unfold cleanupAndSetProjectSplashScreenImage, cleaned_and_set.
  rewrite (bind_ok (existsSync prev) _ w w _ eq_refl).
  pose proof (rm_if_exists_run true prev w) as H1. cbn [andb] in H1.
  rewrite (bind_ok _ _ _ _ _ H1).
  set (w1 := mkWorld (delete prev (files w)) (events w) (updatePaths_calls w)).
  rewrite (bind_ok (existsSync dest) _ w1 w1 _ eq_refl).
  rewrite (bind_ok _ _ _ _ _ (rm_if_exists_run cleanupOnly dest w1)).
  cbn [files events updatePaths_calls w1].
  set (fs2 := if cleanupOnly then _ else _).
  destruct (negb cleanupOnly && truthy srcFile); [|reflexivity].
  set (w2 := mkWorld fs2 _ _).
  rewrite (bind_ok (existsSync (str srcFile)) _ w2 w2 _ eq_refl).
  cbn [files w2]. destruct (fs2 !! str srcFile) as [c|] eqn:E.
  - rewrite bool_decide_eq_true_2 by eauto. unfold cpSync. cbn [files w2]. now rewrite E.
  - now rewrite bool_decide_eq_false_2 by (intros [? ?]; discriminate).
Qed.

Lemma cleaned_previous_gone srcFile dest prev cleanupOnly fs :
  dest <> prev -> cleaned_and_set srcFile dest prev cleanupOnly fs !! prev = None.
Proof.
  intros Hne. unfold cleaned_and_set.
  assert (H2 : (if cleanupOnly then delete dest (delete prev fs) else delete prev fs)
               !! prev = None).
  { destruct cleanupOnly; [rewrite lookup_delete_ne by exact Hne|]; apply lookup_delete_eq. }
  destruct (negb cleanupOnly && truthy srcFile); [|exact H2].
  destruct (_ !! str srcFile); [|exact H2].
  now rewrite lookup_insert_ne by exact Hne.
Qed.

Lemma splash_name_cases themeKey destFileName :
  SPLASH_SCREEN_IMAGE_BY_THEME_KEY themeKey = Some destFileName ->
  destFileName = "ic_cdv_splashscreen"%string
  \/ destFileName = "ic_cdv_splashscreen_branding"%string.
Proof.
  unfold SPLASH_SCREEN_IMAGE_BY_THEME_KEY.
  destruct (String.eqb themeKey _); [intros [= <-]; now left|].
  destruct (String.eqb themeKey _); [intros [= <-]; now right|discriminate].
Qed.

Lemma splash_variants_differ loc themeKey destFileName :
  SPLASH_SCREEN_IMAGE_BY_THEME_KEY themeKey = Some destFileName ->
  splash_png loc destFileName <> splash_xml loc destFileName.
Proof.
  intros Hk Heq. apply (f_equal Path.basename) in Heq. unfold splash_png, splash_xml in Heq.
  change (Path.join [?a; ?b]) with (Path.join ([a] ++ [b])) in Heq.
  destruct (splash_name_cases _ _ Hk) as [-> | ->];
    rewrite !basename_join in Heq by reflexivity; discriminate.
Qed.

Lemma default_drawable_run require_resolve themeKey destFileName w :
  (String.eqb themeKey "android:windowSplashScreenBrandingImage" = false ->
   template_found require_resolve destFileName = true) ->
  (if negb (String.eqb themeKey "android:windowSplashScreenBrandingImage") then
     match require_resolve ("cordova-android/templates/project/res/drawable/"
                            +:+ (destFileName +:+ ".xml")) with
     | Some p => ret (Some p)
     | None =>
         match require_resolve ("../templates/project/res/drawable/"
                                +:+ (destFileName +:+ ".xml")) with
         | Some p => ret (Some p)
         | None => throw (Error "MODULE_NOT_FOUND")
         end
     end
   else ret None) w
  = (w, Ok (default_drawable require_resolve themeKey destFileName)).
Proof.
  intros Ht. unfold default_drawable.
  destruct (String.eqb themeKey "android:windowSplashScreenBrandingImage");
    cbn [negb]; [reflexivity|].
  specialize (Ht eq_refl). unfold template_found in Ht.
  destruct (require_resolve _); [reflexivity|].
  destruct (require_resolve _); [reflexivity|discriminate].
Qed.

(** Every run of [updateProjectSplashScreenImage] that gets past the
    look-up of the default drawable ends in one clean-up-and-set between
    the two variants of the image. *)
Lemma updateProjectSplashScreenImage_shape require_resolve loc themeKey destFileName
    prefKey prefValue w :
  SPLASH_SCREEN_IMAGE_BY_THEME_KEY themeKey = Some destFileName ->
  (String.eqb themeKey "android:windowSplashScreenBrandingImage" = false ->
   template_found require_resolve destFileName = true) ->
  exists srcFile dest prev cleanupOnly evs,
    updateProjectSplashScreenImage require_resolve loc themeKey prefKey prefValue w
    = (mkWorld (cleaned_and_set srcFile dest prev cleanupOnly (files w))
               (events w ++ evs) (updatePaths_calls w), Ok tt)
    /\ ((dest = splash_xml loc destFileName /\ prev = splash_png loc destFileName)
        \/ (dest = splash_png loc destFileName /\ prev = splash_xml loc destFileName)).
Proof.
  intros Hk Ht. unfold updateProjectSplashScreenImage. rewrite Hk. cbv zeta.
  rewrite (bind_ok _ _ _ _ _ (default_drawable_run _ _ _ w Ht)).
  rewrite (bind_ok (existsSync _) _ w w _ eq_refl).
  fold (splash_xml loc destFileName) (splash_png loc destFileName).
  destruct (_ || _).
  - destruct (_ && _); rewrite (bind_ok _ _ _ _ _ (emit_run _ _ _));
      rewrite cleanupAndSetProjectSplashScreenImage_effect;
      eexists _, _, _, _, _; (split; [reflexivity|left; split; reflexivity]).
  - destruct (String.eqb _ ".png").
    + rewrite cleanupAndSetProjectSplashScreenImage_effect.
      eexists _, _, _, _, []. rewrite app_nil_r.
      split; [reflexivity|right; split; reflexivity].
    + destruct (String.eqb _ ".xml").
      * rewrite cleanupAndSetProjectSplashScreenImage_effect.
        eexists _, _, _, _, []. rewrite app_nil_r.
        split; [reflexivity|left; split; reflexivity].
      * rewrite (bind_ok _ _ _ _ _ (emit_run _ _ _)).
        rewrite cleanupAndSetProjectSplashScreenImage_effect.
        eexists _, _, _, _, _. split; [reflexivity|left; split; reflexivity].
Qed.

(** X15.  After [updateProjectSplashScreenImage] the two variants of a
    splash-screen image never exist side by side: whatever the preference,
    when the call returns at least one of [drawable-nodpi/<name>.png] and
    [drawable/<name>.xml] is absent; and it returns whenever the theme key
    is one of the two it knows and, for the animated icon, the default
    drawable is found. *)
Theorem splash_image_variants_exclusive require_resolve loc themeKey destFileName
    prefKey prefValue w :
  SPLASH_SCREEN_IMAGE_BY_THEME_KEY themeKey = Some destFileName ->
  (String.eqb themeKey "android:windowSplashScreenBrandingImage" = false ->
   template_found require_resolve destFileName = true) ->
  exists w',
    updateProjectSplashScreenImage require_resolve loc themeKey prefKey prefValue w
    = (w', Ok tt)
    /\ (files w' !! splash_png loc destFileName = None
        \/ files w' !! splash_xml loc destFileName = None).
Proof.
  intros Hk Ht.
  destruct (updateProjectSplashScreenImage_shape require_resolve loc themeKey destFileName
              prefKey prefValue w Hk Ht)
    as (srcFile & dest & prev & cleanupOnly & evs & Hrun & Hpaths).
  eexists. split; [exact Hrun|]. cbn [files].
  pose proof (splash_variants_differ loc themeKey destFileName Hk) as Hne.
  destruct Hpaths as [[-> ->]|[-> ->]].
  - left. apply cleaned_previous_gone. congruence.
  - right. now apply cleaned_previous_gone.
Qed.

Lemma splash_image_variants_exclusive_witness :
  exists w',
    updateProjectSplashScreenImage sample_resolve sample_locations
      "windowSplashScreenAnimatedIcon" "AndroidWindowSplashScreenAnimatedIcon" None
      world_with_old_picture
    = (w', Ok tt)
    /\ (files w' !! "res/drawable-nodpi/ic_cdv_splashscreen.png"%string = None
        \/ files w' !! "res/drawable/ic_cdv_splashscreen.xml"%string = None).
Proof.
  exact (splash_image_variants_exclusive sample_resolve sample_locations
           "windowSplashScreenAnimatedIcon" "ic_cdv_splashscreen"
           "AndroidWindowSplashScreenAnimatedIcon" None world_with_old_picture
           eq_refl (fun _ => eq_refl)).
Defined.

(** X16.  [updateProjectSplashScreenImage] fails in two ways only, and
    both before it touches anything: with a [CordovaError] for a theme key
    that names no image, and with the error of [require.resolve] when
    neither request for the default drawable of the animated icon
    resolves.  The world is then as it was: no file removed or copied, no
    event emitted. *)
Theorem splash_image_fails_untouched require_resolve loc themeKey prefKey prefValue w w' e :
  updateProjectSplashScreenImage require_resolve loc themeKey prefKey prefValue w
  = (w', Throw e) ->
  w' = w
  /\ ((SPLASH_SCREEN_IMAGE_BY_THEME_KEY themeKey = None
       /\ e = CordovaError (themeKey +:+ " is not valid for image detection."))
      \/ exists destFileName,
           SPLASH_SCREEN_IMAGE_BY_THEME_KEY themeKey = Some destFileName
           /\ String.eqb themeKey "android:windowSplashScreenBrandingImage" = false
           /\ template_found require_resolve destFileName = false
           /\ e = Error "MODULE_NOT_FOUND").
Proof.
  intros Hrun.
  destruct (SPLASH_SCREEN_IMAGE_BY_THEME_KEY themeKey) as [name|] eqn:Hk.
  - destruct (String.eqb themeKey "android:windowSplashScreenBrandingImage") eqn:Hb.
    + destruct (updateProjectSplashScreenImage_shape require_resolve loc themeKey name
                  prefKey prefValue w Hk)
        as (? & ? & ? & ? & ? & Hok & _); [rewrite Hb; discriminate|congruence].
    + destruct (template_found require_resolve name) eqn:Ht.
      * destruct (updateProjectSplashScreenImage_shape require_resolve loc themeKey name
                    prefKey prefValue w Hk (fun _ => Ht))
          as (? & ? & ? & ? & ? & Hok & _). congruence.
      * unfold updateProjectSplashScreenImage in Hrun. rewrite Hk, Hb in Hrun.
        cbv zeta in Hrun. cbn [negb] in Hrun.
        assert (Hnone : template_found require_resolve name = false) by exact Ht.
        clear Ht. revert Hnone. unfold template_found at 1. intros Ht.
        destruct (require_resolve ("cordova-android/templates/project/res/drawable/"
                                   +:+ (name +:+ ".xml"))) eqn:Ht1; [discriminate|].
        destruct (require_resolve ("../templates/project/res/drawable/"
                                   +:+ (name +:+ ".xml"))) eqn:Ht2; [discriminate|].
        unfold bind, throw in Hrun. injection Hrun as <- <-.
        split; [reflexivity|]. right. exists name.
        unfold template_found. rewrite Ht1, Ht2. auto.
  - unfold updateProjectSplashScreenImage in Hrun. rewrite Hk in Hrun.
    injection Hrun as <- <-. split; [reflexivity|]. left. auto.
Qed.

Lemma splash_image_fails_untouched_witness :
  updateProjectSplashScreenImage sample_resolve sample_locations
    "windowSplashScreenBackground" "AndroidWindowSplashScreenBackground"
    (Some "x.png"%string) (sample_world sample_colors)
  = (sample_world sample_colors,
     Throw (CordovaError "windowSplashScreenBackground is not valid for image detection."))
  /\ fst (updateProjectSplashScreenImage (fun _ => None) sample_locations
            "windowSplashScreenAnimatedIcon" "AndroidWindowSplashScreenAnimatedIcon"
            (Some "x.png"%string) (sample_world sample_colors))
     = sample_world sample_colors.
Proof.
  split; [reflexivity|].
  exact (proj1 (splash_image_fails_untouched (fun _ => None) sample_locations
                  "windowSplashScreenAnimatedIcon" "AndroidWindowSplashScreenAnimatedIcon"
                  (Some "x.png"%string) (sample_world sample_colors) _
                  (Error "MODULE_NOT_FOUND") eq_refl)).
Defined.

Lemma cleaned_and_set_copied v dest prev fs c :
  String.eqb v EmptyString = false ->
  dest <> prev -> v <> prev -> fs !! v = Some c ->
  cleaned_and_set (Some v) dest prev false fs !! dest = Some c
  /\ cleaned_and_set (Some v) dest prev false fs !! prev = None.
Proof.
  intros Hv0 Hne Hv Hc. split; [|now apply cleaned_previous_gone].
  unfold cleaned_and_set. cbn [negb andb truthy]. rewrite Hv0. cbn [negb].
  change (str (Some v)) with v. rewrite lookup_delete_ne by congruence.
  rewrite Hc. apply lookup_insert_eq.
Qed.

(** X17.  A preference that names an existing [.png] or [.xml] file
    (whatever the case of the extension) is copied to the variant of its
    own kind, and the other variant is removed: the image a project shows
    is the one the preference names.  (The file named must not be the
    variant that is removed.) *)
Theorem splash_image_preference_copied require_resolve loc themeKey destFileName
    prefKey v c w :
  SPLASH_SCREEN_IMAGE_BY_THEME_KEY themeKey = Some destFileName ->
  (String.eqb themeKey "android:windowSplashScreenBrandingImage" = false ->
   template_found require_resolve destFileName = true) ->
  String.eqb v EmptyString = false ->
  files w !! v = Some c ->
  exists w',
    updateProjectSplashScreenImage require_resolve loc themeKey prefKey (Some v) w
    = (w', Ok tt)
    /\ (toLowerCase (Path.extname v) = ".png"%string ->
        v <> splash_xml loc destFileName ->
        files w' !! splash_png loc destFileName = Some c
        /\ files w' !! splash_xml loc destFileName = None)
    /\ (toLowerCase (Path.extname v) = ".xml"%string ->
        v <> splash_png loc destFileName ->
        files w' !! splash_xml loc destFileName = Some c
        /\ files w' !! splash_png loc destFileName = None).
Proof.
  intros Hk Ht Hv Hc.
  pose proof (splash_variants_differ loc themeKey destFileName Hk) as Hne.
  unfold updateProjectSplashScreenImage. rewrite Hk. cbv zeta.
  rewrite (bind_ok _ _ _ _ _ (default_drawable_run _ _ _ w Ht)).
  rewrite (bind_ok (existsSync _) _ w w _ eq_refl).
  fold (splash_xml loc destFileName) (splash_png loc destFileName).
  change (str (Some v)) with v. rewrite Hv, bool_decide_eq_true_2 by eauto.
  cbn [negb orb].
  destruct (String.eqb (toLowerCase (Path.extname v)) ".png") eqn:Epng.
  - rewrite cleanupAndSetProjectSplashScreenImage_effect. eexists. split; [reflexivity|].
    cbn [files]. split.
    + intros _ Hnot. now apply cleaned_and_set_copied.
    + apply String.eqb_eq in Epng. rewrite Epng. discriminate.
  - destruct (String.eqb (toLowerCase (Path.extname v)) ".xml") eqn:Exml.
    + rewrite cleanupAndSetProjectSplashScreenImage_effect. eexists. split; [reflexivity|].
      cbn [files]. split.
      * apply String.eqb_eq in Exml. rewrite Exml. discriminate.
      * intros _ Hnot. apply cleaned_and_set_copied; congruence.
    + rewrite (bind_ok _ _ _ _ _ (emit_run _ _ _)).
      rewrite cleanupAndSetProjectSplashScreenImage_effect. eexists. split; [reflexivity|].
      apply String.eqb_neq in Epng, Exml. split; intros; contradiction.
Qed.

Lemma splash_image_preference_copied_witness :
  exists w',
    updateProjectSplashScreenImage sample_resolve sample_locations
      "windowSplashScreenAnimatedIcon" "AndroidWindowSplashScreenAnimatedIcon"
      (Some "art/Splash.PNG"%string) world_with_picture
    = (w', Ok tt)
    /\ files w' !! "res/drawable-nodpi/ic_cdv_splashscreen.png"%string = Some (Text "pixels")
    /\ files w' !! "res/drawable/ic_cdv_splashscreen.xml"%string = None.
Proof.
  assert (Hc : files world_with_picture !! "art/Splash.PNG"%string = Some (Text "pixels"))
    by (vm_compute; reflexivity).
  destruct (splash_image_preference_copied sample_resolve sample_locations
              "windowSplashScreenAnimatedIcon" "ic_cdv_splashscreen"
              "AndroidWindowSplashScreenAnimatedIcon" "art/Splash.PNG" (Text "pixels")
              world_with_picture eq_refl (fun _ => eq_refl) eq_refl Hc)
    as (w' & Hrun & Hpng & _).
  exists w'. split; [exact Hrun|].
  apply Hpng; [reflexivity|intros H; vm_compute in H; discriminate H].
Defined.

(** X18.  Without a preference (unset or empty) the image falls back:
    the [.png] variant is removed; for the branding image the [.xml]
    variant is removed too; for the animated icon the default drawable is
    copied to the [.xml] variant when its file exists. *)
Theorem splash_image_without_preference require_resolve loc themeKey destFileName
    prefKey prefValue w :
  SPLASH_SCREEN_IMAGE_BY_THEME_KEY themeKey = Some destFileName ->
  (String.eqb themeKey "android:windowSplashScreenBrandingImage" = false ->
   template_found require_resolve destFileName = true) ->
  truthy prefValue = false ->
  exists w',
    updateProjectSplashScreenImage require_resolve loc themeKey prefKey prefValue w
    = (w', Ok tt)
    /\ events w' = events w ++ [Emit verbose (ImagePreferenceUndefined prefKey)]
    /\ files w' !! splash_png loc destFileName = None
    /\ (String.eqb themeKey "android:windowSplashScreenBrandingImage" = true ->
        files w' !! splash_xml loc destFileName = None)
    /\ (String.eqb themeKey "android:windowSplashScreenBrandingImage" = false ->
        forall p c,
          default_drawable require_resolve themeKey destFileName = Some p ->
          String.eqb p EmptyString = false ->
          p <> splash_png loc destFileName ->
          files w !! p = Some c ->
          files w' !! splash_xml loc destFileName = Some c).
Proof.
  intros Hk Ht Hp.
  pose proof (splash_variants_differ loc themeKey destFileName Hk) as Hne.
  assert (Hv : str prefValue = EmptyString).
  { destruct prefValue as [s|]; [|reflexivity]. cbn [truthy] in Hp.
    apply negb_false_iff, String.eqb_eq in Hp. now subst s. }
  unfold updateProjectSplashScreenImage. rewrite Hk. cbv zeta.
  rewrite (bind_ok _ _ _ _ _ (default_drawable_run _ _ _ w Ht)).
  rewrite (bind_ok (existsSync _) _ w w _ eq_refl).
  fold (splash_xml loc destFileName) (splash_png loc destFileName).
  rewrite Hv. cbn [String.eqb orb negb andb].
  rewrite (bind_ok _ _ _ _ _ (emit_run _ _ _)).
  rewrite cleanupAndSetProjectSplashScreenImage_effect.
  eexists. split; [reflexivity|]. cbn [files events emitted].
  split; [reflexivity|]. split; [apply cleaned_previous_gone; congruence|].
  split.
  - intros Hb. rewrite Hb. unfold cleaned_and_set. cbn [negb andb]. apply lookup_delete_eq.
  - intros Hb p c Hd Hp0 Hnot Hc. rewrite Hb, Hd.
    apply cleaned_and_set_copied; congruence.
Qed.

Lemma splash_image_without_preference_witness :
  exists w',
    updateProjectSplashScreenImage sample_resolve sample_locations
      "windowSplashScreenAnimatedIcon" "AndroidWindowSplashScreenAnimatedIcon" None
      world_with_old_picture
    = (w', Ok tt)
    /\ files w' !! "res/drawable-nodpi/ic_cdv_splashscreen.png"%string = None
    /\ files w' !! "res/drawable/ic_cdv_splashscreen.xml"%string = Some (Text "vector").
Proof.
  assert (Hc : files world_with_old_picture !! "templates/ic_cdv_splashscreen.xml"%string
               = Some (Text "vector")) by (vm_compute; reflexivity).
  destruct (splash_image_without_preference sample_resolve sample_locations
              "windowSplashScreenAnimatedIcon" "ic_cdv_splashscreen"
              "AndroidWindowSplashScreenAnimatedIcon" None world_with_old_picture
              eq_refl (fun _ => eq_refl) eq_refl)
    as (w' & Hrun & _ & Hpng & _ & Hxml).
  exists w'. split; [exact Hrun|]. split; [exact Hpng|].
  apply (Hxml eq_refl "templates/ic_cdv_splashscreen.xml"%string (Text "vector"));
    [reflexivity|reflexivity|intros H; vm_compute in H; discriminate H|exact Hc].
Defined.

(** ** The monad of the project *)

Lemma bindP_ok {A B} (m : P A) (k : A -> P B) p p' a :
  m p = (p', Ok a) -> bindP m k p = k a p'.
Proof. intros H. unfold bindP. now rewrite H. Qed.

Lemma notify_run l text p :
  notify l text p
  = (mkProject (base p) (notices p ++ [(l, text)]) (syncs p) (gradle_properties p), Ok tt).
Proof. reflexivity. Qed.

(** ** [cleanIcons] *)

Lemma mapImageResources_loop folders subDir resourceName : forall (pathMap : resource_map) k v,
  fold_left (fun pathMap drawableFolder =>
               <[Path.join [subDir; drawableFolder; resourceName] := None]> pathMap)
            folders pathMap !! k = Some v ->
  pathMap !! k = Some v
  \/ (v = None /\ exists folder, In folder folders
                                 /\ k = Path.join [subDir; folder; resourceName]).
Proof.
  induction folders as [|f folders IH]; intros pathMap k v; cbn [fold_left].
  - now left.
  - intros H. apply IH in H. destruct H as [H|(-> & folder & Hin & ->)].
    + destruct (decide (Path.join [subDir; f; resourceName] = k)) as [<-|Hne].
      * rewrite lookup_insert_eq in H. injection H as <-. right. split; [reflexivity|].
        exists f. split; [now left|reflexivity].
      * rewrite lookup_insert_ne in H by exact Hne. now left.
    + right. split; [reflexivity|]. exists folder. split; [now right|reflexivity].
Qed.

Lemma mapImageResources_lookup folders subDir resourceName k v :
  mapImageResources folders subDir resourceName !! k = Some v ->
  v = None /\ exists folder, In folder folders
                             /\ k = Path.join [subDir; folder; resourceName].
Proof.
  unfold mapImageResources. intros H. apply mapImageResources_loop in H.
  destruct H as [H|H]; [|exact H]. rewrite lookup_empty in H. discriminate.
Qed.

Lemma mapImageResources_mapped folders subDir resourceName folder :
  In folder folders ->
  mapImageResources folders subDir resourceName
    !! Path.join [subDir; folder; resourceName] = Some None.
Proof.
  unfold mapImageResources. generalize (∅ : resource_map).
  induction folders as [|f folders IH]; intros pathMap Hin; [destruct Hin|].
  cbn [fold_left].
  destruct (in_dec string_dec folder folders) as [Hrest|Hrest]; [now apply IH|].
  destruct Hin as [->|Hin]; [|contradiction].
  clear IH. revert pathMap.
  assert (Hkeep : forall (m : resource_map),
             m !! Path.join [subDir; folder; resourceName] = Some None ->
             fold_left (fun pathMap drawableFolder =>
                          <[Path.join [subDir; drawableFolder; resourceName] := None]> pathMap)
                       folders m
             !! Path.join [subDir; folder; resourceName] = Some None).
  { clear Hrest. induction folders as [|g folders IH]; intros m Hm; [exact Hm|].
    cbn [fold_left]. apply IH.
    destruct (decide (Path.join [subDir; g; resourceName]
                      = Path.join [subDir; folder; resourceName])) as [->|Hne].
    - apply lookup_insert_eq.
    - now rewrite lookup_insert_ne. }
  intros pathMap. apply Hkeep. apply lookup_insert_eq.
Qed.

Lemma Object_assign_lookup sources : forall (target : resource_map) k v,
  Object_assign target sources !! k = Some v ->
  target !! k = Some v \/ exists source, In source sources /\ source !! k = Some v.
Proof.
  unfold Object_assign. induction sources as [|s sources IH]; intros target k v;
    cbn [fold_left].
  - now left.
  - intros H. apply IH in H. destruct H as [H|(source & Hin & H)].
    + apply lookup_union_Some_raw in H. destruct H as [H|[_ H]].
      * right. exists s. split; [now left|exact H].
      * now left.
    + right. exists source. split; [now right|exact H].
Qed.

Lemma Object_assign_null sources : forall (target : resource_map) k,
  (forall source v, In source sources -> source !! k = Some v -> v = None) ->
  target !! k = Some None \/ (exists source, In source sources /\ source !! k = Some None) ->
  Object_assign target sources !! k = Some None.
Proof.
  unfold Object_assign. induction sources as [|s sources IH]; intros target k Hnull Hex;
    cbn [fold_left].
  - destruct Hex as [H|(? & [] & _)]. exact H.
  - apply IH; [intros source v Hin; apply Hnull; now right|].
    destruct (s !! k) as [v|] eqn:Hs.
    + left. rewrite (Hnull s v (or_introl eq_refl) Hs) in Hs.
      apply lookup_union_Some_raw. now left.
    + destruct Hex as [H|(source & [<-|Hin] & H)].
      * left. apply lookup_union_Some_raw. right. now split.
      * congruence.
      * right. now exists source.
Qed.

Lemma icon_resource_name_plain name :
  In name icon_resource_names -> plain_name name = true.
Proof. intros H. repeat (destruct H as [<-|H]; [reflexivity|]). destruct H. Qed.

Lemma icon_target_basename dir folder name :
  In name icon_resource_names -> Path.basename (Path.join [dir; folder; name]) = name.
Proof.
  intros H. change (Path.join [dir; folder; name]) with (Path.join ([dir; folder] ++ [name])).
  apply basename_join. now apply icon_resource_name_plain.
Qed.

(** The map [cleanIcons] builds, which is also the one [updateIcons]
    starts from. *)
Lemma icon_clean_map_lookup folders dir k v :
  Object_assign ∅ (map (mapImageResources folders dir) icon_resource_names) !! k = Some v ->
  v = None
  /\ exists folder name,
       In folder folders /\ In name icon_resource_names
       /\ k = Path.join [dir; folder; name].
Proof.
  intros H. apply Object_assign_lookup in H.
  destruct H as [H|(source & Hin & H)]; [rewrite lookup_empty in H; discriminate|].
  apply in_map_iff in Hin. destruct Hin as (name & <- & Hname).
  apply mapImageResources_lookup in H. destruct H as (-> & folder & Hf & ->).
  split; [reflexivity|]. now exists folder, name.
Qed.

Lemma icon_clean_map_mapped folders dir folder name :
  In folder folders -> In name icon_resource_names ->
  Object_assign ∅ (map (mapImageResources folders dir) icon_resource_names)
    !! Path.join [dir; folder; name] = Some None.
Proof.
  intros Hf Hn. apply Object_assign_null.
  - intros source v Hin Hs. apply in_map_iff in Hin. destruct Hin as (n & <- & _).
    now apply mapImageResources_lookup in Hs.
  - right. exists (mapImageResources folders dir name).
    split; [now apply in_map|now apply mapImageResources_mapped].
Qed.

Lemma legacy_path_basename dir d icon :
  directory_density d = true ->
  Path.basename (legacy_path dir d icon)
  = "ic_launcher" +:+ target_extension (Path.basename (str (src icon))).
Proof.
  intros Hd. unfold legacy_path, getImageResourcePath. fold (target_extension (Path.basename (str (src icon)))).
  change (Path.join [?a; ?b; ?c]) with (Path.join ([a; b] ++ [c])).
  apply basename_join.
  apply (plain_name_app "i" "c_launcher"); try reflexivity.
  apply legacy_extension_no_slash.
Qed.

Lemma substring_from_last c s i :
  last_index_of c s = Some i ->
  exists r, substring i (String.length s - i) s = String c r.
Proof.
  revert i. induction s as [|x s IH]; intros i; cbn [last_index_of]; [discriminate|].
  destruct (last_index_of c s) as [j|] eqn:Hj.
  - intros [= <-]. cbn [String.length Nat.sub substring]. now apply IH.
  - destruct (Ascii.eqb x c) eqn:E; [|discriminate]. intros [= <-].
    apply Ascii.eqb_eq in E. subst x. cbn [String.length Nat.sub substring]. eauto.
Qed.

Lemma target_extension_form sourceName :
  target_extension sourceName = EmptyString
  \/ exists r, target_extension sourceName = String "." r.
Proof.
  unfold target_extension. destruct (endsWith sourceName ".9.png"); [right; eauto|].
  unfold Path.extname, Path.ext_of.
  destruct (last_index_of Path.dot _) as [[|i]|] eqn:Hl; [now left| |now left].
  destruct (String.eqb _ ".."); [now left|].
  destruct (substring_from_last _ _ _ Hl) as (r & ->). right. cbn. eauto.
Qed.

(** X19.  With icons declared, [cleanIcons] emits its note and hands
    [FileUpdater.updatePaths] one map, with the option [all], in which
    every target is one of the eight icon file names in one of the
    [mipmap-*] directories found, all eight in every directory, and every
    target is mapped to [null]: it only ever asks for deletions.  A legacy
    icon whose extension is neither [.png] nor [.xml] (a 9-patch
    [ic_launcher.9.png], a [.jpg], a [.webp]) is not among the targets:
    [cleanIcons] leaves such an icon, which [updateIcons] installs, where
    it is. *)
Theorem cleanIcons_only_deletes projectRoot icons dir folders p :
  icons <> [] ->
  exists rm,
    cleanIcons projectRoot icons dir folders p
    = (mkProject (base p) (notices p ++ [(verbose, "Cleaning icons at " +:+ dir)])
                 (syncs p ++ [mkSync rm projectRoot true]) (gradle_properties p),
       Ok tt)
    /\ (forall k v, rm !! k = Some v ->
          v = None
          /\ exists folder name,
               In folder folders /\ In name icon_resource_names
               /\ k = Path.join [dir; folder; name])
    /\ (forall folder name, In folder folders -> In name icon_resource_names ->
          rm !! Path.join [dir; folder; name] = Some None)
    /\ (forall d icon,
          directory_density d = true ->
          target_extension (Path.basename (str (src icon))) <> ".png"%string ->
          target_extension (Path.basename (str (src icon))) <> ".xml"%string ->
          rm !! legacy_path dir d icon = None).
Proof.
  intros Hne. unfold cleanIcons. destruct icons as [|i0 icons0]; [contradiction|].
  eexists. split; [reflexivity|].
  split; [apply icon_clean_map_lookup|]. split; [apply icon_clean_map_mapped|].
  intros d icon Hd Hpng Hxml.
  destruct (_ !! legacy_path dir d icon) as [v|] eqn:Hl; [exfalso|reflexivity].
  apply icon_clean_map_lookup in Hl. destruct Hl as (_ & folder & name & _ & Hname & Hk).
  apply (f_equal Path.basename) in Hk.
  rewrite legacy_path_basename, icon_target_basename in Hk by assumption.
  subst name. set (ext := target_extension _) in *.
  assert (Hform : ext = EmptyString \/ exists r, ext = String "." r)
    by apply target_extension_form.
  unfold icon_resource_names in Hname. cbn [In] in Hname.
  repeat (destruct Hname as [Hname|Hname];
          [apply (String.app_inj "ic_launcher") in Hname;
           destruct Hform as [Hform|[r Hform]]; congruence|]).
  exact Hname.
Qed.

Lemma cleanIcons_only_deletes_witness :
  exists rm,
    cleanIcons "/project" [legacy_icon "mdpi" "art/x.9.png"] "res" ["mipmap-mdpi"%string]
               empty_project
    = (mkProject empty_world [(verbose, "Cleaning icons at res"%string)]
                 [mkSync rm "/project" true] [], Ok tt)
    /\ rm !! "res/mipmap-mdpi/ic_launcher.png"%string = Some None
    /\ rm !! "res/mipmap-mdpi/ic_launcher.9.png"%string = None.
Proof.
  destruct (cleanIcons_only_deletes "/project" [legacy_icon "mdpi" "art/x.9.png"] "res"
              ["mipmap-mdpi"%string] empty_project)
    as (rm & Hrun & _ & Hall & Hnine); [discriminate|].
  exists rm. split; [exact Hrun|]. split.
  - apply (Hall "mipmap-mdpi"%string "ic_launcher.png"%string); [now left|now left].
  - apply (Hnine "mdpi"%string (legacy_icon "mdpi" "art/x.9.png"));
      [reflexivity|discriminate|discriminate].
Defined.

(** ** [updateFileResources] and [cleanFileResources] *)

Lemma find_snoc {A} (p : A -> bool) l x :
  List.find p (l ++ [x])
  = match List.find p l with
    | Some y => Some y
    | None => if p x then Some x else None
    end.
Proof.
  induction l as [|y l IH]; cbn [app List.find]; [reflexivity|].
  destruct (p y); [reflexivity|exact IH].
Qed.

Lemma map_file_resources_lookup platformDir value files :
  forall (rm rm' : resource_map),
  map_file_resources platformDir value files rm = Ok rm' ->
  forall k,
    rm' !! k = match last_resource_at platformDir k files with
               | Some r => Some (value r)
               | None => rm !! k
               end.
Proof.
  unfold last_resource_at.
  induction files as [|r files IH]; intros rm rm' Hrun k; cbn [map_file_resources] in Hrun.
  - injection Hrun as <-. reflexivity.
  - unfold resource_target in Hrun.
    destruct (res_target r) as [t|] eqn:Ht; [|discriminate].
    rewrite (IH _ _ Hrun k). cbn [rev]. rewrite find_snoc.
    destruct (List.find _ (rev files)); [reflexivity|].
    unfold targets at 1. rewrite Ht.
    destruct (String.eqb (Path.join [platformDir; t]) k) eqn:E.
    + apply String.eqb_eq in E. subst k. apply lookup_insert_eq.
    + apply String.eqb_neq in E. now apply lookup_insert_ne.
Qed.

Lemma map_file_resources_ok platformDir value files :
  Forall (fun r => is_Some (res_target r)) files ->
  forall rm : resource_map, exists rm', map_file_resources platformDir value files rm = Ok rm'.
Proof.
  induction 1 as [|r files [t Ht] _ IH]; intros rm; cbn [map_file_resources].
  - now eexists.
  - unfold resource_target. rewrite Ht. apply IH.
Qed.

Lemma map_file_resources_throw platformDir value files :
  Exists (fun r => res_target r = None) files ->
  forall rm : resource_map, map_file_resources platformDir value files rm = Throw TypeError.
Proof.
  induction 1 as [r files Ht|r files _ IH]; intros rm; cbn [map_file_resources];
    unfold resource_target.
  - now rewrite Ht.
  - destruct (res_target r); [apply IH|reflexivity].
Qed.

(** X20.  With resource files declared, each with a target,
    [updateFileResources] emits its note and hands
    [FileUpdater.updatePaths] one map (without the option [all]) in which
    a path is mapped exactly when some resource goes to it, and then to
    the src of the last resource that does: of two resources with one
    target the later one wins, and nothing else is in the map. *)
Theorem updateFileResources_maps_last files root platformDir p :
  files <> [] ->
  Forall (fun r => is_Some (res_target r)) files ->
  exists rm,
    updateFileResources files root platformDir p
    = (mkProject (base p)
                 (notices p ++ [(verbose, "Updating resource files at " +:+ platformDir)])
                 (syncs p ++ [mkSync rm root false]) (gradle_properties p),
       Ok tt)
    /\ forall k, rm !! k = option_map res_src (last_resource_at platformDir k files).
Proof.
  intros Hne Hall. unfold updateFileResources.
  destruct files as [|r0 files0] eqn:Hfiles; [contradiction|]. rewrite <- Hfiles in *.
  destruct (map_file_resources_ok platformDir res_src files Hall ∅) as (rm & Hrm).
  rewrite Hrm. exists rm. split; [reflexivity|].
  intros k. rewrite (map_file_resources_lookup _ _ _ _ _ Hrm k), lookup_empty.
  now destruct (last_resource_at platformDir k files).
Qed.

Lemma updateFileResources_maps_last_witness :
  exists rm,
    updateFileResources
      [mkFileResource (Some "a.json"%string) (Some "app/google-services.json"%string);
       mkFileResource (Some "b.json"%string) (Some "app/./google-services.json"%string)]
      "/project" "platforms/android" empty_project
    = (mkProject empty_world
                 [(verbose, "Updating resource files at platforms/android"%string)]
                 [mkSync rm "/project" false] [],
       Ok tt)
    /\ rm !! "platforms/android/app/google-services.json"%string
       = Some (Some "b.json"%string)
    /\ rm !! "platforms/android/app/other.json"%string = None.
Proof.
  destruct (updateFileResources_maps_last
              [mkFileResource (Some "a.json"%string) (Some "app/google-services.json"%string);
               mkFileResource (Some "b.json"%string)
                              (Some "app/./google-services.json"%string)]
              "/project" "platforms/android" empty_project)
    as (rm & Hrun & Hrm); [discriminate|repeat constructor; eauto|].
  exists rm. split; [exact Hrun|]. now rewrite !Hrm.
Defined.

(** X21.  Cleaning undoes updating: given the same resource files, each
    with a target, [cleanFileResources] hands [FileUpdater.updatePaths] a
    map (with the option [all]) that holds exactly the targets the map of
    [updateFileResources] holds, every one of them mapped to [null]. *)
Theorem cleanFileResources_same_targets files root platformDir p q :
  files <> [] ->
  Forall (fun r => is_Some (res_target r)) files ->
  exists updated cleaned,
    updateFileResources files root platformDir p
    = (mkProject (base p)
                 (notices p ++ [(verbose, "Updating resource files at " +:+ platformDir)])
                 (syncs p ++ [mkSync updated root false]) (gradle_properties p),
       Ok tt)
    /\ cleanFileResources root files platformDir q
       = (mkProject (base q)
                    (notices q ++ [(verbose, "Cleaning resource files at " +:+ platformDir)])
                    (syncs q ++ [mkSync cleaned root true]) (gradle_properties q),
          Ok tt)
    /\ forall k, cleaned !! k = option_map (fun _ => None) (updated !! k).
Proof.
  intros Hne Hall. unfold updateFileResources, cleanFileResources.
  destruct files as [|r0 files0] eqn:Hfiles; [contradiction|]. rewrite <- Hfiles in *.
  destruct (map_file_resources_ok platformDir res_src files Hall ∅) as (updated & Hu).
  destruct (map_file_resources_ok platformDir (fun _ => None) files Hall ∅)
    as (cleaned & Hc).
  rewrite Hu. rewrite (bindP_ok _ _ _ _ _ (notify_run _ _ q)), Hc.
  exists updated, cleaned. split; [reflexivity|]. split; [reflexivity|].
  intros k. rewrite (map_file_resources_lookup _ _ _ _ _ Hu k).
  rewrite (map_file_resources_lookup _ _ _ _ _ Hc k), lookup_empty.
  now destruct (last_resource_at platformDir k files).
Qed.

Lemma cleanFileResources_same_targets_witness :
  exists updated cleaned,
    updateFileResources
      [mkFileResource (Some "a.json"%string) (Some "app/google-services.json"%string)]
      "/project" "platforms/android" empty_project
    = (mkProject empty_world
                 [(verbose, "Updating resource files at platforms/android"%string)]
                 [mkSync updated "/project" false] [],
       Ok tt)
    /\ cleanFileResources "/project"
         [mkFileResource (Some "a.json"%string) (Some "app/google-services.json"%string)]
         "platforms/android" empty_project
       = (mkProject empty_world
                    [(verbose, "Cleaning resource files at platforms/android"%string)]
                    [mkSync cleaned "/project" true] [],
          Ok tt)
    /\ forall k, cleaned !! k = option_map (fun _ => None) (updated !! k).
Proof.
  apply (cleanFileResources_same_targets
           [mkFileResource (Some "a.json"%string) (Some "app/google-services.json"%string)]
           "/project" "platforms/android" empty_project empty_project);
    [discriminate|repeat constructor; eauto].
Defined.

(** X22.  A resource file without target stops both functions with a
    [TypeError] ([path.join] is given no string): [updateFileResources]
    before it has emitted anything or handed any map over,
    [cleanFileResources] after its note and without handing a map over. *)
Theorem file_resource_without_target files root platformDir p :
  Exists (fun r => res_target r = None) files ->
  updateFileResources files root platformDir p = (p, Throw TypeError)
  /\ cleanFileResources root files platformDir p
     = (mkProject (base p)
                  (notices p ++ [(verbose, "Cleaning resource files at " +:+ platformDir)])
                  (syncs p) (gradle_properties p),
        Throw TypeError).
Proof.
  intros Hex. unfold updateFileResources, cleanFileResources.
  destruct files as [|r0 files0] eqn:Hfiles; [inversion Hex|]. rewrite <- Hfiles in *.
  rewrite (map_file_resources_throw _ res_src _ Hex).
  rewrite (bindP_ok _ _ _ _ _ (notify_run _ _ p)).
  rewrite (map_file_resources_throw _ _ _ Hex). split; reflexivity.
Qed.

Lemma file_resource_without_target_witness :
  updateFileResources
    [mkFileResource (Some "a.json"%string) (Some "app/a.json"%string);
     mkFileResource (Some "b.json"%string) None]
    "/project" "platforms/android" empty_project
  = (empty_project, Throw TypeError).
Proof.
  apply (file_resource_without_target
           [mkFileResource (Some "a.json"%string) (Some "app/a.json"%string);
            mkFileResource (Some "b.json"%string) None]
           "/project" "platforms/android" empty_project).
  right. now left.
Defined.

(** ** [findAndroidLaunchModePreference] *)

(** X23.  [findAndroidLaunchModePreference] never throws and never
    changes the value: it returns [singleTop] when the preference is unset
    or empty, and the preference as it is otherwise, also when it is none
    of [standard], [singleTop], [singleTask] and [singleInstance]
    (compared exactly, so [singletop] is not recognised); in that one case
    it emits a warning naming the value, in every other case nothing. *)
Theorem findAndroidLaunchModePreference_result launchMode p :
  findAndroidLaunchModePreference launchMode p
  = (mkProject (base p)
               (notices p
                ++ if truthy launchMode && negb (recognised_launch_mode (str launchMode))
                   then [launch_mode_warning (str launchMode)] else [])
               (syncs p) (gradle_properties p),
     Ok (if truthy launchMode then str launchMode else "singleTop"%string)).
Proof.
  unfold findAndroidLaunchModePreference, recognised_launch_mode, expectedValues.
  destruct (truthy launchMode); cbn [negb andb].
  - destruct (existsb _ _); cbn [negb]; unfold bindP, retP, notify; cbn.
    + rewrite app_nil_r. now destruct p.
    + reflexivity.
  - unfold retP. rewrite app_nil_r. now destruct p.
Qed.

(** ** [updateProjectStrings] *)

Lemma project_eta p :
  mkProject (base p) (notices p) (syncs p) (gradle_properties p) = p.
Proof. now destruct p. Qed.

Lemma lift_run {A} (m : M A) p w' r :
  m (base p) = (w', r) ->
  lift m p = (mkProject w' (notices p) (syncs p) (gradle_properties p), r).
Proof. intros H. unfold lift. now rewrite H. Qed.

Lemma set_string_text_ok name value strings_doc :
  is_Some (string_text name strings_doc) ->
  exists doc', set_string_text name value strings_doc = Ok doc'.
Proof.
  intros [x Hx]. unfold set_string_text, string_text, find_child in *.
  destruct (find_index _ _) as [i|] eqn:Hf; [now eexists|].
  rewrite (find_index_find_none _ _ Hf) in Hx. discriminate.
Qed.

Lemma set_string_text_effect name value strings_doc doc' :
  set_string_text name value strings_doc = Ok doc' ->
  string_text name doc' = Some (Some value)
  /\ (forall other, other <> name -> string_text other doc' = string_text other strings_doc)
  /\ tag_of doc' = tag_of strings_doc /\ attrib_of doc' = attrib_of strings_doc.
Proof.
  unfold set_string_text.
  destruct (find_child "string" name strings_doc) as [i|] eqn:Hf; [|discriminate].
  intros [= <-]. destruct (found_child _ _ _ _ Hf) as (x & Hx & Hn).
  unfold string_text, set_child_text. rewrite children_of_set_children.
  split; [|split; [|split; [apply tag_of_set_children|apply attrib_of_set_children]]].
  - rewrite (find_update_found _ _ _ i x Hf Hx) by now rewrite named_set_text.
    now destruct x.
  - intros other Hne. erewrite find_update_other; [reflexivity|exact Hx| |].
    + now apply (named_other_name "string" other name).
    + rewrite named_set_text. now apply (named_other_name "string" other name).
Qed.

(** X24.  On a strings document that has the node [app_name] (and the
    node [launcher_name] when a short name is given that differs from the
    name), [updateProjectStrings] completes: the file then holds the name
    as [app_name] and, in that case, the short name as [launcher_name],
    each with every apostrophe escaped; without such a short name
    [launcher_name] keeps whatever text it had; every other string keeps
    its text, no other file changes, and one note is emitted. *)
Theorem updateProjectStrings_written name shortName strings_path p strings_doc :
  xml_at (base p) strings_path = Some strings_doc ->
  is_Some (string_text "app_name" strings_doc) ->
  (short_name_used name shortName = true ->
   is_Some (string_text "launcher_name" strings_doc)) ->
  exists w' doc',
    updateProjectStrings name shortName strings_path p
    = (mkProject w' (notices p ++ [strings_note name strings_path]) (syncs p)
                 (gradle_properties p),
       Ok tt)
    /\ xml_at w' strings_path = Some doc'
    /\ string_text "app_name" doc' = Some (Some (escape_apostrophes name))
    /\ string_text "launcher_name" doc'
       = (if short_name_used name shortName
          then Some (Some (escape_apostrophes (str shortName)))
          else string_text "launcher_name" strings_doc)
    /\ (forall other, other <> "app_name"%string -> other <> "launcher_name"%string ->
                      string_text other doc' = string_text other strings_doc)
    /\ (forall path, path <> strings_path -> files w' !! path = files (base p) !! path).
Proof.
  intros Hdoc Happ Hshort. apply xml_at_files in Hdoc.
  unfold updateProjectStrings.
  assert (Hparse : parseElementtreeSync strings_path (base p) = (base p, Ok strings_doc))
    by (unfold parseElementtreeSync; now rewrite Hdoc).
  rewrite (bindP_ok _ _ _ _ _ (lift_run _ _ _ _ Hparse)), project_eta.
  destruct (set_string_text_ok "app_name" (escape_apostrophes name) _ Happ) as (doc1 & H1).
  rewrite H1. destruct (set_string_text_effect _ _ _ _ H1) as (T1 & O1 & _).
  fold (short_name_used name shortName).
  destruct (short_name_used name shortName) eqn:Hs.
  - destruct (set_string_text_ok "launcher_name" (escape_apostrophes (str shortName)) doc1)
      as (doc2 & H2).
    { rewrite O1 by discriminate. now apply Hshort. }
    rewrite H2. destruct (set_string_text_effect _ _ _ _ H2) as (T2 & O2 & _).
    rewrite (bindP_ok _ _ p p doc2 eq_refl).
    rewrite (bindP_ok _ _ _ _ _ (lift_run _ _ _ _ eq_refl)).
    eexists _, doc2. split; [reflexivity|]. split; [apply xml_at_written|].
    split; [rewrite O2 by discriminate; exact T1|]. split; [exact T2|].
    split; [intros other A B; now rewrite O2, O1|].
    intros path Hne. cbn [files]. apply lookup_insert_ne. congruence.
  - rewrite (bindP_ok _ _ p p doc1 eq_refl).
    rewrite (bindP_ok _ _ _ _ _ (lift_run _ _ _ _ eq_refl)).
    eexists _, doc1. split; [reflexivity|]. split; [apply xml_at_written|].
    split; [exact T1|]. split; [now apply O1|].
    split; [intros other A B; now apply O1|].
    intros path Hne. cbn [files]. apply lookup_insert_ne. congruence.
Qed.

Lemma updateProjectStrings_written_witness :
  exists w' doc',
    updateProjectStrings "Tom's App" (Some "Tom's"%string) "res/values/cdv_strings.xml"
                         (strings_project sample_strings)
    = (mkProject w' [strings_note "Tom's App" "res/values/cdv_strings.xml"] [] [], Ok tt)
    /\ xml_at w' "res/values/cdv_strings.xml" = Some doc'
    /\ string_text "app_name" doc' = Some (Some (escape_apostrophes "Tom's App"))
    /\ string_text "launcher_name" doc' = Some (Some (escape_apostrophes "Tom's"))
    /\ string_text "activity_name" doc' = Some (Some "@string/launcher_name"%string).
Proof.
  destruct (updateProjectStrings_written "Tom's App" (Some "Tom's"%string)
              "res/values/cdv_strings.xml" (strings_project sample_strings) sample_strings)
    as (w' & doc' & Hrun & Hdoc & Ha & Hl & Ho & _);
    [vm_compute; reflexivity|vm_compute; eauto|intros _; vm_compute; eauto|].
  exists w', doc'. split; [exact Hrun|]. split; [exact Hdoc|]. split; [exact Ha|].
  split; [exact Hl|]. now rewrite Ho by discriminate.
Defined.

(** X25.  [updateProjectStrings] writes all or nothing: whenever it
    throws (the strings file is missing or holds no document, or a node it
    assigns to is not there) the project is exactly as it was: no file
    written, nothing emitted. *)
Theorem updateProjectStrings_fails_untouched name shortName strings_path p p' e :
  updateProjectStrings name shortName strings_path p = (p', Throw e) -> p' = p.
Proof.
  unfold updateProjectStrings, bindP at 1, lift at 1, parseElementtreeSync.
  destruct (files (base p) !! strings_path) as [[doc|t]|];
    try (intros [= <- _]; apply project_eta).
  rewrite project_eta.
  destruct (set_string_text "app_name" _ doc) as [doc1|e1];
    [|unfold throwP; now intros [= <- _]].
  destruct (truthy shortName && negb (String.eqb (str shortName) name)).
  - destruct (set_string_text "launcher_name" _ doc1) as [doc2|e2].
    + rewrite (bindP_ok _ _ p p doc2 eq_refl).
      rewrite (bindP_ok _ _ _ _ _ (lift_run _ _ _ _ eq_refl)). discriminate.
    + unfold bindP, throwP. now intros [= <- _].
  - rewrite (bindP_ok _ _ p p doc1 eq_refl).
    rewrite (bindP_ok _ _ _ _ _ (lift_run _ _ _ _ eq_refl)). discriminate.
Qed.

Lemma updateProjectStrings_fails_untouched_witness :
  updateProjectStrings "App" None "res/values/cdv_strings.xml"
    (strings_project (Element "resources" [] None []))
  = (strings_project (Element "resources" [] None []), Throw TypeError)
  /\ fst (updateProjectStrings "App" None "res/values/cdv_strings.xml"
            (strings_project (Element "resources" [] None [])))
     = strings_project (Element "resources" [] None []).
Proof.
  split; [vm_compute; reflexivity|].
  apply (updateProjectStrings_fails_untouched "App" None "res/values/cdv_strings.xml"
           (strings_project (Element "resources" [] None [])) _ TypeError).
  vm_compute. reflexivity.
Defined.

(** ** [warnForDeprecatedSplashScreen] *)

Lemma findall_android_splash_In config_doc splash :
  In splash (findall_android_splash config_doc)
  <-> exists platform,
      In platform (children_of config_doc)
      /\ named "platform" "android" platform = true
      /\ In splash (children_of platform)
      /\ tag_of splash = "splash"%string.
Proof.
  unfold findall_android_splash. rewrite in_flat_map. split.
  - intros (platform & Hp & Hs). apply List.filter_In in Hp, Hs.
    destruct Hp as (Hp & Hn), Hs as (Hs & Ht). apply String.eqb_eq in Ht. now exists platform.
  - intros (platform & Hp & Hn & Hs & Ht). exists platform.
    split; apply List.filter_In; split; try assumption. now apply String.eqb_eq.
Qed.

(** X26.  [warnForDeprecatedSplashScreen] warns exactly when some
    [platform] child of the root of the project descriptor that is named
    [android] has a [splash] child: a [splash] element anywhere else (at
    the top level, under another platform) gives no warning.  It always
    completes and changes nothing but the emitted events. *)
Theorem warnForDeprecatedSplashScreen_exactly config_doc p :
  exists said,
    warnForDeprecatedSplashScreen config_doc p
    = (mkProject (base p) (notices p ++ said) (syncs p) (gradle_properties p), Ok tt)
    /\ ((said = [splash_warning] /\ android_splash_tag config_doc)
        \/ (said = [] /\ ~ android_splash_tag config_doc)).
Proof.
  unfold warnForDeprecatedSplashScreen, android_splash_tag.
  destruct (findall_android_splash config_doc) as [|s l] eqn:Hl; cbn -[append].
  - exists []. split; [unfold retP; now rewrite app_nil_r, project_eta|].
    right. split; [reflexivity|]. intros (platform & splash & H).
    assert (Hin : In splash (findall_android_splash config_doc))
      by (apply findall_android_splash_In; now exists platform).
    now rewrite Hl in Hin.
  - exists [splash_warning]. split; [reflexivity|]. left. split; [reflexivity|].
    assert (Hin : In s (findall_android_splash config_doc)) by (rewrite Hl; now left).
    apply findall_android_splash_In in Hin. destruct Hin as (platform & H).
    now exists platform, s.
Qed.

(** ** The Gradle configuration *)

Lemma parseStringAsType_table type text :
  is_table_type type = true -> parseStringAsType text type = Ok (typed_value type text).
Proof. now destruct type. Qed.

Lemma gradle_config_fold getPreference l :
  Forall (fun m => is_table_type (type m) = true) l ->
  forall c0,
  exists c,
    fold_left (gradle_config_step getPreference) l (Ok c0) = Ok c
    /\ (forall k, (forall m, In m l -> gradleKey m <> k) -> JsObj.get c k = JsObj.get c0 k)
    /\ (List.NoDup (map gradleKey l) ->
        forall m, In m l ->
        JsObj.get c (gradleKey m)
        = if truthy (getPreference (xmlKey m))
          then Some (typed_value (type m) (str (getPreference (xmlKey m))))
          else JsObj.get c0 (gradleKey m)).
Proof.
  induction 1 as [|a l Ha Hl IH]; intros c0.
  - exists c0. split; [reflexivity|]. split; [reflexivity|]. intros _ m [].
  - set (c1 := if truthy (getPreference (xmlKey a))
               then JsObj.set c0 (gradleKey a)
                              (typed_value (type a) (str (getPreference (xmlKey a))))
               else c0).
    assert (Hstep : gradle_config_step getPreference (Ok c0) a = Ok c1).
    { unfold gradle_config_step, c1.
      destruct (truthy (getPreference (xmlKey a))); [|reflexivity].
      now rewrite (parseStringAsType_table _ _ Ha). }
    assert (Hc1 : forall k, gradleKey a <> k -> JsObj.get c1 k = JsObj.get c0 k).
    { intros k Hk. unfold c1. destruct (truthy (getPreference (xmlKey a))); [|reflexivity].
      rewrite JsObj_get_set. apply String.eqb_neq in Hk. now rewrite Hk. }
    destruct (IH c1) as (c & Hfold & Hother & Hin). exists c.
    split; [cbn [fold_left]; now rewrite Hstep|]. split.
    + intros k Hk. rewrite Hother by (intros m Hm; apply Hk; now right).
      apply Hc1, Hk. now left.
    + intros Hnd m [<-|Hm]; inversion Hnd as [|? ? Hnotin Hnd']; subst.
      * rewrite Hother.
        2:{ intros m Hm Heq. apply Hnotin. rewrite <- Heq. now apply in_map. }
        unfold c1. destruct (truthy (getPreference (xmlKey a))); [|reflexivity].
        now rewrite JsObj_get_set, String.eqb_refl.
      * rewrite (Hin Hnd' m Hm). rewrite Hc1; [reflexivity|].
        intros Heq. apply Hnotin. rewrite Heq. now apply in_map.
Qed.

Lemma gradle_table_types :
  Forall (fun m => is_table_type (type m) = true) configXmlToGradleMapping.
Proof. repeat constructor. Qed.

Lemma gradle_table_keys : List.NoDup (map gradleKey configXmlToGradleMapping).
Proof.
  apply (NoDup_count_occ' string_dec). intros k Hk.
  repeat (destruct Hk as [<-|Hk]; [vm_compute; reflexivity|]). destruct Hk.
Qed.

(** X27.  [getUserGradleConfig] never throws: every type of its table
    is one [parseStringAsType] knows.  The object it returns has, for each
    row of the table, the Gradle key exactly when the preference of the row
    is a non-empty text, with the text converted by the type of the row
    (the text itself, [parseFloat] of it, or whether its lower-case form is
    [true]); it has no other key. *)
Theorem getUserGradleConfig_entries getPreference :
  exists config,
    getUserGradleConfig getPreference = Ok config
    /\ (forall m, In m configXmlToGradleMapping ->
        JsObj.get config (gradleKey m)
        = if truthy (getPreference (xmlKey m))
          then Some (typed_value (type m) (str (getPreference (xmlKey m))))
          else None)
    /\ (forall k, (forall m, In m configXmlToGradleMapping -> gradleKey m <> k) ->
                  JsObj.get config k = None).
Proof.
  destruct (gradle_config_fold getPreference _ gradle_table_types JsObj.empty)
    as (config & Hrun & Hother & Hin).
  exists config. split; [exact Hrun|]. split.
  - intros m Hm. now rewrite (Hin gradle_table_keys m Hm).
  - intros k Hk. now rewrite (Hother k Hk).
Qed.

(** X28.  [updateUserProjectGradlePropertiesConfig] always completes
    and hands [GradlePropertiesParser] one object for the project root:
    [org.gradle.jvmargs] is in it exactly when the argument is a non-empty
    text; [kotlin.code.style] is in it exactly when the preference
    [GradlePluginKotlinEnabled] is a non-empty text, whatever the text
    says, and is the preference [GradlePluginKotlinCodeStyle] or, when that
    is empty, [official]; it has no other key. *)
Theorem gradle_properties_handed root getPreference jvmargs p :
  exists props,
    updateUserProjectGradlePropertiesConfig root getPreference jvmargs p
    = (mkProject (base p) (notices p) (syncs p) (gradle_properties p ++ [(root, props)]),
       Ok tt)
    /\ JsObj.get props "org.gradle.jvmargs"
       = (if truthy jvmargs then jvmargs else None)
    /\ JsObj.get props "kotlin.code.style"
       = (if truthy (getPreference "GradlePluginKotlinEnabled"%string)
          then Some (first_set [getPreference "GradlePluginKotlinCodeStyle"%string]
                               "official")
          else None)
    /\ (forall k, k <> "org.gradle.jvmargs"%string -> k <> "kotlin.code.style"%string ->
                  JsObj.get props k = None).
Proof.
  unfold updateUserProjectGradlePropertiesConfig, GradlePropertiesParser_configure.
  eexists. split; [reflexivity|].
  assert (Hne : forall a b : string, a <> b -> String.eqb b a = false)
    by (intros a b H; apply String.eqb_neq; congruence).
  assert (Hj : (if truthy jvmargs then Some (str jvmargs) else None)
               = (if truthy jvmargs then jvmargs else None))
    by (now destruct jvmargs).
  assert (Hs : str (js_or (getPreference "GradlePluginKotlinCodeStyle"%string)
                          (Some "official"%string))
               = first_set [getPreference "GradlePluginKotlinCodeStyle"%string] "official").
  { unfold first_set, js_or. cbn [fold_right].
    now destruct (truthy (getPreference "GradlePluginKotlinCodeStyle"%string)). }
  rewrite <- Hj, <- Hs.
  destruct (truthy jvmargs), (truthy (getPreference "GradlePluginKotlinEnabled"%string));
    rewrite ?JsObj_get_set; (split; [reflexivity|]); (split; [reflexivity|]);
    intros k H1 H2; rewrite ?JsObj_get_set, ?(Hne _ _ H1), ?(Hne _ _ H2); reflexivity.
Qed.

(** X29.  The preference [GradlePluginKotlinEnabled] is read in two
    ways: a non-empty text whose lower-case form is not [true] (such as
    [false]) makes [getUserGradleConfig] report the plugin as disabled,
    and yet [updateUserProjectGradlePropertiesConfig] sets
    [kotlin.code.style]. *)
Theorem kotlin_flag_read_two_ways root getPreference jvmargs p text :
  getPreference "GradlePluginKotlinEnabled"%string = Some text ->
  text <> EmptyString ->
  toLowerCase text <> "true"%string ->
  (exists config,
      getUserGradleConfig getPreference = Ok config
      /\ JsObj.get config "IS_GRADLE_PLUGIN_KOTLIN_ENABLED" = Some (GBoolean false))
  /\ exists props,
      updateUserProjectGradlePropertiesConfig root getPreference jvmargs p
      = (mkProject (base p) (notices p) (syncs p) (gradle_properties p ++ [(root, props)]),
         Ok tt)
      /\ is_Some (JsObj.get props "kotlin.code.style").
Proof.
  intros Hpref Hne Hlow. apply String.eqb_neq in Hne, Hlow. split.
  - destruct (gradle_config_fold getPreference _ gradle_table_types JsObj.empty)
      as (config & Hrun & _ & Hin).
    exists config. split; [exact Hrun|].
    pose proof (Hin gradle_table_keys
                  (mkMapping "GradlePluginKotlinEnabled" "IS_GRADLE_PLUGIN_KOTLIN_ENABLED"
                             TBoolean)) as Hrow.
    cbn [xmlKey gradleKey type typed_value] in Hrow. rewrite Hrow by (cbn; tauto).
    rewrite Hpref. cbn [truthy]. rewrite Hne. cbn [negb].
    change (str (Some text)) with text. now rewrite Hlow.
  - eexists. split; [reflexivity|]. rewrite Hpref. cbn [truthy]. rewrite Hne. cbn [negb].
    rewrite JsObj_get_set, String.eqb_refl. eauto.
Qed.

Lemma kotlin_flag_read_two_ways_witness :
  (exists config,
      getUserGradleConfig sample_preferences = Ok config
      /\ JsObj.get config "IS_GRADLE_PLUGIN_KOTLIN_ENABLED" = Some (GBoolean false))
  /\ exists props,
      updateUserProjectGradlePropertiesConfig "/app" sample_preferences None empty_project
      = (mkProject (base empty_project) (notices empty_project) (syncs empty_project)
                   (gradle_properties empty_project ++ [("/app"%string, props)]),
         Ok tt)
      /\ is_Some (JsObj.get props "kotlin.code.style").
Proof.
  apply (kotlin_flag_read_two_ways "/app" sample_preferences None empty_project "false");
    [reflexivity|discriminate|discriminate].
Defined.
